(** * A devotional Bible-reading application: reading plan, generation
      fall-backs and the local-storage "sync" layer.

    Shallow embedding of [constants.ts], [services/geminiService.ts],
    [services/syncService.ts] and of the handlers of the [FaithDiary],
    [EvangelismMission] and [BibleReading] components, followed by the
    properties of the reading plan, of the image-generation retries and
    fall-backs, of the error handling of the generation entry points, of the
    archive and meditation-status stores, of the diary and of the reading
    cache. The second half of each part covers the table of the schedule and
    the day number of a reading, the archive of the readings, the gate of the
    API key, and the components that show tips, keywords, songs, sermon
    outlines and explanations.

    Conventions.
    - A JavaScript [number] holding an integer is a [Z]; [Math.floor (a / b)]
      on such integers is [Z.div], the operator [%] is [Z.rem].
    - A [Date] is its time value (milliseconds since the epoch). The time
      zone of the browser is the pair of functions that the code observes it
      through, the [Date] constructor and [setHours (0, 0, 0, 0)]; [Calendar]
      gives them for the zones at a fixed offset from UTC and for the zone of
      Sydney. The date of [toISOString] is the date in UTC.
    - A string is the sequence of the UTF-8 bytes of its text.
    - [localStorage] is a finite map from strings to strings; [JSON] is an
      interface ([JSON]) with the laws the code relies on ([JSONLaws]).
    - Effectful code lives in the monad [M]: a state (the trace of calls and
      delays and the storage, paired with the state of a component where there
      is one) and a result that is a returned value or a thrown exception.
      [async] functions are sequenced at their [await]s; the generative-AI
      service is a function from the number of the call and the request to
      its outcome.
    - A component is its state record and one function per handler; what
      happens between a handler's call and the settling of a pending fetch
      is a list of actions. *)

From Stdlib Require Import ZArith List String Ascii Bool Lia.
From stdpp Require Import gmap strings list pretty.

Local Open Scope string_scope.
Local Open Scope Z_scope.
Local Open Scope list_scope.

(** ** [i18n.tsx]: the two languages *)

Inductive Language := ko | en.

#[global] Instance Language_eq_dec : EqDecision Language.
Proof. solve_decision. Defined.

(** The language tag as it appears inside template strings. *)
Definition Language_code (l : Language) : string :=
  match l with ko => "ko" | en => "en" end.

(** ** [constants.ts]: the reading plan *)

Module Constants.

Record BookName := { name_ko : string; name_en : string }.

(** [book[language]] *)
Definition localized (b : BookName) (l : Language) : string :=
  match l with ko => name_ko b | en => name_en b end.

Record Epistle := { ep_book : BookName; ep_chapters : Z }.

Record ReadingPlanItem := { rp_book : BookName; rp_chapter : Z }.

(** [types.ts]: [Reading] and [DailyReading = [Reading, Reading]] *)
Record Reading := { book : string; chapter : Z }.
Definition DailyReading : Type := Reading * Reading.

Definition Epistle_of (k e : string) (n : Z) : Epistle :=
  {| ep_book := {| name_ko := k; name_en := e |}; ep_chapters := n |}.

Definition PAULINE_EPISTLES : list Epistle :=
  [ Epistle_of "갈라디아서" "Galatians" 6;
    Epistle_of "데살로니가전서" "1 Thessalonians" 5;
    Epistle_of "데살로니가후서" "2 Thessalonians" 3;
    Epistle_of "고린도전서" "1 Corinthians" 16;
    Epistle_of "고린도후서" "2 Corinthians" 13;
    Epistle_of "로마서" "Romans" 16;
    Epistle_of "골로새서" "Colossians" 4;
    Epistle_of "빌레몬서" "Philemon" 1;
    Epistle_of "에베소서" "Ephesians" 6;
    Epistle_of "빌립보서" "Philippians" 4;
    Epistle_of "디모데전서" "1 Timothy" 6;
    Epistle_of "디도서" "Titus" 3;
    Epistle_of "디모데후서" "2 Timothy" 4 ].

(** The body of [forEach]'s callback:
    [for (let i = 1; i <= chapters; i++) plan.push({ book, chapter: i })].
    [fuel] bounds the number of iterations; [chapters_loop_fuel] below shows
    that [Z.to_nat (chapters + 1 - i)] iterations are all the loop makes. *)
Fixpoint chapters_loop (fuel : nat) (b : BookName) (chapters i : Z)
    (plan : list ReadingPlanItem) : list ReadingPlanItem :=
  match fuel with
  | O => plan
  | S fuel' =>
      if i <=? chapters
      then chapters_loop fuel' b chapters (i + 1)
             (plan ++ [ {| rp_book := b; rp_chapter := i |} ])
      else plan
  end.

(** [generateReadingPlan], for an arbitrary list of epistles: [plan] starts
    empty and every epistle pushes its chapters onto it. *)
Definition generateReadingPlanOf (epistles : list Epistle) : list ReadingPlanItem :=
  fold_left
    (fun plan e =>
       chapters_loop (Z.to_nat (ep_chapters e)) (ep_book e) (ep_chapters e) 1 plan)
    epistles [].

Definition generateReadingPlan : list ReadingPlanItem :=
  generateReadingPlanOf PAULINE_EPISTLES.

(** [export const readingPlan = generateReadingPlan ()] *)
Definition readingPlan : list ReadingPlanItem := generateReadingPlan.

Definition totalChapters : Z := Z.of_nat (length readingPlan).

(** The chapters of one epistle, in the specification's words. *)
Definition chapters_of (e : Epistle) : list ReadingPlanItem :=
  (fun c => {| rp_book := ep_book e; rp_chapter := c |}) <$> seqZ 1 (ep_chapters e).

(** [a[i]] for a JavaScript array: [undefined] (here [None]) out of range. *)
Definition array_get {A} (a : list A) (i : Z) : option A :=
  if i <? 0 then None else a !! Z.to_nat i.

Definition oneDay : Z := 1000 * 60 * 60 * 24.

Section DailyReading.

(** The local time zone of the browser, as far as the code observes it:
    [makeLocalDate y m d] is [new Date (y, m, d).getTime ()] and
    [setHours0 t] the time value after [setHours (0, 0, 0, 0)] on a date
    whose time value is [t], that is, the local midnight of [t]'s day. *)
Variable makeLocalDate : Z -> Z -> Z -> Z.
Variable setHours0 : Z -> Z.

Definition SCHEDULE_START_DATE : Z := setHours0 (makeLocalDate 2024 6 27).

(** [None] stands for the [TypeError] of reading [.book] of [undefined]. *)
Definition getDailyReading (date : Z) (language : Language) : option DailyReading :=
  let currentDate := setHours0 date in
  let dayOfSchedule := (currentDate - SCHEDULE_START_DATE) / oneDay in
  let dayOfSchedule := if dayOfSchedule <? 0 then 0 else dayOfSchedule in
  let startIndex := Z.rem (dayOfSchedule * 2) totalChapters in
  match array_get readingPlan startIndex,
        array_get readingPlan (Z.rem (startIndex + 1) totalChapters) with
  | Some firstChapterItem, Some secondChapterItem =>
      Some ({| book := localized (rp_book firstChapterItem) language;
               chapter := rp_chapter firstChapterItem |},
            {| book := localized (rp_book secondChapterItem) language;
               chapter := rp_chapter secondChapterItem |})
  | _, _ => None
  end.

(** The day of the schedule as the specification words it: whole days
    elapsed between the start date and the local midnight of [date], never
    below zero. *)
Definition elapsedDays (date : Z) : Z :=
  Z.max 0 ((setHours0 date - SCHEDULE_START_DATE) / oneDay).

End DailyReading.

(** A concrete zone for examples: UTC. *)
Definition utc_setHours0 (t : Z) : Z := t - t mod oneDay.

(** Days from 1970-01-01 to the civil date [y]-[m+1]-[d] (month 0-indexed as
    in the [Date] constructor), proleptic Gregorian calendar. *)
Definition days_from_civil (y m d : Z) : Z :=
  let m1 := m + 1 in
  let y' := if m1 <=? 2 then y - 1 else y in
  let era := y' / 400 in
  let yoe := y' - era * 400 in
  let mp := (m1 + 9) mod 12 in
  let doy := (153 * mp + 2) / 5 + d - 1 in
  let doe := yoe * 365 + yoe / 4 - yoe / 100 + doy in
  era * 146097 + doe - 719468.

Definition utc_makeLocalDate (y m d : Z) : Z := days_from_civil y m d * oneDay.

End Constants.

(** ** JavaScript values and built-ins used by the code *)

Module JS.

Definition dquote : string := String (ascii_of_nat 34) EmptyString.

(** Truthiness of a string value: only the empty string is falsy. *)
Definition truthy (s : string) : bool := negb (String.eqb s "").

(** Truthiness of [string | null | undefined]. *)
Definition truthy_opt (o : option string) : bool :=
  match o with Some s => truthy s | None => false end.

(** A possibly [undefined] value inside a template literal. *)
Definition template_arg (o : option string) : string :=
  match o with Some s => s | None => "undefined" end.

(** [s.includes (sub)] *)
Fixpoint includes (s sub : string) : bool :=
  String.prefix sub s ||
  match s with
  | EmptyString => false
  | String _ s' => includes s' sub
  end.

(** [s.trim ()]. A string is the sequence of the UTF-8 bytes of its text.
    The white space removed is ECMAScript's WhiteSpace and LineTerminator:
    U+0009 to U+000D and U+0020, of one byte; U+00A0, of two bytes; U+1680,
    U+2000 to U+200A, U+2028, U+2029, U+202F, U+205F, U+3000 and U+FEFF, of
    three bytes. *)
Definition is_white_space (c : ascii) : bool :=
  let n := nat_of_ascii c in
  (n =? 32)%nat || ((9 <=? n)%nat && (n <=? 13)%nat).

(** U+00A0 is C2 A0. *)
Definition is_white_space2 (c1 c2 : ascii) : bool :=
  (nat_of_ascii c1 =? 194)%nat && (nat_of_ascii c2 =? 160)%nat.

(** U+1680 is E1 9A 80; U+2000 to U+200A are E2 80 80 to E2 80 8A; U+2028,
    U+2029 and U+202F are E2 80 A8, E2 80 A9 and E2 80 AF; U+205F is
    E2 81 9F; U+3000 is E3 80 80; U+FEFF is EF BB BF. *)
Definition is_white_space3 (c1 c2 c3 : ascii) : bool :=
  let n1 := nat_of_ascii c1 in
  let n2 := nat_of_ascii c2 in
  let n3 := nat_of_ascii c3 in
  ((n1 =? 225)%nat && (n2 =? 154)%nat && (n3 =? 128)%nat)
  || ((n1 =? 226)%nat && (n2 =? 128)%nat
      && (((128 <=? n3)%nat && (n3 <=? 138)%nat)
          || (n3 =? 168)%nat || (n3 =? 169)%nat || (n3 =? 175)%nat))
  || ((n1 =? 226)%nat && (n2 =? 129)%nat && (n3 =? 159)%nat)
  || ((n1 =? 227)%nat && (n2 =? 128)%nat && (n3 =? 128)%nat)
  || ((n1 =? 239)%nat && (n2 =? 187)%nat && (n3 =? 191)%nat).

Fixpoint trimStart (s : string) : string :=
  match s with
  | EmptyString => EmptyString
  | String c1 s1 =>
      if is_white_space c1 then trimStart s1
      else
        match s1 with
        | EmptyString => s
        | String c2 s2 =>
            if is_white_space2 c1 c2 then trimStart s2
            else
              match s2 with
              | EmptyString => s
              | String c3 s3 => if is_white_space3 c1 c2 c3 then trimStart s3 else s
              end
        end
  end.

Definition reverse_string (s : string) : string :=
  string_of_list_ascii (List.rev (list_ascii_of_string s)).

(** [trimStart] on the bytes in reverse order: the last byte of a code
    point comes first. *)
Fixpoint trimStart_reversed (s : string) : string :=
  match s with
  | EmptyString => EmptyString
  | String c1 s1 =>
      if is_white_space c1 then trimStart_reversed s1
      else
        match s1 with
        | EmptyString => s
        | String c2 s2 =>
            if is_white_space2 c2 c1 then trimStart_reversed s2
            else
              match s2 with
              | EmptyString => s
              | String c3 s3 =>
                  if is_white_space3 c3 c2 c1 then trimStart_reversed s3 else s
              end
        end
  end.

Definition trimEnd (s : string) : string :=
  reverse_string (trimStart_reversed (reverse_string s)).

Definition trim (s : string) : string := trimEnd (trimStart s).

(** A thrown value, as far as the code inspects it: [instanceof Error],
    [.message], [.name] and [JSON.stringify]. *)
Record JsError := {
  isError : bool;
  name : string;
  message : string;
  json : string }.

(** [new Error (msg)]; its own properties are not enumerable. *)
Definition Error (msg : string) : JsError :=
  {| isError := true; name := "Error"; message := msg; json := "{}" |}.

Definition SyntaxError : JsError :=
  {| isError := true; name := "SyntaxError"; message := "Unexpected token";
     json := "{}" |}.

Definition QuotaExceededError : JsError :=
  {| isError := true; name := "QuotaExceededError";
     message := "The quota has been exceeded."; json := "{}" |}.

(** [JSON.stringify] and [JSON.parse] at a TypeScript type; [None] is the
    [SyntaxError] of [JSON.parse]. *)
Class JSON (A : Type) := {
  JSON_stringify : A -> string;
  JSON_parse : string -> option A }.

(** What the code relies on: a written value is read back as it was, and
    a serialization is never the empty (falsy) string. *)
Class JSONLaws (A : Type) `{JSON A} : Prop := {
  JSON_roundtrip : forall x : A, JSON_parse (JSON_stringify x) = Some x;
  JSON_truthy : forall x : A, truthy (JSON_stringify x) = true }.

(** *** Results and the monad of effectful code *)

Inductive Result (A : Type) :=
  | Returned (a : A)
  | Thrown (e : JsError)
  | OutOfFuel.
Arguments Returned {A} a.
Arguments Thrown {A} e.
Arguments OutOfFuel {A}.

Definition M (S A : Type) : Type := S -> Result A * S.

Definition ret {S A} (a : A) : M S A := fun s => (Returned a, s).

Definition bind {S A B} (m : M S A) (k : A -> M S B) : M S B :=
  fun s =>
    match m s with
    | (Returned a, s') => k a s'
    | (Thrown e, s') => (Thrown e, s')
    | (OutOfFuel, s') => (OutOfFuel, s')
    end.

Definition throw {S A} (e : JsError) : M S A := fun s => (Thrown e, s).

(** [try { m } catch (e) { h e }] *)
Definition try_catch {S A} (m : M S A) (h : JsError -> M S A) : M S A :=
  fun s =>
    match m s with
    | (Thrown e, s') => h e s'
    | r => r
    end.

(** [try { m } finally { f }], for an [f] that does not throw. *)
Definition try_finally {S A} (m : M S A) (f : S -> S) : M S A :=
  fun s => let '(r, s') := m s in (r, f s').

(** Running a computation on the first component of a pair of states. *)
Definition lift {S C A} (m : M S A) : M (S * C) A :=
  fun sc => let '(r, s') := m (fst sc) in (r, (s', snd sc)).

(** Updating the second component: a component's [setState]. *)
Definition setState {S C} (f : C -> C) : M (S * C) unit :=
  fun sc => (Returned tt, (fst sc, f (snd sc))).

Definition getState {S C} : M (S * C) C := fun sc => (Returned (snd sc), sc).

End JS.

Export JS.

Notation "'let*' x ':=' c1 'in' c2" := (bind c1 (fun x => c2))
  (at level 10, x name, c1 at level 100, c2 at level 200).

(** ** [services/geminiService.ts] *)

Module Gemini.

Inductive Model := gemini_2_5_pro | gemini_2_5_flash | gemini_2_5_flash_image.

(** The [config] of a request: none, a JSON response constrained by a schema
    with the given required properties, or [responseModalities: [IMAGE]]. *)
Inductive Config :=
  | NoConfig
  | JsonResponse (required : list string)
  | ImageModality.

(** [contents] is the list of the texts of its parts. *)
Record Request := { model : Model; contents : list string; config : Config }.

Record InlineData := { data : option string }.
Record Part := { part_text : option string; inlineData : option InlineData }.
(** [candidate.content?.parts] *)
Record Candidate := { content_parts : option (list Part) }.
Record Response := {
  text : option string;
  (** [promptFeedback?.blockReason] *)
  blockReason : option string;
  candidates : option (list Candidate) }.

Inductive Outcome := Resolved (r : Response) | Rejected (e : JsError).

Inductive Event :=
  | ModelCall (r : Request) (o : Outcome)
  | Sleep (ms : Z).

Record World := { trace : list Event; localStorage : gmap string string }.

Definition is_call (e : Event) : bool :=
  match e with ModelCall _ _ => true | Sleep _ => false end.

Definition calls (t : list Event) : list Event := List.filter is_call t.
Definition sleeps (t : list Event) : list Z :=
  flat_map (fun e => match e with Sleep ms => [ms] | _ => [] end) t.

(** The environment of the page: the API key of the build, the generative-AI
    service (the outcome of its [n]-th call, which may depend on the request)
    and whether the browser accepts a write to local storage. *)
Record Env := {
  VITE_GEMINI_API_KEY : option string;
  service : nat -> Request -> Outcome;
  storage_accepts : gmap string string -> string -> string -> bool }.

Record StoryKeywords := {
  kw_positive : list string;
  kw_sin : list string;
  kw_hope : list string }.

(** [types.ts] *)
Record Song := { title : string; artist : string }.

(** The parsed response of the music recommendation; [songs] may be absent. *)
Record SongsResponse := { songs : option (list Song) }.

Record ComprehensiveData := {
  cd_passage : string;
  cd_meditationGuide : string;
  cd_context : string;
  cd_intention : string;
  cd_imagePrompt : string }.

Record Prompts := {
  p_comprehensiveReading : string;
  p_evangelismTips : string;
  p_evangelismTipsError : string;
  p_imageFallback : string;
  p_recommendMusic : string;
  p_recommendMusicContextPrefix : string;
  p_prayerGuide : string;
  p_prayerGuideError : string;
  p_sermonOutline : string;
  p_sermonOutlineError : string;
  p_storyKeywords : string }.

(** The prompts of a language, restricted to the properties the functions
    below read. An argument left out of the call is [undefined]. *)
Definition getPrompts (language : Language) (book : string) (chapter1 chapter2 : Z)
    (passage context : option string) : Prompts :=
  match language with
  | ko =>
      {| p_comprehensiveReading :=
           "성경 " +:+ book +:+ " " +:+ (pretty chapter1) +:+ "장부터 " +:+ (pretty chapter2) +:+ "장까지의 포괄적인 묵상 자료를 생성해 주세요. 다음 JSON 스키마에 따라 응답을 생성해야 합니다.

요청 상세:
1.  **passage**: " +:+ book +:+ " " +:+ (pretty chapter1) +:+ "-" +:+ (pretty chapter2) +:+ "의 전체 본문 (현대적인 한국어 번역, 각 절 번호 포함).
2.  **meditationGuide**: 본문에 기반한 묵상 가이드 ('**'로 제목을 구분하고, 각 항목은 줄바꿈으로 구분합니다. 형식: 핵심 메시지, 나를 위한 질문, 오늘의 적용, 마치는 기도).
3.  **context**: 본문의 역사적, 문화적 배경 (약 100 단어 내외).
4.  **intention**: 본문이 기록된 핵심 의도 (저자의 목적, 신학적 메시지, 기대하는 변화 등을 3-4 문단으로 설명).
5.  **imagePrompt**: '" +:+ book +:+ "'의 핵심 주제를 상징적으로 나타내는 안전한 이미지 프롬프트. 사람, 종교적 인물, 갈등 요소를 제외하고 오직 사물, 자연, 빛만을 사용하여 사실적인 유화 스타일로 생성할 수 있는 프롬프트. (예: '돌바닥에 놓인 끊어진 쇠사슬 위로 창문에서 밝은 빛이 쏟아져 들어옵니다. 자유와 새로운 시작을 상징합니다.')";
         p_evangelismTips :=
           "당신은 지혜롭고 열정적인 전도자입니다. 다음 성경 본문의 핵심 메시지를 바탕으로, 믿지 않는 친구나 이웃에게 복음을 자연스럽고 사랑이 담긴 방식으로 전할 수 있는 방법을 제안해 주세요. 한국어로 작성해 주세요.

    다음 내용을 포함해 주세요:
    1.  **나눔을 위한 핵심 포인트**: 이 본문의 어떤 부분을 강조하며 이야기하면 좋을까요?
    2.  **대화 시작 아이디어**: 어떻게 자연스럽게 대화를 시작할 수 있을까요? (예: 일상적인 질문과 연결하기)
    3.  **대화 예시**: 짧은 대화 예시를 보여주세요.

    성경 본문:
    " +:+ (template_arg passage);
         p_evangelismTipsError :=
           "전도 팁 생성에 실패했습니다. 잠시 후 다시 시도해 주세요.";
         p_imageFallback :=
           "고대 중동의 평화로운 풍경. 올리브 나무와 돌길이 있는 언덕의 사실적인 유화.";
         p_recommendMusic :=
           "당신은 깊은 영성을 가진 찬양 인도자입니다. 다음 글의 내용과 정서적 분위기를 깊이 분석하여, 그에 가장 잘 어울리는 찬양(CCM 또는 찬송가) 3~5곡을 추천해 주세요. 각 곡에 대해 정확한 곡명과 아티스트를 알려주세요.";
         p_recommendMusicContextPrefix :=
           "
[분석할 글]
" +:+ (template_arg context);
         p_prayerGuide :=
           "당신은 신자들의 기도 생활을 돕는 영적 멘토입니다. 다음 성경 본문을 바탕으로, 사용자가 기도 훈련을 할 수 있도록 A.C.T.S.(찬양 Adoration, 고백 Confession, 감사 Thanksgiving, 간구 Supplication) 모델을 사용한 기도문을 작성해 주세요. 각 부분을 명확히 구분하고, 사용자가 자신의 기도를 덧붙일 수 있도록 영감 있는 방식으로 작성해 주세요. 한국어로 작성해 주세요.

    기도문 형식:
    **찬양 (Adoration)**:
    오늘 말씀에서 드러난 하나님의 성품과 그분의 위대하심을 찬양하는 기도문을 작성합니다.

    **고백 (Confession)**:
    말씀에 비추어 자신의 죄와 연약함을 솔직하게 인정하고 용서를 구하는 고백의 기도문을 작성합니다.

    **감사 (Thanksgiving)**:
    예수 그리스도의 십자가 은혜와 오늘 말씀을 통해 깨닫게 하신 것에 대한 감사의 기도문을 작성합니다.

    **간구 (Supplication)**:
    말씀을 삶에 적용하기 위한 기도, 자신과 이웃, 공동체를 위한 2-3가지 구체적인 기도 제목을 제안합니다.

    성경 본문:
    " +:+ (template_arg passage);
         p_prayerGuideError :=
           "기도문 생성에 실패했습니다. 잠시 후 다시 시도해 주세요.";
         p_sermonOutline :=
           "당신은 목회자들이 설교를 준비하는 것을 돕는 신학 컨설턴트입니다. 다음 성경 본문을 바탕으로, 명확하고 영감을 주는 설교 개요를 작성해 주세요. 한국어로 작성해 주세요.

설교 개요 형식:
1.  **설교 제목**: 본문의 핵심을 담은 창의적인 제목
2.  **중심 메시지**: 설교를 통해 전달하고자 하는 한 문장의 핵심 메시지
3.  **서론**: 청중의 관심을 끌고, 본문의 배경을 간략히 설명하며, 설교의 방향을 제시합니다.
4.  **본론 (3가지 대지)**:
    *   첫 번째 대지: (주제와 설명)
    *   두 번째 대지: (주제와 설명)
    *   세 번째 대지: (주제와 설명)
5.  **결론**: 설교 내용을 요약하고, 성도들이 삶에 적용할 수 있는 구체적인 도전과 격려의 메시지를 전달하며 기도로 마무리합니다.

성경 본문:
" +:+ (template_arg passage);
         p_sermonOutlineError :=
           "설교 개요 생성에 실패했습니다. 잠시 후 다시 시도해 주세요.";
         p_storyKeywords :=
           "성경 본문에서 가장 중심이 되는 스토리 키워드를 1~3개 단어로 추출하여 다음 세 가지 카테고리로 분류해 주세요. 각 카테고리별로 2~4개의 키워드를 찾아주세요.
1. **positive**: 예수님의 긍정적인 가르침, 사랑, 은혜, 구원 등 긍정적이고 따뜻한 주제를 나타내는 키워드. (노란색)
2. **sin**: 죄, 갈등, 경고, 회개, 인간의 연약함 등 죄에 대한 적대적인 태도나 어두운 주제를 나타내는 키워드. (핑크색)
3. **hope**: 미래, 소망, 약속, 부활, 천국 등 미래 지향적이고 희망적인 주제를 나타내는 키워드. (연두색)

성경 본문:
" +:+ (template_arg passage) |}
  | en =>
      {| p_comprehensiveReading :=
           "Please generate comprehensive meditation material for " +:+ book +:+ " chapters " +:+ (pretty chapter1) +:+ " to " +:+ (pretty chapter2) +:+ ". The response must follow this JSON schema.

Request Details:
1.  **passage**: The full text of " +:+ book +:+ " " +:+ (pretty chapter1) +:+ "-" +:+ (pretty chapter2) +:+ " (in a modern English translation, with verse numbers).
2.  **meditationGuide**: A meditation guide based on the passage (use '**' to separate titles, and newlines for each item. Format: Core Message, Questions for Me, Today's Application, Closing Prayer).
3.  **context**: The historical and cultural background of the passage (around 100 words).
4.  **intention**: The core intention behind the passage (explain the author's purpose, theological message, and expected change in 3-4 paragraphs).
5.  **imagePrompt**: A safe image prompt that symbolically represents the core theme of '" +:+ book +:+ "'. The prompt should be for a realistic oil painting style, using only objects, nature, and light, excluding people, religious figures, or conflict elements. (e.g., 'Bright light streams from a window onto a broken chain lying on a stone floor, symbolizing freedom and a new beginning.')";
         p_evangelismTips :=
           "You are a wise and passionate evangelist. Based on the core message of the following Bible passage, please suggest ways to share the gospel with non-believing friends or neighbors in a natural and loving manner. Write in English.

    Please include the following:
    1.  **Key Points for Sharing**: Which parts of this passage should be emphasized in conversation?
    2.  **Conversation Starter Ideas**: How can one naturally start a conversation? (e.g., connecting to everyday questions)
    3.  **Example Dialogue**: Provide a short example conversation.

    Bible Passage:
    " +:+ (template_arg passage);
         p_evangelismTipsError :=
           "Failed to generate evangelism tips. Please try again later.";
         p_imageFallback :=
           "A peaceful landscape in the ancient Middle East. A realistic oil painting of a hill with olive trees and a stone path.";
         p_recommendMusic :=
           "You are a worship leader with deep spirituality. Please analyze the content and emotional atmosphere of the following text and recommend 3-5 of the most fitting praise songs (CCM or hymns). Provide the exact title and artist for each song.";
         p_recommendMusicContextPrefix :=
           "
[Text to analyze]
" +:+ (template_arg context);
         p_prayerGuide :=
           "You are a spiritual mentor who helps believers in their prayer life. Based on the following Bible passage, please write a prayer guide using the A.C.T.S. (Adoration, Confession, Thanksgiving, Supplication) model to help the user with their prayer training. Please clearly separate each section and write in an inspiring way that allows the user to add their own prayers. Write in English.

    Prayer Format:
    **Adoration**:
    Write a prayer of praise for God's character and greatness as revealed in today's passage.

    **Confession**:
    Write a prayer of confession, honestly acknowledging one's own sins and weaknesses in light of the word and asking for forgiveness.

    **Thanksgiving**:
    Write a prayer of thanks for the grace of Jesus Christ on the cross and for what was realized through today's word.

    **Supplication**:
    Suggest 2-3 specific prayer topics for applying the word to life, for oneself, neighbors, and the community.

    Bible Passage:
    " +:+ (template_arg passage);
         p_prayerGuideError :=
           "Failed to generate prayer guide. Please try again later.";
         p_sermonOutline :=
           "You are a theological consultant assisting pastors with sermon preparation. Based on the following Bible passage, please create a clear and inspiring sermon outline. Write in English.

Sermon Outline Format:
1.  **Sermon Title**: A creative title that captures the essence of the passage.
2.  **Central Message**: A single sentence summarizing the core message to be delivered.
3.  **Introduction**: Grab the audience's attention, briefly explain the passage's background, and set the direction for the sermon.
4.  **Body (3 Main Points)**:
    *   Point 1: (Topic and explanation)
    *   Point 2: (Topic and explanation)
    *   Point 3: (Topic and explanation)
5.  **Conclusion**: Summarize the sermon, provide a specific challenge and encouragement for congregants to apply to their lives, and close with a prayer.

Bible Passage:
" +:+ (template_arg passage);
         p_sermonOutlineError :=
           "Failed to generate sermon outline. Please try again later.";
         p_storyKeywords :=
           "From the Bible passage, extract the central story keywords (1-3 words each) and classify them into the following three categories. Please find 2-4 keywords for each category.
1.  **positive**: Keywords representing Jesus's positive teachings, love, grace, salvation, and other warm, affirmative themes (Yellow).
2.  **sin**: Keywords representing themes of sin, conflict, warnings, repentance, human weakness, or a hostile stance towards sin (Pink).
3.  **hope**: Keywords representing future-oriented and hopeful themes like the future, hope, promises, resurrection, and heaven (Green).

Bible Passage:
" +:+ (template_arg passage) |}
  end.


Definition detailedPromptPrefix_en : string :=
  "Create a symbolic and evocative image in the style of a classical oil painting with dramatic chiaroscuro lighting. The scene should be highly symbolic, avoiding any literal depictions of people or divine figures. Focus on objects, nature, and light to convey the core theme. The subject is: ".
Definition detailedPromptPrefix_ko : string :=
  "클래식 유화 스타일로, 극적인 명암 대비(키아로스쿠로) 조명을 사용하여 상징적이고 감성적인 이미지를 만들어주세요. 장면은 매우 상징적이어야 하며, 사람이나 신적인 인물의 직접적인 묘사는 피해야 합니다. 사물, 자연, 빛에 초점을 맞춰 핵심 주제를 전달해주세요. 주제는 다음과 같습니다: ".

Definition fallbackPromptGenerator_en (fallbackContext : string) : string :=
  "Based on the following theological text, create a short, simple, safe-for-work image prompt for a symbolic oil painting. The prompt must NOT include people, faces, or religious figures. Focus on objects and nature. Text: " +:+ dquote +:+ fallbackContext +:+ dquote.
Definition fallbackPromptGenerator_ko (fallbackContext : string) : string :=
  "다음 신학적인 글을 바탕으로, 상징적인 유화를 위한 짧고, 간단하며, 안전한 이미지 프롬프트를 만들어 주세요. 프롬프트에는 사람, 얼굴, 또는 종교적 인물이 포함되어서는 안 됩니다. 사물과 자연에 초점을 맞춰주세요. 글: " +:+ dquote +:+ fallbackContext +:+ dquote.

Record GenerateContextImageParams := {
  initialPrompt : string;
  fallbackContext : string;
  language : Language }.

(** What one iteration of a [while] loop leaves: the function has returned,
    or the loop goes on with the counter it carries. *)
Inductive Iteration (A : Type) :=
  | Return_ (a : A)
  | Continue (attempt : Z).
Arguments Return_ {A} a.
Arguments Continue {A} attempt.

Definition MAX_RETRIES : Z := 3.

Definition imageRequest (p : string) : Request :=
  {| model := gemini_2_5_flash_image; contents := [p]; config := ImageModality |}.

Definition textRequest (m : Model) (prompt : string) : Request :=
  {| model := m; contents := [prompt]; config := NoConfig |}.

(** [response.candidates?.[0]] *)
Definition first_candidate (response : Response) : option Candidate :=
  match candidates response with
  | Some (c :: _) => Some c
  | _ => None
  end.

(** [candidate?.content?.parts?.find (part => part.inlineData)] *)
Definition find_imagePart (candidate : option Candidate) : option Part :=
  match candidate with
  | Some c =>
      match content_parts c with
      | Some parts =>
          List.find (fun part => match inlineData part with Some _ => true | None => false end) parts
      | None => None
      end
  | None => None
  end.

Section Service.

Context (env : Env).
Context {JSON_ComprehensiveData : JSON ComprehensiveData}.
Context {JSON_SongsResponse : JSON SongsResponse}.
Context {JSON_StoryKeywords : JSON StoryKeywords}.

Definition getAiClient : M World unit :=
  if truthy_opt (VITE_GEMINI_API_KEY env)
  then ret tt
  else throw (Error "VITE_GEMINI_API_KEY environment variable is not set. Please check your Vercel environment variables.").

(** [await ai.models.generateContent (r)]: the call is recorded with its
    outcome; a rejection is thrown at the [await]. *)
Definition generateContent (r : Request) : M World Response :=
  fun w =>
    let o := service env (length (calls (trace w))) r in
    let w' := {| trace := trace w ++ [ModelCall r o]; localStorage := localStorage w |} in
    match o with
    | Resolved response => (Returned response, w')
    | Rejected e => (Thrown e, w')
    end.

(** [await new Promise (resolve => setTimeout (resolve, ms))] *)
Definition delay (ms : Z) : M World unit :=
  fun w => (Returned tt, {| trace := trace w ++ [Sleep ms]; localStorage := localStorage w |}).

Definition JSON_parse_M {A} `{JSON A} (s : string) : M World A :=
  match JSON_parse s with
  | Some a => ret a
  | None => throw SyntaxError
  end.

(** The body of the [while] loop of [generateImage]. *)
Definition generateImage_iteration (p : string) (attempt : Z) : M World (Iteration (option string)) :=
  try_catch
    (let* response := generateContent (imageRequest p) in
     if truthy_opt (blockReason response) then ret (Return_ None)
     else
       let candidate := first_candidate response in
       let imagePart := find_imagePart candidate in
       match imagePart with
       | Some {| inlineData := Some d |} =>
           ret (Return_ (Some ("data:image/png;base64," +:+ template_arg (data d))))
       | _ => ret (Return_ None)
       end)
    (fun error =>
       let attempt := attempt + 1 in
       let errorMessage := json error in
       if includes errorMessage "Rpc failed due to xhr error" then
         if attempt >=? MAX_RETRIES then ret (Return_ None)
         else
           let* _ := delay (attempt * 1000) in
           ret (Continue attempt)
       else ret (Return_ None)).

(** [while (attempt < MAX_RETRIES) { ... } return null] *)
Fixpoint generateImage_while (fuel : nat) (p : string) (attempt : Z) : M World (option string) :=
  match fuel with
  | O => fun w => (OutOfFuel, w)
  | S fuel' =>
      if attempt <? MAX_RETRIES then
        let* step := generateImage_iteration p attempt in
        match step with
        | Return_ r => ret r
        | Continue attempt' => generateImage_while fuel' p attempt'
        end
      else ret None
  end.

Definition generateImage (p : string) : M World (option string) :=
  generateImage_while (S (Z.to_nat MAX_RETRIES)) p 0.

Definition generateContextImage (params : GenerateContextImageParams) : M World (option string) :=
  let* _ := getAiClient in
  let firstAttemptPrompt :=
    if decide (language params = en)
    then detailedPromptPrefix_en +:+ initialPrompt params
    else detailedPromptPrefix_ko +:+ initialPrompt params in
  let* imageUrl := generateImage firstAttemptPrompt in
  let* imageUrl :=
    if negb (truthy_opt imageUrl) then
      try_catch
        (let* promptGenResponse :=
           generateContent
             (textRequest gemini_2_5_flash
                (if decide (language params = en)
                 then fallbackPromptGenerator_en (fallbackContext params)
                 else fallbackPromptGenerator_ko (fallbackContext params))) in
         let newPrompt := option_map trim (text promptGenResponse) in
         if truthy_opt newPrompt then
           let finalPrompt :=
             if decide (language params = en)
             then "A symbolic oil painting of: " +:+ template_arg newPrompt
             else "상징적인 유화: " +:+ template_arg newPrompt in
           generateImage finalPrompt
         else ret imageUrl)
        (fun e => ret imageUrl)
    else ret imageUrl in
  let* imageUrl :=
    if negb (truthy_opt imageUrl) then
      let staticFallbackPrompt := p_imageFallback (getPrompts (language params) "" 0 0 None None) in
      generateImage staticFallbackPrompt
    else ret imageUrl in
  ret imageUrl.

Definition generateComprehensiveReadingContent (book : string) (chapter1 chapter2 : Z)
    (language : Language) : M World ComprehensiveData :=
  try_catch
    (let* _ := getAiClient in
     let p := getPrompts language book chapter1 chapter2 None None in
     let* response :=
       generateContent
         {| model := gemini_2_5_pro;
            contents := [p_comprehensiveReading p];
            config := JsonResponse ["passage"; "meditationGuide"; "context"; "intention"; "imagePrompt"] |} in
     if truthy_opt (option_map trim (text response))
     then JSON_parse_M (template_arg (text response))
     else
       let errorMessage :=
         match blockReason response with
         | Some reason =>
             if truthy reason
             then "Content generation was blocked due to: " +:+ reason +:+ "."
             else "API response was empty or did not contain text content."
         | None => "API response was empty or did not contain text content."
         end in
       throw (Error errorMessage))
    (fun error => throw error).

Definition generateEvangelismTips (passage : string) (language : Language) : M World (option string) :=
  let* _ := getAiClient in
  try_catch
    (let p := getPrompts language "" 0 0 (Some passage) None in
     let* response := generateContent (textRequest gemini_2_5_flash (p_evangelismTips p)) in
     ret (text response))
    (fun error => ret (Some (p_evangelismTipsError (getPrompts language "" 0 0 None None)))).

Definition recommendMusic (context : string) (language : Language) : M World (list Song) :=
  let* _ := getAiClient in
  try_catch
    (let p := getPrompts language "" 0 0 None (Some context) in
     let* response :=
       generateContent
         {| model := gemini_2_5_pro;
            contents := [p_recommendMusic p; p_recommendMusicContextPrefix p];
            config := JsonResponse ["songs"] |} in
     if truthy_opt (option_map trim (text response)) then
       let* jsonResponse := JSON_parse_M (template_arg (text response)) in
       ret (match songs jsonResponse with Some l => l | None => [] end)
     else ret [])
    (fun error => ret []).

Definition generatePrayerGuide (passage : string) (language : Language) : M World (option string) :=
  let* _ := getAiClient in
  try_catch
    (let p := getPrompts language "" 0 0 (Some passage) None in
     let* response := generateContent (textRequest gemini_2_5_pro (p_prayerGuide p)) in
     ret (text response))
    (fun error => ret (Some (p_prayerGuideError (getPrompts language "" 0 0 None None)))).

Definition generateSermonOutline (passage : string) (language : Language) : M World (option string) :=
  let* _ := getAiClient in
  try_catch
    (let p := getPrompts language "" 0 0 (Some passage) None in
     let* response := generateContent (textRequest gemini_2_5_pro (p_sermonOutline p)) in
     ret (text response))
    (fun error => ret (Some (p_sermonOutlineError (getPrompts language "" 0 0 None None)))).

Definition generateStoryKeywords (passage : string) (language : Language) : M World (option StoryKeywords) :=
  let* _ := getAiClient in
  try_catch
    (let p := getPrompts language "" 0 0 (Some passage) None in
     let* response :=
       generateContent
         {| model := gemini_2_5_flash;
            contents := [p_storyKeywords p];
            config := JsonResponse ["positive"; "sin"; "hope"] |} in
     if truthy_opt (option_map trim (text response)) then
       let* parsed := JSON_parse_M (template_arg (text response)) in
       ret (Some parsed)
     else ret None)
    (fun error => ret None).

End Service.

End Gemini.

(** ** The browser's [window.localStorage] *)

Module Browser.
Import Gemini.

Section LocalStorage.

Context (env : Env).

Definition getItem (key : string) : M World (option string) :=
  fun w => (Returned (localStorage w !! key), w).

(** [setItem] throws a [QuotaExceededError] when the browser refuses it. *)
Definition setItem (key value : string) : M World unit :=
  fun w =>
    if storage_accepts env (localStorage w) key value
    then (Returned tt, {| trace := trace w; localStorage := <[key := value]> (localStorage w) |})
    else (Thrown QuotaExceededError, w).

Definition removeItem (key : string) : M World unit :=
  fun w => (Returned tt, {| trace := trace w; localStorage := delete key (localStorage w) |}).

End LocalStorage.

End Browser.

(** ** [types.ts] *)

Module Types.

Record DiaryEntry := {
  repentance : string;
  resolve : string;
  dream : string }.

Record SavedDiaryEntry := {
  sd_id : Z;
  sd_timestamp : string;
  sd_content : DiaryEntry }.

Record SavedPlanEntry := {
  sp_id : Z;
  sp_timestamp : string;
  sp_content : string }.

Record ArchivedReading := {
  ar_day : Z;
  ar_dateSaved : string;
  ar_readingReference : string;
  ar_passage : string;
  ar_meditationGuide : string;
  ar_context : string;
  ar_intention : string;
  ar_contextImageUrl : option string }.

End Types.

(** ** [services/syncService.ts] *)

Module SyncService.
Import Gemini Browser Types.

Inductive MeditationStatus := good | ok | bad.

(** [Record<number, MeditationStatus>] and [Record<number, ArchivedReading>]:
    objects keyed by day number. *)
Abbreviation MeditationRecord := (gmap Z MeditationStatus).
Abbreviation ArchivedReadings := (gmap Z ArchivedReading).

Definition MOCK_LATENCY : Z := 500.

Section Sync.

Context (env : Env).
Context {JSON_diary : JSON (list SavedDiaryEntry)}.
Context {JSON_plans : JSON (list SavedPlanEntry)}.
Context {JSON_status : JSON MeditationRecord}.
Context {JSON_archive : JSON ArchivedReadings}.

(** The promise of [simulateNetworkRequest (data)] resolves with [data]
    after the mock latency. *)
Definition simulateNetworkRequest {A} (data : A) : M World A :=
  let* _ := delay MOCK_LATENCY in
  ret data.

(** [data ? JSON.parse (data) : fallback] after [getItem (key)]: the part of
    a getter that runs before its promise is returned. *)
Definition read_or {A} `{JSON A} (key : string) (fallback : A) : M World A :=
  let* data := getItem key in
  if truthy_opt data then JSON_parse_M (template_arg data) else ret fallback.

Definition getDiaryEntries (storageKey : string) : M World (list SavedDiaryEntry) :=
  let* entries := read_or storageKey [] in
  simulateNetworkRequest entries.

Definition saveDiaryEntries (storageKey : string) (entries : list SavedDiaryEntry) : M World unit :=
  let* _ := setItem env storageKey (JSON_stringify entries) in
  simulateNetworkRequest tt.

Definition getMissionPlans (storageKey : string) : M World (list SavedPlanEntry) :=
  let* plans := read_or storageKey [] in
  simulateNetworkRequest plans.

Definition saveMissionPlans (storageKey : string) (plans : list SavedPlanEntry) : M World unit :=
  let* _ := setItem env storageKey (JSON_stringify plans) in
  simulateNetworkRequest tt.

Definition getMeditationStatus : M World MeditationRecord :=
  let* status := read_or "meditation-status" (∅ : MeditationRecord) in
  simulateNetworkRequest status.

Definition saveMeditationStatus (status : MeditationRecord) : M World unit :=
  let* _ := setItem env "meditation-status" (JSON_stringify status) in
  simulateNetworkRequest tt.

Definition getArchivedReadings : M World ArchivedReadings :=
  let* readings := read_or "archived-readings" (∅ : ArchivedReadings) in
  simulateNetworkRequest readings.

Definition saveArchivedReading (day : Z) (readingData : ArchivedReading) : M World unit :=
  let* allReadings := getArchivedReadings in
  let updatedReadings : ArchivedReadings := <[day := readingData]> allReadings in
  let* _ := setItem env "archived-readings" (JSON_stringify updatedReadings) in
  simulateNetworkRequest tt.

(** The archived readings that the storage holds: what
    [getArchivedReadings] resolves with; [None] where it rejects. *)
Definition archived_readings (w : World) : option ArchivedReadings :=
  match localStorage w !! "archived-readings" with
  | Some data => if truthy data then JSON_parse data else Some ∅
  | None => Some ∅
  end.

End Sync.

End SyncService.

(** ** [components/FaithDiary.tsx] *)

Module FaithDiary.
Import Gemini Browser Types SyncService.

(** The state of the component. [fetching] is the promise that the effect
    [fetchEntries] awaits while the mock latency runs: the entries that
    [getDiaryEntries] read when it was called, or its rejection. *)
Record State := {
  currentEntry : DiaryEntry;
  savedEntries : list SavedDiaryEntry;
  isSyncing : bool;
  isSaved : bool;
  fetching : option (Result (list SavedDiaryEntry)) }.

Definition set_currentEntry (v : DiaryEntry) (st : State) : State :=
  {| currentEntry := v; savedEntries := savedEntries st; isSyncing := isSyncing st;
     isSaved := isSaved st; fetching := fetching st |}.
Definition set_savedEntries (v : list SavedDiaryEntry) (st : State) : State :=
  {| currentEntry := currentEntry st; savedEntries := v; isSyncing := isSyncing st;
     isSaved := isSaved st; fetching := fetching st |}.
Definition set_isSyncing (v : bool) (st : State) : State :=
  {| currentEntry := currentEntry st; savedEntries := savedEntries st; isSyncing := v;
     isSaved := isSaved st; fetching := fetching st |}.
Definition set_isSaved (v : bool) (st : State) : State :=
  {| currentEntry := currentEntry st; savedEntries := savedEntries st; isSyncing := isSyncing st;
     isSaved := v; fetching := fetching st |}.
Definition set_fetching (v : option (Result (list SavedDiaryEntry))) (st : State) : State :=
  {| currentEntry := currentEntry st; savedEntries := savedEntries st; isSyncing := isSyncing st;
     isSaved := isSaved st; fetching := v |}.

Definition emptyEntry : DiaryEntry := {| repentance := ""; resolve := ""; dream := "" |}.

Inductive Field := Repentance | Resolve | Dream.

(** [{ ...entry, [field]: value }] *)
Definition with_field (entry : DiaryEntry) (field : Field) (value : string) : DiaryEntry :=
  match field with
  | Repentance => {| repentance := value; resolve := resolve entry; dream := dream entry |}
  | Resolve => {| repentance := repentance entry; resolve := value; dream := dream entry |}
  | Dream => {| repentance := repentance entry; resolve := resolve entry; dream := value |}
  end.

(** What the user does to the component, and the settling of its fetch. *)
Inductive Action :=
  | Mount
  | FetchSettled
  | HandleChange (field : Field) (value : string)
  | HandleSave (now : Z).

Section Component.

Context (env : Env).
Context {JSON_entry : JSON DiaryEntry}.
Context {JSON_diary : JSON (list SavedDiaryEntry)}.
(** [new Date (now).toLocaleTimeString (locale, ...)] *)
Context (toLocaleTimeString : string -> Z -> string).
(** The props and the language of the context. *)
Context (storageKey : string) (language : Language).

(** The initial value of [useLocalStorage (key, initialValue)]. *)
Definition useLocalStorage_initial (key : string) (initialValue : DiaryEntry) : M World DiaryEntry :=
  try_catch
    (let* item := getItem key in
     if truthy_opt item then JSON_parse_M (template_arg item) else ret initialValue)
    (fun error => ret initialValue).

(** [setValue] of [useLocalStorage], at the key of the draft. *)
Definition setCurrentEntry (value : DiaryEntry) : M (World * State) unit :=
  try_catch
    (let* _ := setState (set_currentEntry value) in
     lift (setItem env (storageKey +:+ "-current") (JSON_stringify value)))
    (fun error => ret tt).

(** The guard of [handleSave]: every field is empty once trimmed. *)
Definition all_blank (entry : DiaryEntry) : bool :=
  negb (truthy (trim (repentance entry)))
  && negb (truthy (trim (resolve entry)))
  && negb (truthy (trim (dream entry))).

(** [newEntry]: the identifier is [Date.now ()], the timestamp the time of
    day in the locale of the language. *)
Definition new_entry (now : Z) (content : DiaryEntry) : SavedDiaryEntry :=
  let locale := if decide (language = ko) then "ko-KR" else "en-US" in
  {| sd_id := now;
     sd_timestamp := toLocaleTimeString locale now;
     sd_content := content |}.

(** First render and the start of the effect: [savedEntries] is [[]],
    [fetchEntries] sets [isSyncing] and calls [getDiaryEntries], which reads
    the storage before its promise is pending. *)
Definition mount : M (World * State) unit :=
  let* draft := lift (useLocalStorage_initial (storageKey +:+ "-current") emptyEntry) in
  fun ws =>
    let '(r, w') := read_or (storageKey +:+ "-saved") ([] : list SavedDiaryEntry) (fst ws) in
    (Returned tt,
     (w', {| currentEntry := draft; savedEntries := []; isSyncing := true;
             isSaved := false; fetching := Some r |})).

(** The rest of [fetchEntries], once the promise has settled. *)
Definition fetchEntries_settled : M (World * State) unit :=
  let* st := getState in
  match fetching st with
  | Some r =>
      let* _ := lift (delay MOCK_LATENCY) in
      let* _ :=
        match r with
        | Returned entries => setState (set_savedEntries entries)
        | _ => ret tt
        end in
      setState (fun st => set_fetching None (set_isSyncing false st))
  | None => ret tt
  end.

Definition handleChange (field : Field) (value : string) : M (World * State) unit :=
  let* st := getState in
  setCurrentEntry (with_field (currentEntry st) field value).

Definition handleSave (now : Z) : M (World * State) unit :=
  let* st := getState in
  let currentEntry := currentEntry st in
  let savedEntries := savedEntries st in
  if all_blank currentEntry
  then ret tt
  else
    let newEntry := new_entry now currentEntry in
    let newEntries := newEntry :: savedEntries in
    let* _ := setState (set_savedEntries newEntries) in
    let* _ := setCurrentEntry emptyEntry in
    let* _ := setState (set_isSaved true) in
    (* the timer that clears [isSaved] after two seconds is left out *)
    try_catch
      (lift (saveDiaryEntries env (storageKey +:+ "-saved") newEntries))
      (fun error => setState (set_savedEntries savedEntries)).

Definition step (a : Action) : M (World * State) unit :=
  match a with
  | Mount => mount
  | FetchSettled => fetchEntries_settled
  | HandleChange field value => handleChange field value
  | HandleSave now => handleSave now
  end.

Fixpoint run (actions : list Action) : M (World * State) unit :=
  match actions with
  | [] => ret tt
  | a :: rest => let* _ := step a in run rest
  end.

(** The saved entries as the storage holds them. *)
Definition stored_entries (w : World) : option (list SavedDiaryEntry) :=
  match localStorage w !! (storageKey +:+ "-saved") with
  | Some data => if truthy data then JSON_parse data else Some []
  | None => Some []
  end.

End Component.

End FaithDiary.

(** ** [components/EvangelismMission.tsx] *)

Module EvangelismMission.
Import Gemini Browser Types SyncService.

Record State := {
  currentPlan : string;
  savedEntries : list SavedPlanEntry;
  isSyncing : bool;
  isSaved : bool;
  fetching : option (Result (list SavedPlanEntry)) }.

Definition set_currentPlan (v : string) (st : State) : State :=
  {| currentPlan := v; savedEntries := savedEntries st; isSyncing := isSyncing st;
     isSaved := isSaved st; fetching := fetching st |}.
Definition set_savedEntries (v : list SavedPlanEntry) (st : State) : State :=
  {| currentPlan := currentPlan st; savedEntries := v; isSyncing := isSyncing st;
     isSaved := isSaved st; fetching := fetching st |}.
Definition set_isSyncing (v : bool) (st : State) : State :=
  {| currentPlan := currentPlan st; savedEntries := savedEntries st; isSyncing := v;
     isSaved := isSaved st; fetching := fetching st |}.
Definition set_isSaved (v : bool) (st : State) : State :=
  {| currentPlan := currentPlan st; savedEntries := savedEntries st; isSyncing := isSyncing st;
     isSaved := v; fetching := fetching st |}.
Definition set_fetching (v : option (Result (list SavedPlanEntry))) (st : State) : State :=
  {| currentPlan := currentPlan st; savedEntries := savedEntries st; isSyncing := isSyncing st;
     isSaved := isSaved st; fetching := v |}.

Inductive Action :=
  | Mount
  | FetchSettled
  | SetCurrentPlan (value : string)
  | HandleSave (now : Z).

Section Component.

Context (env : Env).
Context {JSON_plans : JSON (list SavedPlanEntry)}.
Context (toLocaleTimeString : string -> Z -> string).
Context (storageKey : string) (language : Language).

Definition new_entry (now : Z) (content : string) : SavedPlanEntry :=
  let locale := if decide (language = ko) then "ko-KR" else "en-US" in
  {| sp_id := now;
     sp_timestamp := toLocaleTimeString locale now;
     sp_content := content |}.

Definition mount : M (World * State) unit :=
  fun ws =>
    let '(r, w') := read_or storageKey ([] : list SavedPlanEntry) (fst ws) in
    (Returned tt,
     (w', {| currentPlan := ""; savedEntries := []; isSyncing := true;
             isSaved := false; fetching := Some r |})).

Definition fetchPlans_settled : M (World * State) unit :=
  let* st := getState in
  match fetching st with
  | Some r =>
      let* _ := lift (delay MOCK_LATENCY) in
      let* _ :=
        match r with
        | Returned plans => setState (set_savedEntries plans)
        | _ => ret tt
        end in
      setState (fun st => set_fetching None (set_isSyncing false st))
  | None => ret tt
  end.

Definition handleSave (now : Z) : M (World * State) unit :=
  let* st := getState in
  let currentPlan := currentPlan st in
  let savedEntries := savedEntries st in
  if negb (truthy (trim currentPlan)) then ret tt
  else
    let newEntry := new_entry now currentPlan in
    let newEntries := newEntry :: savedEntries in
    let* _ := setState (set_savedEntries newEntries) in
    let* _ := setState (set_currentPlan "") in
    let* _ := setState (set_isSaved true) in
    try_catch
      (lift (saveMissionPlans env storageKey newEntries))
      (fun error => setState (set_savedEntries savedEntries)).

Definition step (a : Action) : M (World * State) unit :=
  match a with
  | Mount => mount
  | FetchSettled => fetchPlans_settled
  | SetCurrentPlan value => setState (set_currentPlan value)
  | HandleSave now => handleSave now
  end.

Fixpoint run (actions : list Action) : M (World * State) unit :=
  match actions with
  | [] => ret tt
  | a :: rest => let* _ := step a in run rest
  end.

Definition stored_plans (w : World) : option (list SavedPlanEntry) :=
  match localStorage w !! storageKey with
  | Some data => if truthy data then JSON_parse data else Some []
  | None => Some []
  end.

End Component.

End EvangelismMission.

(** ** [components/BibleReading.tsx] *)

Module BibleReading.
Import Gemini Browser Types SyncService.

Record CachedReadingData := {
  c_passage : string;
  c_meditationGuide : string;
  c_context : string;
  c_intention : string;
  c_imagePrompt : string;
  c_contextImageUrl : option string }.

#[global] Instance MeditationStatus_eq_dec : EqDecision MeditationStatus.
Proof. solve_decision. Defined.

(** The state of the component; [loadedPassage] is the state of the parent
    that the prop [onPassageLoaded] sets. *)
Record State := {
  passage : string;
  passageIntention : string;
  meditationGuide : string;
  passageContext : string;
  contextImageUrl : option string;
  isLoading : bool;
  isImageLoading : bool;
  error : option string;
  meditationStatus : MeditationRecord;
  loadedPassage : string }.

Definition set_passage (v : string) (st : State) : State :=
  {| passage := v; passageIntention := passageIntention st;
     meditationGuide := meditationGuide st; passageContext := passageContext st;
     contextImageUrl := contextImageUrl st; isLoading := isLoading st;
     isImageLoading := isImageLoading st; error := error st;
     meditationStatus := meditationStatus st; loadedPassage := loadedPassage st |}.
Definition set_passageIntention (v : string) (st : State) : State :=
  {| passage := passage st; passageIntention := v; meditationGuide := meditationGuide st;
     passageContext := passageContext st; contextImageUrl := contextImageUrl st;
     isLoading := isLoading st; isImageLoading := isImageLoading st; error := error st;
     meditationStatus := meditationStatus st; loadedPassage := loadedPassage st |}.
Definition set_meditationGuide (v : string) (st : State) : State :=
  {| passage := passage st; passageIntention := passageIntention st; meditationGuide := v;
     passageContext := passageContext st; contextImageUrl := contextImageUrl st;
     isLoading := isLoading st; isImageLoading := isImageLoading st; error := error st;
     meditationStatus := meditationStatus st; loadedPassage := loadedPassage st |}.
Definition set_passageContext (v : string) (st : State) : State :=
  {| passage := passage st; passageIntention := passageIntention st;
     meditationGuide := meditationGuide st; passageContext := v;
     contextImageUrl := contextImageUrl st; isLoading := isLoading st;
     isImageLoading := isImageLoading st; error := error st;
     meditationStatus := meditationStatus st; loadedPassage := loadedPassage st |}.
Definition set_contextImageUrl (v : option string) (st : State) : State :=
  {| passage := passage st; passageIntention := passageIntention st;
     meditationGuide := meditationGuide st; passageContext := passageContext st;
     contextImageUrl := v; isLoading := isLoading st; isImageLoading := isImageLoading st;
     error := error st; meditationStatus := meditationStatus st;
     loadedPassage := loadedPassage st |}.
Definition set_isLoading (v : bool) (st : State) : State :=
  {| passage := passage st; passageIntention := passageIntention st;
     meditationGuide := meditationGuide st; passageContext := passageContext st;
     contextImageUrl := contextImageUrl st; isLoading := v; isImageLoading := isImageLoading st;
     error := error st; meditationStatus := meditationStatus st;
     loadedPassage := loadedPassage st |}.
Definition set_isImageLoading (v : bool) (st : State) : State :=
  {| passage := passage st; passageIntention := passageIntention st;
     meditationGuide := meditationGuide st; passageContext := passageContext st;
     contextImageUrl := contextImageUrl st; isLoading := isLoading st; isImageLoading := v;
     error := error st; meditationStatus := meditationStatus st;
     loadedPassage := loadedPassage st |}.
Definition set_error (v : option string) (st : State) : State :=
  {| passage := passage st; passageIntention := passageIntention st;
     meditationGuide := meditationGuide st; passageContext := passageContext st;
     contextImageUrl := contextImageUrl st; isLoading := isLoading st;
     isImageLoading := isImageLoading st; error := v; meditationStatus := meditationStatus st;
     loadedPassage := loadedPassage st |}.
Definition set_meditationStatus (v : MeditationRecord) (st : State) : State :=
  {| passage := passage st; passageIntention := passageIntention st;
     meditationGuide := meditationGuide st; passageContext := passageContext st;
     contextImageUrl := contextImageUrl st; isLoading := isLoading st;
     isImageLoading := isImageLoading st; error := error st; meditationStatus := v;
     loadedPassage := loadedPassage st |}.
Definition set_loadedPassage (v : string) (st : State) : State :=
  {| passage := passage st; passageIntention := passageIntention st;
     meditationGuide := meditationGuide st; passageContext := passageContext st;
     contextImageUrl := contextImageUrl st; isLoading := isLoading st;
     isImageLoading := isImageLoading st; error := error st;
     meditationStatus := meditationStatus st; loadedPassage := v |}.

(** [`reading-cache-${storageKeyDate}-${language}`] *)
Definition cacheKey (storageKeyDate : string) (language : Language) : string :=
  "reading-cache-" +:+ storageKeyDate +:+ "-" +:+ Language_code language.

(** [t ('apiQuotaExceeded')] and [t ('contentError')] of [i18n.tsx]. *)
Definition t_apiQuotaExceeded (language : Language) : string :=
  match language with
  | ko => "API 요청 할당량이 초과되었습니다. 나중에 다시 시도해 주세요. 이 메시지가 계속되면 관리자에게 문의하세요."
  | en => "API request quota has been exceeded. Please try again later. If this message persists, contact the administrator."
  end.

Definition t_contentError (language : Language) : string :=
  match language with
  | ko => "콘텐츠를 불러오는 중 오류가 발생했습니다. 네트워크 연결을 확인하고 다시 시도해 주세요."
  | en => "An error occurred while loading content. Please check your network connection and try again."
  end.

(** [{ ...comprehensiveData, contextImageUrl: null }] *)
Definition dataToCache (comprehensiveData : ComprehensiveData) : CachedReadingData :=
  {| c_passage := cd_passage comprehensiveData;
     c_meditationGuide := cd_meditationGuide comprehensiveData;
     c_context := cd_context comprehensiveData;
     c_intention := cd_intention comprehensiveData;
     c_imagePrompt := cd_imagePrompt comprehensiveData;
     c_contextImageUrl := None |}.

(** The state of the first render: the initial values of [useState]. *)
Definition initial_state : State :=
  {| passage := ""; passageIntention := ""; meditationGuide := ""; passageContext := "";
     contextImageUrl := None; isLoading := true; isImageLoading := false; error := None;
     meditationStatus := ∅; loadedPassage := "" |}.

(** The state once the text of a cache record is shown. *)
Definition loaded (d : CachedReadingData) (st : State) : State :=
  set_isLoading false
    (set_passageIntention (c_intention d)
       (set_passageContext (c_context d)
          (set_meditationGuide (c_meditationGuide d)
             (set_loadedPassage (c_passage d) (set_passage (c_passage d) st))))).

(** The state once freshly generated text is shown. *)
Definition generated (data : ComprehensiveData) (st : State) : State :=
  set_isLoading false
    (set_passageIntention (cd_intention data)
       (set_passageContext (cd_context data)
          (set_meditationGuide (cd_meditationGuide data)
             (set_loadedPassage (cd_passage data)
                (set_passage (cd_passage data)
                   (set_contextImageUrl None (set_error None (set_isLoading true st)))))))).

(** The state once an image generation started from [st] has settled with
    the result [r]. *)
Definition image_settled (r : Result (option string)) (st : State) : State :=
  set_isImageLoading false
    match r with
    | Returned imageUrl => set_contextImageUrl imageUrl (set_isImageLoading true st)
    | _ => set_isImageLoading true st
    end.

(** The request of [generateComprehensiveReadingContent]. *)
Definition reading_request (reading : Constants.DailyReading) (l : Language) : Request :=
  {| model := gemini_2_5_pro;
     contents :=
       [p_comprehensiveReading
          (getPrompts l (Constants.book (fst reading)) (Constants.chapter (fst reading))
             (Constants.chapter (snd reading)) None None)];
     config := JsonResponse ["passage"; "meditationGuide"; "context"; "intention"; "imagePrompt"] |}.

Section Component.

Context (env : Env).
Context {JSON_ComprehensiveData : JSON ComprehensiveData}.
Context {JSON_cache : JSON CachedReadingData}.
Context {JSON_status : JSON MeditationRecord}.
(** The props, the language of the context and
    [new Date ().toISOString ().split ('T')[0]]. *)
Context (reading : Constants.DailyReading) (language : Language) (storageKeyDate : string).

Definition handleStatusChange (day : Z) (status : MeditationStatus) : M (World * State) unit :=
  let* st := getState in
  let newStatus : MeditationRecord := meditationStatus st in
  let newStatus : MeditationRecord :=
    if decide (newStatus !! day = Some status)
    then delete day newStatus
    else <[day := status]> newStatus in
  let* _ := setState (set_meditationStatus newStatus) in
  try_catch
    (lift (saveMeditationStatus env newStatus))
    (fun error => ret tt).

(** The helper of [fetchContent]. Its caller does not await it; it is run
    here where it is called, which gives the same final state: nothing else
    in [fetchContent] reads the trace or the image state. *)
Definition fetchImageAndUpdateState (prompt fallback : string) : M (World * State) unit :=
  let* _ := setState (set_isImageLoading true) in
  try_finally
    (try_catch
       (let* imageUrl :=
          lift (generateContextImage env
                  (Build_GenerateContextImageParams prompt fallback language)) in
        setState (set_contextImageUrl imageUrl))
       (fun e => ret tt))
    (fun ws => (fst ws, set_isImageLoading false (snd ws))).

(** Step 1 of [fetchContent]: "try to load text content from cache". It
    yields [true] where the code returns from [fetchContent]. *)
Definition loadFromCache : M (World * State) bool :=
  let cacheKey := cacheKey storageKeyDate language in
  try_catch
    (let* cachedItem := lift (getItem cacheKey) in
     if truthy_opt cachedItem then
       let* cachedData := lift (JSON_parse_M (template_arg cachedItem)) in
       let* _ := setState (set_passage (c_passage cachedData)) in
       let* _ := setState (set_loadedPassage (c_passage cachedData)) in
       let* _ := setState (set_meditationGuide (c_meditationGuide cachedData)) in
       let* _ := setState (set_passageContext (c_context cachedData)) in
       let* _ := setState (set_passageIntention (c_intention cachedData)) in
       let* _ := setState (set_isLoading false) in
       let* _ :=
         if truthy (c_imagePrompt cachedData)
         then fetchImageAndUpdateState (c_imagePrompt cachedData) (c_intention cachedData)
         else setState (set_isImageLoading false) in
       ret true
     else ret false)
    (fun e =>
       let* _ := lift (removeItem cacheKey) in
       ret false).

(** Steps 2 and 3: "if no cache, fetch everything from API" and "cache the
    new text data (without the image)". The data are a record, so the guard
    [!comprehensiveData] never holds. *)
Definition fetchFromApi : M (World * State) unit :=
  let cacheKey := cacheKey storageKeyDate language in
  let* _ := setState (set_isLoading true) in
  let* _ := setState (set_error None) in
  let* _ := setState (set_contextImageUrl None) in
  try_catch
    (let* comprehensiveData :=
       lift (generateComprehensiveReadingContent env
               (Constants.book (fst reading)) (Constants.chapter (fst reading))
               (Constants.chapter (snd reading)) language) in
     let* _ := setState (set_passage (cd_passage comprehensiveData)) in
     let* _ := setState (set_loadedPassage (cd_passage comprehensiveData)) in
     let* _ := setState (set_meditationGuide (cd_meditationGuide comprehensiveData)) in
     let* _ := setState (set_passageContext (cd_context comprehensiveData)) in
     let* _ := setState (set_passageIntention (cd_intention comprehensiveData)) in
     let* _ := setState (set_isLoading false) in
     let* _ :=
       if truthy (cd_imagePrompt comprehensiveData)
       then fetchImageAndUpdateState (cd_imagePrompt comprehensiveData)
              (cd_intention comprehensiveData)
       else setState (set_isImageLoading false) in
     try_catch
       (lift (setItem env cacheKey (JSON_stringify (dataToCache comprehensiveData))))
       (fun storageError => ret tt))
    (fun err =>
       let errorMessage := if isError err then message err else json err in
       let* _ :=
         if includes errorMessage "429" || includes errorMessage "RESOURCE_EXHAUSTED"
         then setState (set_error (Some (t_apiQuotaExceeded language)))
         else setState (set_error (Some (t_contentError language))) in
       let* _ := setState (set_isLoading false) in
       setState (set_isImageLoading false)).

(** [reading] is a pair, so the guard [!reading || reading.length < 2] never
    holds. *)
Definition fetchContent : M (World * State) unit :=
  let* served := loadFromCache in
  if (served : bool) then ret tt else fetchFromApi.

End Component.

End BibleReading.

(** ** The fall-back chain and the retry policy, in the specification's words *)

Module Chain.
Import Gemini.

Section Chain.

Context (env : Env).

(** One call of the image model, classified: an image, or none. *)
Definition image_call (p : string) : M World (option string) :=
  let* response := generateContent env (imageRequest p) in
  if truthy_opt (blockReason response) then ret None
  else
    match find_imagePart (first_candidate response) with
    | Some {| inlineData := Some d |} =>
        ret (Some ("data:image/png;base64," +:+ template_arg (data d)))
    | _ => ret None
    end.

Definition transient (error : JsError) : bool :=
  includes (json error) "Rpc failed due to xhr error".

(** The world after the events [evs]. *)
Definition after (w : World) (evs : list Event) : World :=
  {| trace := trace w ++ evs; localStorage := localStorage w |}.

(** The outcome that the service gives to the next call, if it is [r]. *)
Definition next_outcome (w : World) (r : Request) : Outcome :=
  service env (length (calls (trace w))) r.

(** A call of the model that generates the text of the reading. *)
Definition reading_call (ev : Event) : bool :=
  match ev with
  | ModelCall r _ => match model r with gemini_2_5_pro => true | _ => false end
  | Sleep _ => false
  end.

(** A response that carries an image and is not blocked. *)
Definition has_image (response : Response) : bool :=
  negb (truthy_opt (blockReason response))
  && match find_imagePart (first_candidate response) with
     | Some {| inlineData := Some _ |} => true
     | _ => false
     end.

(** An attempt that calls the model and, when the call throws a transient
    error, waits for the next of [delays] and calls again; it ends with no
    image on any other error and when [delays] is used up. *)
Fixpoint attempt_with_delays (p : string) (delays : list Z) : M World (option string) :=
  try_catch (image_call p)
    (fun error =>
       if transient error then
         match delays with
         | d :: delays' =>
             let* _ := delay d in
             attempt_with_delays p delays'
         | [] => ret None
         end
       else ret None).

(** The delays that remain after [attempt] failures: the attempt number
    times 1000 ms, for the attempt numbers below [MAX_RETRIES]. *)
Definition delays_from (attempt : Z) : list Z :=
  (fun k => k * 1000) <$> seqZ (attempt + 1) (MAX_RETRIES - 1 - attempt).

(** "Retried up to three times, delay = attempt number x 1000 ms". *)
Definition retried_up_to_three_times (p : string) : M World (option string) :=
  attempt_with_delays p [1 * 1000; 2 * 1000; 3 * 1000].

(** Attempts in order, stopping at the first that yields an image. *)
Fixpoint first_success (attempts : list (M World (option string))) : M World (option string) :=
  match attempts with
  | [] => ret None
  | a :: rest =>
      let* r := a in
      match r with
      | Some url => ret (Some url)
      | None => first_success rest
      end
  end.

Definition detailed_prompt (params : GenerateContextImageParams) : string :=
  match language params with
  | en => detailedPromptPrefix_en +:+ initialPrompt params
  | ko => detailedPromptPrefix_ko +:+ initialPrompt params
  end.

(** The second text-model call: the prompt derived from the fall-back
    context, when the call succeeds and its trimmed text is not empty. *)
Definition derive_prompt (params : GenerateContextImageParams) : M World (option string) :=
  try_catch
    (let* response :=
       generateContent env
         (textRequest gemini_2_5_flash
            (match language params with
             | en => fallbackPromptGenerator_en (fallbackContext params)
             | ko => fallbackPromptGenerator_ko (fallbackContext params)
             end)) in
     match text response with
     | Some t => if truthy (trim t) then ret (Some (trim t)) else ret None
     | None => ret None
     end)
    (fun error => ret None).

Definition context_attempt (params : GenerateContextImageParams) : M World (option string) :=
  let* derived := derive_prompt params in
  match derived with
  | Some newPrompt =>
      generateImage env
        (match language params with
         | en => "A symbolic oil painting of: " +:+ newPrompt
         | ko => "상징적인 유화: " +:+ newPrompt
         end)
  | None => ret None
  end.

Definition static_prompt (l : Language) : string :=
  p_imageFallback (getPrompts l "" 0 0 None None).

Definition fallback_chain (params : GenerateContextImageParams) : M World (option string) :=
  first_success
    [ generateImage env (detailed_prompt params);
      context_attempt params;
      generateImage env (static_prompt (language params)) ].

(** The requests of the text entry points. *)
Definition prayerGuide_request (passage : string) (l : Language) : Request :=
  textRequest gemini_2_5_pro (p_prayerGuide (getPrompts l "" 0 0 (Some passage) None)).

Definition sermonOutline_request (passage : string) (l : Language) : Request :=
  textRequest gemini_2_5_pro (p_sermonOutline (getPrompts l "" 0 0 (Some passage) None)).

Definition evangelismTips_request (passage : string) (l : Language) : Request :=
  textRequest gemini_2_5_flash (p_evangelismTips (getPrompts l "" 0 0 (Some passage) None)).

Definition recommendMusic_request (context : string) (l : Language) : Request :=
  let p := getPrompts l "" 0 0 None (Some context) in
  {| model := gemini_2_5_pro;
     contents := [p_recommendMusic p; p_recommendMusicContextPrefix p];
     config := JsonResponse ["songs"] |}.

Definition storyKeywords_request (passage : string) (l : Language) : Request :=
  {| model := gemini_2_5_flash;
     contents := [p_storyKeywords (getPrompts l "" 0 0 (Some passage) None)];
     config := JsonResponse ["positive"; "sin"; "hope"] |}.

End Chain.

(** The localized error strings. *)
Definition prayerGuideError_text (l : Language) : string :=
  match l with
  | ko => "기도문 생성에 실패했습니다. 잠시 후 다시 시도해 주세요."
  | en => "Failed to generate prayer guide. Please try again later."
  end.

Definition sermonOutlineError_text (l : Language) : string :=
  match l with
  | ko => "설교 개요 생성에 실패했습니다. 잠시 후 다시 시도해 주세요."
  | en => "Failed to generate sermon outline. Please try again later."
  end.

Definition evangelismTipsError_text (l : Language) : string :=
  match l with
  | ko => "전도 팁 생성에 실패했습니다. 잠시 후 다시 시도해 주세요."
  | en => "Failed to generate evangelism tips. Please try again later."
  end.

End Chain.

(** ** A lawful serialization, for concrete runs

    Any injective and never empty text encoding satisfies [JSONLaws]; the one
    below writes the code of a value of a countable type in binary. *)

Module Codec.
Import Gemini Types SyncService BibleReading.

Fixpoint bits_of_pos (p : positive) : string :=
  match p with
  | xH => String "1"%char EmptyString
  | xO q => String "0"%char (bits_of_pos q)
  | xI q => String "1"%char (bits_of_pos q)
  end.

Fixpoint pos_of_bits (s : string) : option positive :=
  match s with
  | EmptyString => None
  | String c s' =>
      match s' with
      | EmptyString => if Ascii.eqb c "1"%char then Some xH else None
      | String _ _ =>
          match pos_of_bits s' with
          | Some q =>
              if Ascii.eqb c "0"%char then Some (xO q)
              else if Ascii.eqb c "1"%char then Some (xI q)
              else None
          | None => None
          end
      end
  end.

Definition countable_JSON (A : Type) `{Countable A} : JSON A :=
  {| JSON_stringify := fun x => bits_of_pos (encode x);
     JSON_parse := fun s => match pos_of_bits s with Some p => decode p | None => None end |}.

#[global] Instance DiaryEntry_eq_dec : EqDecision DiaryEntry.
Proof. solve_decision. Defined.
#[global] Instance SavedDiaryEntry_eq_dec : EqDecision SavedDiaryEntry.
Proof. solve_decision. Defined.
#[global] Instance SavedPlanEntry_eq_dec : EqDecision SavedPlanEntry.
Proof. solve_decision. Defined.
#[global] Instance ArchivedReading_eq_dec : EqDecision ArchivedReading.
Proof. solve_decision. Defined.
#[global] Instance CachedReadingData_eq_dec : EqDecision CachedReadingData.
Proof. solve_decision. Defined.
#[global] Instance ComprehensiveData_eq_dec : EqDecision ComprehensiveData.
Proof. solve_decision. Defined.
#[global] Instance Song_eq_dec : EqDecision Song.
Proof. solve_decision. Defined.
#[global] Instance SongsResponse_eq_dec : EqDecision SongsResponse.
Proof. solve_decision. Defined.
#[global] Instance StoryKeywords_eq_dec : EqDecision StoryKeywords.
Proof. solve_decision. Defined.

#[global] Instance DiaryEntry_countable : Countable DiaryEntry.
Proof.
  refine (inj_countable' (fun e => (repentance e, resolve e, dream e))
            (fun t => Build_DiaryEntry t.1.1 t.1.2 t.2) _).
  by intros [].
Defined.

#[global] Instance SavedDiaryEntry_countable : Countable SavedDiaryEntry.
Proof.
  refine (inj_countable' (fun e => (sd_id e, sd_timestamp e, sd_content e))
            (fun t => Build_SavedDiaryEntry t.1.1 t.1.2 t.2) _).
  by intros [].
Defined.

#[global] Instance SavedPlanEntry_countable : Countable SavedPlanEntry.
Proof.
  refine (inj_countable' (fun e => (sp_id e, sp_timestamp e, sp_content e))
            (fun t => Build_SavedPlanEntry t.1.1 t.1.2 t.2) _).
  by intros [].
Defined.

#[global] Instance ArchivedReading_countable : Countable ArchivedReading.
Proof.
  refine (inj_countable'
            (fun r => (ar_day r, ar_dateSaved r, ar_readingReference r, ar_passage r,
                       ar_meditationGuide r, ar_context r, ar_intention r,
                       ar_contextImageUrl r))
            (fun t => Build_ArchivedReading t.1.1.1.1.1.1.1 t.1.1.1.1.1.1.2 t.1.1.1.1.1.2
                        t.1.1.1.1.2 t.1.1.1.2 t.1.1.2 t.1.2 t.2) _).
  by intros [].
Defined.

#[global] Instance CachedReadingData_countable : Countable CachedReadingData.
Proof.
  refine (inj_countable'
            (fun d => (c_passage d, c_meditationGuide d, c_context d, c_intention d,
                       c_imagePrompt d, c_contextImageUrl d))
            (fun t => Build_CachedReadingData t.1.1.1.1.1 t.1.1.1.1.2 t.1.1.1.2 t.1.1.2
                        t.1.2 t.2) _).
  by intros [].
Defined.

#[global] Instance ComprehensiveData_countable : Countable ComprehensiveData.
Proof.
  refine (inj_countable'
            (fun d => (cd_passage d, cd_meditationGuide d, cd_context d, cd_intention d,
                       cd_imagePrompt d))
            (fun t => Build_ComprehensiveData t.1.1.1.1 t.1.1.1.2 t.1.1.2 t.1.2 t.2) _).
  by intros [].
Defined.

#[global] Instance Song_countable : Countable Song.
Proof.
  refine (inj_countable' (fun x => (title x, artist x)) (fun t => Build_Song t.1 t.2) _).
  by intros [].
Defined.

#[global] Instance SongsResponse_countable : Countable SongsResponse.
Proof.
  refine (inj_countable' songs Build_SongsResponse _).
  by intros [].
Defined.

#[global] Instance StoryKeywords_countable : Countable StoryKeywords.
Proof.
  refine (inj_countable' (fun k => (kw_positive k, kw_sin k, kw_hope k))
            (fun t => Build_StoryKeywords t.1.1 t.1.2 t.2) _).
  by intros [].
Defined.

#[global] Instance MeditationStatus_countable : Countable MeditationStatus.
Proof.
  refine (inj_countable'
            (fun s => match s with good => 0%nat | ok => 1%nat | bad => 2%nat end)
            (fun n => match n with O => good | S O => ok | _ => bad end) _).
  by intros [].
Defined.

End Codec.

(** ** Concrete environments, for examples *)

Module Examples.
Import Gemini.

Definition empty_world : World := {| trace := []; localStorage := ∅ |}.

(** A rejection of the SDK whose serialization carries the transient text. *)
Definition transient_error : JsError :=
  {| isError := false; name := "ApiError"; message := "";
     json := "{" +:+ dquote +:+ "error" +:+ dquote +:+ ":" +:+ dquote
             +:+ "Rpc failed due to xhr error. uri: generativelanguage, error code: 6"
             +:+ dquote +:+ "}" |}.

Definition image_response (base64 : string) : Response :=
  {| text := None; blockReason := None;
     candidates :=
       Some [ {| content_parts :=
                   Some [ {| part_text := None;
                             inlineData := Some {| data := Some base64 |} |} ] |} ] |}.

Definition text_response (s : string) : Response :=
  {| text := Some s; blockReason := None; candidates := None |}.

Definition no_image_response : Response :=
  {| text := None; blockReason := None; candidates := Some [] |}.

(** A page with an API key whose service always fails transiently. *)
Definition env_always_transient : Env :=
  {| VITE_GEMINI_API_KEY := Some "key";
     service := fun _ _ => Rejected transient_error;
     storage_accepts := fun _ _ _ => true |}.

(** A page built without API key. *)
Definition env_no_key : Env :=
  {| VITE_GEMINI_API_KEY := None;
     service := fun _ _ => Resolved (image_response "AAAA");
     storage_accepts := fun _ _ _ => true |}.

(** A service that answers text requests with [answer] and image requests
    with an image. *)
Definition env_working (answer : string) : Env :=
  {| VITE_GEMINI_API_KEY := Some "key";
     service := fun _ r =>
       match model r with
       | gemini_2_5_flash_image => Resolved (image_response "AAAA")
       | _ => Resolved (text_response answer)
       end;
     storage_accepts := fun _ _ _ => true |}.

(** A service whose every call throws a plain [Error]. *)
Definition env_failing : Env :=
  {| VITE_GEMINI_API_KEY := Some "key";
     service := fun _ _ => Rejected (Error "503 Service Unavailable");
     storage_accepts := fun _ _ _ => true |}.

(** The first image call yields no image, the text call a prompt, and the
    calls after them an image. *)
Definition env_second_attempt : Env :=
  {| VITE_GEMINI_API_KEY := Some "key";
     service := fun n r =>
       match n with
       | O => Resolved no_image_response
       | S O => Resolved (text_response "  a candle in a window ")
       | _ => Resolved (image_response "BBBB")
       end;
     storage_accepts := fun _ _ _ => true |}.

Definition params0 : GenerateContextImageParams :=
  {| initialPrompt := "a lamp on a table"; fallbackContext := "light"; language := en |}.


Definition cached_with_prompt : BibleReading.CachedReadingData :=
  {| BibleReading.c_passage := "Paul, an apostle";
     BibleReading.c_meditationGuide := "guide";
     BibleReading.c_context := "context";
     BibleReading.c_intention := "intention";
     BibleReading.c_imagePrompt := "a broken chain";
     BibleReading.c_contextImageUrl := None |}.

Definition generated_data : ComprehensiveData :=
  {| cd_passage := "Paul, an apostle"; cd_meditationGuide := "guide";
     cd_context := "context"; cd_intention := "intention";
     cd_imagePrompt := "a broken chain" |}.

Definition galatians_1_2 : Constants.DailyReading :=
  ({| Constants.book := "Galatians"; Constants.chapter := 1 |},
   {| Constants.book := "Galatians"; Constants.chapter := 2 |}).

(** A world whose storage holds [d] as the reading cache of 2024-07-27 in
    English, written with the serialization of [Codec]. *)
Definition world_with_cache (d : BibleReading.CachedReadingData) : World :=
  {| trace := [];
     localStorage :=
       {[ BibleReading.cacheKey "2024-07-27" en :=
            @JSON_stringify _ (Codec.countable_JSON BibleReading.CachedReadingData) d ]} |}.

(** A diary of July 27, 2024 with one saved entry and a draft. *)
Definition clock (locale : string) (now : Z) : string := "09:30 AM".

Definition first_entry : Types.SavedDiaryEntry :=
  {| Types.sd_id := 1722066000000;
     Types.sd_timestamp := "08:40 AM";
     Types.sd_content :=
       {| Types.repentance := "I was impatient"; Types.resolve := "listen first";
          Types.dream := "" |} |}.

Definition draft : Types.DiaryEntry :=
  {| Types.repentance := ""; Types.resolve := "call my brother"; Types.dream := "" |}.

Definition diary_world : World :=
  {| trace := [];
     localStorage :=
       {[ "diary-2024-07-27-saved" :=
            @JSON_stringify _ (Codec.countable_JSON (list Types.SavedDiaryEntry)) [first_entry];
          "diary-2024-07-27-current" :=
            @JSON_stringify _ (Codec.countable_JSON Types.DiaryEntry) draft ]} |}.

Definition first_plan : Types.SavedPlanEntry :=
  {| Types.sp_id := 1722066000000; Types.sp_timestamp := "08:40 AM";
     Types.sp_content := "visit the neighbours" |}.

Definition mission_world : World :=
  {| trace := [];
     localStorage :=
       {[ "mission-2024-07-27" :=
            @JSON_stringify _ (Codec.countable_JSON (list Types.SavedPlanEntry)) [first_plan] ]} |}.

(** The state of a component before its first render; [Mount] replaces it. *)
Definition unmounted_diary : FaithDiary.State :=
  {| FaithDiary.currentEntry := FaithDiary.emptyEntry; FaithDiary.savedEntries := [];
     FaithDiary.isSyncing := false; FaithDiary.isSaved := false;
     FaithDiary.fetching := None |}.

Definition unmounted_mission : EvangelismMission.State :=
  {| EvangelismMission.currentPlan := ""; EvangelismMission.savedEntries := [];
     EvangelismMission.isSyncing := false; EvangelismMission.isSaved := false;
     EvangelismMission.fetching := None |}.

End Examples.

(** ** [constants.ts]: the table of the schedule *)

Module Schedule.
Import Constants.

#[global] Instance Reading_eq_dec : EqDecision Reading.
Proof. solve_decision. Defined.

Record ScheduleItem := { day : Z; reading : string }.

#[global] Instance ScheduleItem_eq_dec : EqDecision ScheduleItem.
Proof. solve_decision. Defined.

(** [Math.ceil (a / b)] for integers [a] and [b], [b] positive. *)
Definition Math_ceil_div (a b : Z) : Z := - ((- a) / b).

(** The [TypeError] of reading a property of [undefined]. *)
Definition TypeError : JsError :=
  {| isError := true; name := "TypeError";
     message := "Cannot read properties of undefined"; json := "{}" |}.

(** [readingText] at the end of the body of the loop of [getFullSchedule];
    [secondChapter] is [undefined] past the end of the plan. *)
Definition readingText (language : Language) (firstChapter : ReadingPlanItem)
    (secondChapter : option ReadingPlanItem) : string :=
  let firstBookName := localized (rp_book firstChapter) language in
  match secondChapter with
  | None =>
      if decide (language = ko)
      then firstBookName +:+ " " +:+ pretty (rp_chapter firstChapter) +:+ "장"
      else firstBookName +:+ " " +:+ pretty (rp_chapter firstChapter)
  | Some secondChapter =>
      let secondBookName := localized (rp_book secondChapter) language in
      if String.eqb firstBookName secondBookName then
        if decide (language = ko)
        then firstBookName +:+ " " +:+ pretty (rp_chapter firstChapter) +:+ "-"
             +:+ pretty (rp_chapter secondChapter) +:+ "장"
        else firstBookName +:+ " " +:+ pretty (rp_chapter firstChapter) +:+ "-"
             +:+ pretty (rp_chapter secondChapter)
      else
        let firstReading :=
          if decide (language = ko)
          then firstBookName +:+ " " +:+ pretty (rp_chapter firstChapter) +:+ "장"
          else firstBookName +:+ " " +:+ pretty (rp_chapter firstChapter) in
        let secondReading :=
          if decide (language = ko)
          then secondBookName +:+ " " +:+ pretty (rp_chapter secondChapter) +:+ "장"
          else secondBookName +:+ " " +:+ pretty (rp_chapter secondChapter) in
        firstReading +:+ " & " +:+ secondReading
  end.

(** [for (let dayIndex = 0; dayIndex < totalDays; dayIndex++) { ... }] *)
Fixpoint schedule_loop (fuel : nat) (plan : list ReadingPlanItem) (language : Language)
    (totalDays dayIndex : Z) (schedule : list ScheduleItem) : Result (list ScheduleItem) :=
  match fuel with
  | O => OutOfFuel
  | S fuel' =>
      if dayIndex <? totalDays then
        let startIndex := dayIndex * 2 in
        match array_get plan startIndex with
        | Some firstChapter =>
            let secondChapter := array_get plan (startIndex + 1) in
            schedule_loop fuel' plan language totalDays (dayIndex + 1)
              (schedule ++ [ {| day := dayIndex + 1;
                                reading := readingText language firstChapter secondChapter |} ])
        | None => Thrown TypeError
        end
      else Returned schedule
  end.

(** The item that the iteration [dayIndex] of the loop pushes. *)
Definition schedule_row (plan : list ReadingPlanItem) (language : Language) (dayIndex : Z) :
    option ScheduleItem :=
  match array_get plan (dayIndex * 2) with
  | Some firstChapter =>
      Some {| day := dayIndex + 1;
              reading := readingText language firstChapter (array_get plan (dayIndex * 2 + 1)) |}
  | None => None
  end.

(** [getFullSchedule], for an arbitrary plan. *)
Definition getFullScheduleOf (plan : list ReadingPlanItem) (language : Language) :
    Result (list ScheduleItem) :=
  let totalDays := Math_ceil_div (Z.of_nat (length plan)) 2 in
  schedule_loop (S (Z.to_nat totalDays)) plan language totalDays 0 [].

Definition getFullSchedule (language : Language) : Result (list ScheduleItem) :=
  getFullScheduleOf readingPlan language.

(** The daily reading that starts at the index [i] of the plan: the value
    of [getDailyReading] once [startIndex] is known. *)
Definition reading_at (i : Z) (language : Language) : option DailyReading :=
  match array_get readingPlan i,
        array_get readingPlan (Z.rem (i + 1) totalChapters) with
  | Some firstChapterItem, Some secondChapterItem =>
      Some ({| book := localized (rp_book firstChapterItem) language;
               chapter := rp_chapter firstChapterItem |},
            {| book := localized (rp_book secondChapterItem) language;
               chapter := rp_chapter secondChapterItem |})
  | _, _ => None
  end.

(** [array.findIndex (p)], counting from [i]: -1 when no element satisfies
    [p]. *)
Fixpoint findIndex_from {A} (p : A -> bool) (a : list A) (i : Z) : Z :=
  match a with
  | [] => -1
  | x :: a' => if p x then i else findIndex_from p a' (i + 1)
  end.

Definition findIndex {A} (p : A -> bool) (a : list A) : Z := findIndex_from p a 0.

(** [components/BibleReading.tsx]: [totalDays] and [currentDay]. The
    reading is a pair, so the guard [!reading || !reading[0]] never holds. *)
Definition totalDays : Z := Math_ceil_div (Z.of_nat (length readingPlan)) 2.

Definition currentDay (reading : DailyReading) (language : Language) : Z :=
  let found :=
    List.find
      (fun p => String.eqb (localized (rp_book p) language) (book (fst reading))
                && (rp_chapter p =? chapter (fst reading)))
      readingPlan in
  let currentChapterIndex :=
    findIndex
      (fun r =>
         match found with
         | Some p => String.eqb (name_en (rp_book r)) (name_en (rp_book p))
         | None => false
         end
         && (rp_chapter r =? chapter (fst reading)))
      readingPlan in
  if negb (currentChapterIndex =? -1) then currentChapterIndex / 2 + 1 else 1.

(** [App.tsx]: the reference shown in the header. *)
Definition readingRef (dailyReading : DailyReading) (language : Language) : string :=
  book (fst dailyReading) +:+ " " +:+ pretty (chapter (fst dailyReading)) +:+ "-"
  +:+ pretty (chapter (snd dailyReading)) +:+ (if decide (language = ko) then "장" else "").

(** The predicates that the properties of the plan are checked with. *)
Definition distinct_readings (language : Language) : bool :=
  forallb
    (fun i =>
       forallb
         (fun j => (i =? j) || negb (bool_decide (reading_at i language = reading_at j language)))
         (seqZ 0 totalChapters))
    (seqZ 0 totalChapters).

Definition currentDay_at (i : Z) (language : Language) : bool :=
  match reading_at i language with
  | Some r => currentDay r language =? i / 2 + 1
  | None => false
  end.

End Schedule.

(** ** Calendar dates, time zones and the date of [toISOString] *)

Module Calendar.
Import Constants.

(** The civil date of the day number [z] (days since 1970-01-01), in the
    proleptic Gregorian calendar: year, month from 1 and day. *)
Definition civil_from_days (z : Z) : Z * Z * Z :=
  let z := z + 719468 in
  let era := z / 146097 in
  let doe := z - era * 146097 in
  let yoe := (doe - doe / 1460 + doe / 36524 - doe / 146096) / 365 in
  let y := yoe + era * 400 in
  let doy := doe - (365 * yoe + yoe / 4 - yoe / 100) in
  let mp := (5 * doy + 2) / 153 in
  let d := doy - (153 * mp + 2) / 5 + 1 in
  let m := if mp <? 10 then mp + 3 else mp - 9 in
  (if m <=? 2 then y + 1 else y, m, d).

Definition is_leap_year (y : Z) : bool :=
  (y mod 4 =? 0) && (negb (y mod 100 =? 0) || (y mod 400 =? 0)).

(** The days of the month [m], counted from 1, of the year [y]. *)
Definition days_in_month (y m : Z) : Z :=
  if m =? 2 then (if is_leap_year y then 29 else 28)
  else if (m =? 4) || (m =? 6) || (m =? 9) || (m =? 11) then 30
  else 31.

(** [String (n).padStart (2, '0')] and [padStart (4, '0')], for [n] not
    negative. *)
Definition pad2 (n : Z) : string :=
  if n <? 10 then "0" +:+ pretty n else pretty n.

Definition pad4 (n : Z) : string :=
  if n <? 10 then "000" +:+ pretty n
  else if n <? 100 then "00" +:+ pretty n
  else if n <? 1000 then "0" +:+ pretty n
  else pretty n.

(** [new Date (now).toISOString ().split ('T')[0]]: the date of the time
    value [now] in UTC, for the years 0 to 9999. *)
Definition toISODate (now : Z) : string :=
  let '(y, m, d) := civil_from_days (now / oneDay) in
  pad4 y +:+ "-" +:+ pad2 m +:+ "-" +:+ pad2 d.

(** [components/BibleReading.tsx]:
    [storageKeyDate = new Date ().toISOString ().split ('T')[0]], at the
    time [now] of the render. *)
Definition storageKeyDate (now : Z) : string := toISODate now.

(** The civil date of the day number [day] is a date of the calendar whose
    day number is [day], in a year from 2024 to 2099. *)
Definition civil_date_ok (day : Z) : bool :=
  let '(y, m, d) := civil_from_days day in
  (days_from_civil y (m - 1) d =? day)
  && (2024 <=? y) && (y <=? 2099)
  && (1 <=? m) && (m <=? 12)
  && (1 <=? d) && (d <=? days_in_month y m).

(** [P] holds of the [count] day numbers from [first] on. *)
Fixpoint every_day_from (count : nat) (P : Z -> bool) (first : Z) : bool :=
  match count with
  | O => true
  | S count' => P first && every_day_from count' P (first + 1)
  end.

(** The number that the decimal digits of [s] write, and the day number of
    the date that a string YYYY-MM-DD writes. *)
Definition digits_value (s : string) : Z :=
  fold_left (fun n c => n * 10 + (Z.of_nat (nat_of_ascii c) - 48)) (list_ascii_of_string s) 0.

Definition day_of_ISODate (s : string) : Z :=
  days_from_civil (digits_value (substring 0 4 s)) (digits_value (substring 5 2 s) - 1)
    (digits_value (substring 8 2 s)).

(** [pad] writes [n] in [width] characters that are the digits of [n]. *)
Definition writes (pad : Z -> string) (width : nat) (n : Z) : bool :=
  (String.length (pad n) =? width)%nat && (digits_value (pad n) =? n).

(** The days that the properties of the date string are checked on: from
    January 1, 2024 to December 31, 2099. *)
Definition first_day : Z := days_from_civil 2024 0 1.
Definition last_day : Z := days_from_civil 2099 11 31.

Definition in_checked_years (now : Z) : Prop := first_day <= now / oneDay <= last_day.

(** A time zone at a fixed offset from UTC: [offset] milliseconds east.
    The local day of a time value is the day number of its local date. *)
Definition fixed_localDay (offset t : Z) : Z := (t + offset) / oneDay.

Definition fixed_setHours0 (offset t : Z) : Z := fixed_localDay offset t * oneDay - offset.

Definition fixed_makeLocalDate (offset y m d : Z) : Z :=
  days_from_civil y m d * oneDay - offset.

Definition oneHour : Z := 1000 * 60 * 60.

(** The zone of Sydney from April 7, 2024 to October 4, 2025: ten hours
    east of UTC, and eleven from 2:00 on October 6, 2024 (16:00 UTC of the
    day before) to 3:00 on April 6, 2025 (16:00 UTC of the day before). *)
Definition sydney_dst_start : Z := days_from_civil 2024 9 5 * oneDay + 16 * oneHour.
Definition sydney_dst_end : Z := days_from_civil 2025 3 5 * oneDay + 16 * oneHour.

Definition sydney_offset (t : Z) : Z :=
  if (sydney_dst_start <=? t) && (t <? sydney_dst_end) then 11 * oneHour else 10 * oneHour.

(** The time value of 0:00 on the local day of number [localDay]. *)
Definition sydney_midnight (localDay : Z) : Z :=
  let summer := localDay * oneDay - 11 * oneHour in
  if sydney_offset summer =? 11 * oneHour then summer else localDay * oneDay - 10 * oneHour.

Definition sydney_localDay (t : Z) : Z := (t + sydney_offset t) / oneDay.

Definition sydney_setHours0 (t : Z) : Z := sydney_midnight (sydney_localDay t).

Definition sydney_makeLocalDate (y m d : Z) : Z := sydney_midnight (days_from_civil y m d).

(** Modelled from the spec: the number of whole local days elapsed since
    July 27, 2024 on the day [d] of the month [m] (from 0, as in the [Date]
    constructor) of the year [y], never below 0. *)
Definition calendarDaysSinceStart (y m d : Z) : Z :=
  Z.max 0 (days_from_civil y m d - days_from_civil 2024 6 27).

(** Modelled from the spec: the pair of the items [(d * 2) mod N] and
    [(d * 2 + 1) mod N] of the reading plan, in the language asked for. *)
Definition readingOfDay (d : Z) (language : Language) : option DailyReading :=
  let N := Z.of_nat (length readingPlan) in
  match readingPlan !! Z.to_nat ((d * 2) mod N),
        readingPlan !! Z.to_nat ((d * 2 + 1) mod N) with
  | Some first, Some second =>
      Some ({| book := localized (rp_book first) language; chapter := rp_chapter first |},
            {| book := localized (rp_book second) language; chapter := rp_chapter second |})
  | _, _ => None
  end.

End Calendar.

(** ** [components/BibleReading.tsx]: the archive of the readings *)

Module ReadingArchive.
Import Gemini Browser Types SyncService BibleReading.

(** The state of [BibleReading] that the archive adds to [State]. *)
Record ArchiveState := {
  isSaving : bool;
  archivedReadings : ArchivedReadings }.

Definition Component : Type := State * ArchiveState.

Definition set_isSaving (v : bool) (s : Component) : Component :=
  (fst s, {| isSaving := v; archivedReadings := archivedReadings (snd s) |}).

(** [setArchivedReadings (prev => f (prev))] *)
Definition update_archivedReadings (f : ArchivedReadings -> ArchivedReadings)
    (s : Component) : Component :=
  (fst s, {| isSaving := isSaving (snd s); archivedReadings := f (archivedReadings (snd s)) |}).

Definition update_reading (f : State -> State) (s : Component) : Component :=
  (f (fst s), snd s).

(** A handler of [BibleReading.State], run inside the whole component. *)
Definition on_reading {A} (m : M (World * State) A) : M (World * Component) A :=
  fun wc =>
    let '(r, ws) := m (fst wc, fst (snd wc)) in
    (r, (fst ws, (snd ws, snd (snd wc)))).

(** The value that a getter of the sync service reads under [key]: the
    parsed item, [fallback] when there is none; [None] where [JSON.parse]
    throws. *)
Definition stored {A} `{JSON A} (key : string) (fallback : A) (w : World) : option A :=
  match localStorage w !! key with
  | Some data => if truthy data then JSON_parse data else Some fallback
  | None => Some fallback
  end.

(** How a getter settles, from what it reads: it resolves after the mock
    latency, or rejects at once. *)
Definition getter_outcome {A} (w : World) (stored : option A) : Result A * World :=
  match stored with
  | Some x => (Returned x, Chain.after w [Sleep MOCK_LATENCY])
  | None => (Thrown SyntaxError, w)
  end.

Section Component.

Context (env : Env).
Context {JSON_status : JSON MeditationRecord}.
Context {JSON_archive : JSON ArchivedReadings}.
Context (reading : Constants.DailyReading) (language : Language).

(** The effect of the first render: both stores are read, and the two
    states are set when both promises resolve. *)
Definition fetchInitialData : M (World * Component) unit :=
  fun wc =>
    let '(status, w1) := getMeditationStatus (fst wc) in
    let '(archives, w2) := getArchivedReadings w1 in
    match status, archives with
    | Returned status, Returned archives =>
        (Returned tt,
         (w2, update_archivedReadings (fun _ => archives)
                (update_reading (set_meditationStatus status) (snd wc))))
    | _, _ => (Returned tt, (w2, snd wc))
    end.

Definition readingReference : string :=
  Constants.book (fst reading) +:+ " " +:+ pretty (Constants.chapter (fst reading)) +:+ "-"
  +:+ pretty (Constants.chapter (snd reading)).

(** [dataToArchive]; [now] is [new Date ().toISOString ()]. *)
Definition dataToArchive (st : State) (now : string) : ArchivedReading :=
  {| ar_day := Schedule.currentDay reading language;
     ar_dateSaved := now;
     ar_readingReference := readingReference;
     ar_passage := passage st;
     ar_meditationGuide := meditationGuide st;
     ar_context := passageContext st;
     ar_intention := passageIntention st;
     ar_contextImageUrl := contextImageUrl st |}.

(** The timer that clears [isSaving] after two seconds is left out. The
    call of [handleStatusChange] is not awaited; what it does before its
    first [await] and after it is run where it is called. *)
Definition handleCompleteReading (now : string) : M (World * Component) unit :=
  let* s := getState in
  let st := fst s in
  let currentDay := Schedule.currentDay reading language in
  if negb (truthy (passage st)) || negb (truthy (meditationGuide st)) then ret tt
  else
    let* _ := setState (set_isSaving true) in
    let dataToArchive := dataToArchive st now in
    try_catch
      (let* _ := lift (saveArchivedReading env currentDay dataToArchive) in
       let* _ := setState (update_archivedReadings (fun prev => <[currentDay := dataToArchive]> prev)) in
       if decide (meditationStatus st !! currentDay = Some good) then ret tt
       else on_reading (handleStatusChange env currentDay good))
      (fun error => ret tt).

(** [isTodayArchived]: [!!archivedReadings[currentDay]] *)
Definition isTodayArchived (s : Component) : bool :=
  bool_decide (is_Some (archivedReadings (snd s) !! Schedule.currentDay reading language)).

(** The button that completes the reading is rendered when
    [!isLoading && passage && !error], and disabled when
    [isLoading || isSaving || isTodayArchived]. *)
Definition completeButton_rendered (s : Component) : bool :=
  negb (isLoading (fst s)) && truthy (passage (fst s)) && negb (truthy_opt (error (fst s))).

Definition completeButton_disabled (s : Component) : bool :=
  isLoading (fst s) || isSaving (snd s) || isTodayArchived s.

(** A click on the button: [onClick] runs when the button is there and is
    not disabled. *)
Definition clickCompleteReading (now : string) : M (World * Component) unit :=
  let* s := getState in
  if completeButton_rendered s && negb (completeButton_disabled s)
  then handleCompleteReading now
  else ret tt.

(** [fetchInitialData] in two steps, for what happens in between. Both
    getters read the storage when they are called, at the first render; their
    promises settle after the mock latency, and the states are set then. *)
Definition initialData_read (w : World) : Result MeditationRecord * Result ArchivedReadings :=
  (fst (read_or "meditation-status" (∅ : MeditationRecord) w),
   fst (read_or "archived-readings" (∅ : ArchivedReadings) w)).

Definition initialData_settled
    (pending : Result MeditationRecord * Result ArchivedReadings) : M (World * Component) unit :=
  let latency {A} (r : Result A) : M World unit :=
    match r with Returned _ => delay MOCK_LATENCY | _ => ret tt end in
  let* _ := lift (latency (fst pending)) in
  let* _ := lift (latency (snd pending)) in
  match pending with
  | (Returned status, Returned archives) =>
      setState (fun s => update_archivedReadings (fun _ => archives)
                           (update_reading (set_meditationStatus status) s))
  | _ => ret tt
  end.

End Component.

End ReadingArchive.

(** ** [i18n.tsx]: the texts that the components below show *)

Module Translations.

Definition t_offlineError (language : Language) : string :=
  match language with
  | ko => "이 기능을 사용하려면 인터넷 연결이 필요합니다."
  | en => "An internet connection is required to use this feature."
  end.

Definition t_keywordsApiError (language : Language) : string :=
  match language with
  | ko => "스토리 키워드 생성에 실패했습니다."
  | en => "Failed to generate story keywords."
  end.

Definition t_recommendationError (language : Language) : string :=
  match language with
  | ko => "추천할 만한 찬양을 찾지 못했습니다. 다른 내용으로 시도해 보세요."
  | en => "Couldn't find any suitable songs to recommend. Try with different content."
  end.

Definition t_recommendationApiError (language : Language) : string :=
  match language with
  | ko => "찬양을 추천하는 중 오류가 발생했습니다."
  | en => "An error occurred while recommending music."
  end.

Definition t_sermonApiError (language : Language) : string :=
  match language with
  | ko => "설교 개요를 생성하는 중 오류가 발생했습니다."
  | en => "An error occurred while generating the sermon outline."
  end.

Definition t_tipsFailed (language : Language) : string :=
  match language with
  | ko => "전도 팁을 불러오는데 실패했습니다."
  | en => "Failed to load evangelism tips."
  end.

Definition t_explanationApiError (language : Language) : string :=
  match language with
  | ko => "해설을 생성하는 중 오류가 발생했습니다."
  | en => "An error occurred while generating the explanation."
  end.

End Translations.

(** ** [services/geminiService.ts]: the explanation of a selection *)

Module Explanation.
Import Gemini.

(** [getPrompts (language, '', 0, 0, passage, context).explainSelection] *)
Definition p_explainSelection (language : Language) (passage context : string) : string :=
  match language with
  | ko =>
      "당신은 100주년기념교회의 은퇴 목사이신 이재철 목사님과 같은 깊이와 지혜를 가진 신학자입니다. 다음 성경 본문 전체의 맥락 안에서, 사용자가 선택한 특정 구절에 대해 신학적으로 깊이 있는 해설을 제공해주세요. 따뜻하고 목회적인 어조를 유지하며, 성도들이 이해하기 쉽게 설명해주세요.

[성경 본문 전체]
" +:+ context +:+ "

[사용자가 선택한 구절]
" +:+ passage
  | en =>
      "You are a theologian with the depth and wisdom of a retired pastor, akin to Reverend Lee Jae-chul from the 100th Anniversary Memorial Church. Within the context of the full Bible passage provided, please offer a deep theological explanation for the specific verse the user has selected. Maintain a warm, pastoral tone and explain in a way that is easy for congregants to understand.

[Full Bible Passage]
" +:+ context +:+ "

[User-selected Verse]
" +:+ passage
  end.

Definition p_explainSelectionError (language : Language) : string :=
  match language with
  | ko => "구절 해설 생성에 실패했습니다. 잠시 후 다시 시도해 주세요."
  | en => "Failed to generate verse explanation. Please try again later."
  end.

Definition explainSelection_request (selectedText passageContext : string) (l : Language) :
    Request :=
  textRequest gemini_2_5_pro (p_explainSelection l selectedText passageContext).

Section Service.

Context (env : Env).

Definition explainPassageSelection (selectedText passageContext : string)
    (language : Language) : M World (option string) :=
  let* _ := getAiClient env in
  try_catch
    (let* response :=
       generateContent env
         (textRequest gemini_2_5_pro (p_explainSelection language selectedText passageContext)) in
     ret (text response))
    (fun error => ret (Some (p_explainSelectionError language))).

End Service.

(** [components/BibleReading.tsx]: the modal of the explanation. *)
Record Modal := {
  isOpen : bool;
  isLoading : bool;
  error : option string;
  content : option string }.

Record State := {
  selectedText : string;
  explanationModal : Modal }.

Section Component.

Context (env : Env).
(** The passage shown and the language of the context. *)
Context (passage : string) (language : Language).

(** The popover and the range of the selection are left out. *)
Definition handleExplainClick : M (World * State) unit :=
  let* st := getState in
  if negb (truthy (selectedText st)) then ret tt
  else
    let* _ :=
      setState (fun st =>
        {| selectedText := selectedText st;
           explanationModal :=
             {| isOpen := true; isLoading := true; error := None; content := Some "" |} |}) in
    try_catch
      (let* result := lift (explainPassageSelection env (selectedText st) passage language) in
       setState (fun st =>
         {| selectedText := selectedText st;
            explanationModal :=
              {| isOpen := true; isLoading := false; error := None; content := result |} |}))
      (fun err =>
         setState (fun st =>
           {| selectedText := selectedText st;
              explanationModal :=
                {| isOpen := true; isLoading := false;
                   error := Some (Translations.t_explanationApiError language);
                   content := Some "" |} |})).

End Component.

End Explanation.

(** ** [components/SermonOutline.tsx] *)

Module SermonOutline.
Import Gemini.

(** [outline] is [undefined] when the response of the model has no text. *)
Record State := {
  outline : option string;
  isLoading : bool;
  error : option string;
  isOnline : bool }.

Definition set_outline (v : option string) (st : State) : State :=
  {| outline := v; isLoading := isLoading st; error := error st; isOnline := isOnline st |}.
Definition set_isLoading (v : bool) (st : State) : State :=
  {| outline := outline st; isLoading := v; error := error st; isOnline := isOnline st |}.
Definition set_error (v : option string) (st : State) : State :=
  {| outline := outline st; isLoading := isLoading st; error := v; isOnline := isOnline st |}.

Section Component.

Context (env : Env).
Context (passage : string) (language : Language).

Definition handleGenerate : M (World * State) unit :=
  let* st := getState in
  if negb (isOnline st) then setState (set_error (Some (Translations.t_offlineError language)))
  else
    let* _ := setState (set_isLoading true) in
    let* _ := setState (set_error None) in
    let* _ := setState (set_outline (Some "")) in
    try_finally
      (try_catch
         (let* generatedOutline := lift (generateSermonOutline env passage language) in
          setState (set_outline generatedOutline))
         (fun err => setState (set_error (Some (Translations.t_sermonApiError language)))))
      (fun ws => (fst ws, set_isLoading false (snd ws))).

End Component.

End SermonOutline.

(** ** [components/MusicRecommendation.tsx] *)

Module MusicRecommendation.
Import Gemini.

Record State := {
  songs : list Song;
  isLoading : bool;
  error : option string;
  isOnline : bool }.

Definition set_songs (v : list Song) (st : State) : State :=
  {| songs := v; isLoading := isLoading st; error := error st; isOnline := isOnline st |}.
Definition set_isLoading (v : bool) (st : State) : State :=
  {| songs := songs st; isLoading := v; error := error st; isOnline := isOnline st |}.
Definition set_error (v : option string) (st : State) : State :=
  {| songs := songs st; isLoading := isLoading st; error := v; isOnline := isOnline st |}.

Section Component.

Context (env : Env).
Context {JSON_SongsResponse : JSON SongsResponse}.
Context (context : string) (language : Language).

Definition handleRecommend : M (World * State) unit :=
  let* st := getState in
  if negb (isOnline st) then setState (set_error (Some (Translations.t_offlineError language)))
  else
    let* _ := setState (set_isLoading true) in
    let* _ := setState (set_error None) in
    let* _ := setState (set_songs []) in
    try_finally
      (try_catch
         (let* recommendedSongs := lift (recommendMusic env context language) in
          if (length recommendedSongs =? 0)%nat
          then setState (set_error (Some (Translations.t_recommendationError language)))
          else setState (set_songs recommendedSongs))
         (fun err =>
            setState (set_error (Some (Translations.t_recommendationApiError language)))))
      (fun ws => (fst ws, set_isLoading false (snd ws))).

End Component.

End MusicRecommendation.

(** ** [components/StoryKeywords.tsx] *)

Module StoryKeywordsComponent.
Import Gemini Browser.

Record State := {
  keywords : option StoryKeywords;
  isLoading : bool;
  error : option string }.

Definition set_keywords (v : option StoryKeywords) (st : State) : State :=
  {| keywords := v; isLoading := isLoading st; error := error st |}.
Definition set_isLoading (v : bool) (st : State) : State :=
  {| keywords := keywords st; isLoading := v; error := error st |}.
Definition set_error (v : option string) (st : State) : State :=
  {| keywords := keywords st; isLoading := isLoading st; error := v |}.

(** [`story-keywords-${today}-${language}`] *)
Definition cacheKey (today : string) (language : Language) : string :=
  "story-keywords-" +:+ today +:+ "-" +:+ Language_code language.

(** The state of the first render. *)
Definition initial_state : State := {| keywords := None; isLoading := true; error := None |}.

Section Component.

Context (env : Env).
Context {JSON_StoryKeywords : JSON StoryKeywords}.
(** The prop, the language, [navigator.onLine] at the first render and
    [new Date ().toISOString ().split ('T')[0]]. *)
Context (passage : string) (language : Language) (isOnline : bool) (today : string).

(** The first [try] of [fetchKeywords]; it yields [true] where the code
    returns from [fetchKeywords]. *)
Definition loadFromCache : M (World * State) bool :=
  try_catch
    (let* cachedData := lift (getItem (cacheKey today language)) in
     if truthy_opt cachedData then
       let* parsed := lift (JSON_parse_M (template_arg cachedData)) in
       let* _ := setState (set_keywords (Some parsed)) in
       let* _ := setState (set_isLoading false) in
       ret true
     else ret false)
    (fun e => ret false).

Definition fetchKeywords : M (World * State) unit :=
  if negb (truthy passage) || negb isOnline then
    let* _ :=
      if negb isOnline
      then setState (set_error (Some (Translations.t_offlineError language)))
      else ret tt in
    setState (set_isLoading false)
  else
    let* served := loadFromCache in
    if (served : bool) then ret tt
    else
      let* _ := setState (set_isLoading true) in
      let* _ := setState (set_error None) in
      try_finally
        (try_catch
           (let* generatedKeywords := lift (generateStoryKeywords env passage language) in
            match generatedKeywords with
            | Some generatedKeywords =>
                let* _ := setState (set_keywords (Some generatedKeywords)) in
                lift (setItem env (cacheKey today language) (JSON_stringify generatedKeywords))
            | None => throw (Error "No keywords returned from API")
            end)
           (fun err => setState (set_error (Some (Translations.t_keywordsApiError language)))))
        (fun ws => (fst ws, set_isLoading false (snd ws))).

End Component.

End StoryKeywordsComponent.

(** ** [components/EvangelismMission.tsx]: the tips *)

Module EvangelismTips.
Import Gemini Browser.

(** [tips] is [undefined] when the response of the model has no text. *)
Record State := {
  tips : option string;
  isLoading : bool }.

Definition set_tips (v : option string) (st : State) : State :=
  {| tips := v; isLoading := isLoading st |}.
Definition set_isLoading (v : bool) (st : State) : State :=
  {| tips := tips st; isLoading := v |}.

(** [`evangelism-tips-${today}-${language}`] *)
Definition cacheKey (today : string) (language : Language) : string :=
  "evangelism-tips-" +:+ today +:+ "-" +:+ Language_code language.

Definition initial_state : State := {| tips := Some ""; isLoading := true |}.

Section Component.

Context (env : Env).
Context (passage : string) (language : Language) (today : string).

(** "1. Try to load from cache"; [true] where the code returns. *)
Definition loadFromCache : M (World * State) bool :=
  try_catch
    (let* cachedTips := lift (getItem (cacheKey today language)) in
     if truthy_opt cachedTips then
       let* _ := setState (set_tips cachedTips) in
       let* _ := setState (set_isLoading false) in
       ret true
     else ret false)
    (fun e => ret false).

(** [setItem (cacheKey, generatedTips)] stores the text "undefined" for
    [undefined]. *)
Definition fetchTips : M (World * State) unit :=
  if negb (truthy passage) then ret tt
  else
    let* served := loadFromCache in
    if (served : bool) then ret tt
    else
      let* _ := setState (set_isLoading true) in
      try_finally
        (try_catch
           (let* generatedTips := lift (generateEvangelismTips env passage language) in
            let* _ := setState (set_tips generatedTips) in
            lift (setItem env (cacheKey today language) (template_arg generatedTips)))
           (fun error => setState (set_tips (Some (Translations.t_tipsFailed language)))))
        (fun ws => (fst ws, set_isLoading false (snd ws))).

End Component.

End EvangelismTips.

(** ** [App.tsx]: the gate of the API key *)

Module App.
Import Gemini.

Record State := {
  apiKeySelected : bool;
  isCheckingApiKey : bool }.

Definition set_apiKeySelected (v : bool) (st : State) : State :=
  {| apiKeySelected := v; isCheckingApiKey := isCheckingApiKey st |}.
Definition set_isCheckingApiKey (v : bool) (st : State) : State :=
  {| apiKeySelected := apiKeySelected st; isCheckingApiKey := v |}.

Definition initial_state : State := {| apiKeySelected := false; isCheckingApiKey := true |}.

(** [window.aistudio], when it is there: how the promises of its two
    methods settle; [OutOfFuel] stands for a promise that never settles. *)
Record AIStudio := {
  hasSelectedApiKey : Result bool;
  openSelectKey : Result unit }.

(** AI Studio is there and reports a selected key. *)
Definition reports_key (aistudio : option AIStudio) : bool :=
  match aistudio with
  | Some {| hasSelectedApiKey := Returned true |} => true
  | _ => false
  end.

(** The promise of [hasSelectedApiKey] settles, where it is awaited. *)
Definition settles (aistudio : option AIStudio) : bool :=
  match aistudio with
  | Some {| hasSelectedApiKey := OutOfFuel |} => false
  | _ => true
  end.

Section Component.

Context (env : Env).
Context (aistudio : option AIStudio).

(** [await] of a promise that has settled with [r]. *)
Definition await {S A} (r : Result A) : M S A := fun s => (r, s).

(** The body of [try] yields [true] where the code returns from
    [checkApiKey]. *)
Definition checkApiKey : M (World * State) unit :=
  let* _ := setState (set_isCheckingApiKey true) in
  let* returned :=
    try_catch
      (let* returned :=
         match aistudio with
         | Some studio =>
             let* hasKey := await (hasSelectedApiKey studio) in
             if (hasKey : bool) then
               let* _ := setState (set_apiKeySelected true) in
               let* _ := setState (set_isCheckingApiKey false) in
               ret true
             else ret false
         | None => ret false
         end in
       if (returned : bool) then ret true
       else
         let envKey := VITE_GEMINI_API_KEY env in
         let* _ :=
           if truthy_opt envKey
           then setState (set_apiKeySelected true)
           else setState (set_apiKeySelected false) in
         ret false)
      (fun error =>
         let envKey := VITE_GEMINI_API_KEY env in
         let* _ :=
           if truthy_opt envKey
           then setState (set_apiKeySelected true)
           else setState (set_apiKeySelected false) in
         ret false) in
  if (returned : bool) then ret tt
  else setState (set_isCheckingApiKey false).

Definition handleSelectApiKey : M (World * State) unit :=
  match aistudio with
  | Some studio =>
      let* _ := await (openSelectKey studio) in
      setState (set_apiKeySelected true)
  | None => ret tt
  end.

End Component.

End App.

(** ** [components/FaithDiary.tsx]: what the storage holds for the diary *)

Module DiaryStore.
Import Gemini Browser Types SyncService FaithDiary.

Section Store.

Context {JSON_entry : JSON DiaryEntry}.
Context {JSON_diary : JSON (list SavedDiaryEntry)}.
Context (storageKey : string).

(** The draft that [useLocalStorage] starts from: the parsed item of the
    key of the draft, the empty entry when there is none or it does not
    parse. *)
Definition stored_draft (w : World) : DiaryEntry :=
  match localStorage w !! (storageKey +:+ "-current") with
  | Some item =>
      if truthy item
      then match JSON_parse item with Some entry => entry | None => emptyEntry end
      else emptyEntry
  | None => emptyEntry
  end.

(** Every entry of the list has a field that is not blank. *)
Definition no_blank_entry (entries : list SavedDiaryEntry) : Prop :=
  Forall (fun e => all_blank (sd_content e) = false) entries.

(** No blank entry in the storage, in the list that the component shows, or
    in the list that a pending fetch has read. *)
Definition no_blank_entry_anywhere (ws : World * State) : Prop :=
  (forall entries, stored_entries storageKey (fst ws) = Some entries -> no_blank_entry entries)
  /\ no_blank_entry (savedEntries (snd ws))
  /\ (forall entries, fetching (snd ws) = Some (Returned entries) -> no_blank_entry entries).

End Store.

End DiaryStore.

(** ** Outcomes and costs of the calls of the service *)

Module Outcomes.
Import Gemini Chain.

(** The error of [getAiClient]. *)
Definition missing_key_error : JsError :=
  Error "VITE_GEMINI_API_KEY environment variable is not set. Please check your Vercel environment variables.".

(** What a text entry point makes of the outcome of its call. *)
Definition text_or (fallback : string) (o : Outcome) : option string :=
  match o with
  | Resolved response => text response
  | Rejected _ => Some fallback
  end.

(** The time that the delays of a trace add up to, in milliseconds. *)
Definition total_delay (evs : list Event) : Z := foldr Z.add 0 (sleeps evs).

(** A computation that returns, after at most [c] calls of the models and
    [d] milliseconds of delays. *)
Definition costs {A} (m : M World A) (c : nat) (d : Z) : Prop :=
  forall w, exists r evs,
    m w = (Returned r, after w evs)
    /\ (length (calls evs) <= c)%nat
    /\ 0 <= total_delay evs <= d.

End Outcomes.

(** ** More concrete environments *)

Module MoreExamples.
Import Gemini Examples.

(** A service that refuses every call for lack of quota. *)
Definition env_quota : Env :=
  {| VITE_GEMINI_API_KEY := Some "key";
     service := fun _ _ => Rejected (Error "429 Too Many Requests");
     storage_accepts := fun _ _ _ => true |}.

(** A storage whose reading cache of 2024-07-27 does not parse. *)
Definition world_with_corrupt_cache : World :=
  {| trace := [];
     localStorage :=
       {[ BibleReading.cacheKey "2024-07-27" en := "{oops"; "other" := "kept" ]} |}.

(** A service whose text model answers and whose image model always fails
    transiently. *)
Definition env_images_transient : Env :=
  {| VITE_GEMINI_API_KEY := Some "key";
     service := fun _ r =>
       match model r with
       | gemini_2_5_flash_image => Rejected transient_error
       | _ => Resolved (text_response "a candle in a window")
       end;
     storage_accepts := fun _ _ _ => true |}.

(** A storage whose archive does not parse. *)
Definition world_with_corrupt_archive : World :=
  {| trace := []; localStorage := {[ "archived-readings" := "{oops" ]} |}.

(** A browser whose storage is full. *)
Definition env_full_storage : Env :=
  {| VITE_GEMINI_API_KEY := Some "key";
     service := fun _ _ => Resolved (text_response "Start with a question.");
     storage_accepts := fun _ _ _ => false |}.

Definition grace_keywords : StoryKeywords :=
  {| kw_positive := ["grace"; "love"]; kw_sin := ["boasting"]; kw_hope := ["eternal life"] |}.

(** U+00A0, the no-break space, and U+3000, the ideographic space. *)
Definition no_break_space : string :=
  String (ascii_of_nat 194) (String (ascii_of_nat 160) EmptyString).

Definition ideographic_space : string :=
  String (ascii_of_nat 227) (String (ascii_of_nat 128) (String (ascii_of_nat 128) EmptyString)).

(** The first image call yields no image, and the text model answers the
    request for a prompt with white space only. *)
Definition env_blank_prompt : Env :=
  {| VITE_GEMINI_API_KEY := Some "key";
     service := fun n r =>
       match n with
       | O => Resolved no_image_response
       | S O => Resolved (text_response (ideographic_space +:+ no_break_space))
       | _ => Resolved (image_response "CCCC")
       end;
     storage_accepts := fun _ _ _ => true |}.

(** A draft of white space only. *)
Definition blank_draft : Types.DiaryEntry :=
  {| Types.repentance := no_break_space; Types.resolve := ideographic_space +:+ " ";
     Types.dream := "" |}.

(** A storage that holds the status of day 1. *)
Definition world_with_status : World :=
  {| trace := [];
     localStorage :=
       {[ "meditation-status" :=
            @JSON_stringify _ (Codec.countable_JSON SyncService.MeditationRecord)
              {[ 1 := SyncService.good ]} ]} |}.

Definition reading_of_day2 : Types.ArchivedReading :=
  {| Types.ar_day := 2; Types.ar_dateSaved := "2024-07-28T08:00:00.000Z";
     Types.ar_readingReference := "Galatians 3-4"; Types.ar_passage := "You foolish Galatians";
     Types.ar_meditationGuide := "guide"; Types.ar_context := "context";
     Types.ar_intention := "intention";
     Types.ar_contextImageUrl := Some "data:image/png;base64,AAAA" |}.

End MoreExamples.

(** * Properties *)

(** ** The monad *)

Lemma bind_Returned {S A B} (m : M S A) (k : A -> M S B) s a s' :
  m s = (Returned a, s') -> bind m k s = k a s'.
Proof. unfold bind. by intros ->. Qed.

Lemma bind_Thrown {S A B} (m : M S A) (k : A -> M S B) s e s' :
  m s = (Thrown e, s') -> bind m k s = (Thrown e, s').
Proof. unfold bind. by intros ->. Qed.


(** ** The reading plan *)

Module ConstantsFacts.
Import Constants.

Lemma chapters_loop_fuel fuel b chapters i plan :
  (Z.to_nat (chapters + 1 - i) <= fuel)%nat ->
  chapters_loop fuel b chapters i plan
  = plan ++ ((fun c => {| rp_book := b; rp_chapter := c |}) <$> seqZ i (chapters + 1 - i)).
Proof.
  revert i plan. induction fuel as [|fuel IH]; intros i plan Hfuel; simpl.
  - rewrite seqZ_nil by lia. by rewrite app_nil_r.
  - destruct (Z.leb_spec i chapters) as [Hle|Hgt].
    + rewrite IH by lia.
      rewrite (seqZ_cons i) by lia. rewrite fmap_cons, <- app_assoc. simpl.
      replace (Z.succ i) with (i + 1) by lia.
      by replace (Z.pred (chapters + 1 - i)) with (chapters + 1 - (i + 1)) by lia.
    + rewrite seqZ_nil by lia. by rewrite app_nil_r.
Qed.

Lemma generateReadingPlanOf_flat_map epistles :
  generateReadingPlanOf epistles = flat_map chapters_of epistles.
Proof.
  unfold generateReadingPlanOf.
  enough (H : forall plan,
             fold_left
               (fun plan e =>
                  chapters_loop (Z.to_nat (ep_chapters e)) (ep_book e) (ep_chapters e) 1 plan)
               epistles plan
             = plan ++ flat_map chapters_of epistles) by apply (H []).
  induction epistles as [|e epistles IH]; intros plan; simpl.
  - by rewrite app_nil_r.
  - rewrite IH. rewrite chapters_loop_fuel by lia. rewrite <- app_assoc.
    unfold chapters_of. by replace (ep_chapters e + 1 - 1) with (ep_chapters e) by lia.
Qed.

Lemma length_chapters_of e :
  Z.of_nat (length (chapters_of e)) = Z.max 0 (ep_chapters e).
Proof. unfold chapters_of. rewrite length_fmap, length_seqZ. lia. Qed.

Lemma length_generateReadingPlanOf epistles :
  Forall (fun e => 0 <= ep_chapters e) epistles ->
  Z.of_nat (length (generateReadingPlanOf epistles))
  = foldr Z.add 0 (ep_chapters <$> epistles).
Proof.
  rewrite generateReadingPlanOf_flat_map.
  induction 1 as [|e epistles He _ IH]; simpl; [done|].
  simpl in He. rewrite length_app, Nat2Z.inj_add, IH, length_chapters_of.
  by rewrite Z.max_r by lia.
Qed.

(** C4. [readingPlan] is the concatenation, in the order of
    [PAULINE_EPISTLES], of the items [{book, chapter c}] for [c] from 1 up to
    the chapter count of each epistle; its length is the sum of the chapter
    counts, which is 87. *)
Theorem readingPlan_concatenation :
  readingPlan = flat_map chapters_of PAULINE_EPISTLES
  /\ Z.of_nat (length readingPlan) = foldr Z.add 0 (ep_chapters <$> PAULINE_EPISTLES)
  /\ length readingPlan = 87%nat.
Proof.
  split; [apply generateReadingPlanOf_flat_map|].
  split; [|reflexivity].
  apply length_generateReadingPlanOf.
  unfold PAULINE_EPISTLES, Epistle_of. repeat constructor; simpl; lia.
Qed.

Lemma totalChapters_eq : totalChapters = 87.
Proof. reflexivity. Qed.

Lemma array_get_in_range {A} (a : list A) i :
  0 <= i < Z.of_nat (length a) -> exists x, array_get a i = Some x /\ a !! Z.to_nat i = Some x.
Proof.
  intros Hi. unfold array_get.
  destruct (Z.ltb_spec i 0) as [?|_]; [lia|].
  destruct (lookup_lt_is_Some_2 a (Z.to_nat i)) as [x Hx]; [lia|]. eauto.
Qed.

(** For every date and language [getDailyReading] returns the items at
    [(d * 2) mod N] and [(d * 2 + 1) mod N] of the reading plan, in the
    language asked for, where [N] is the length of the plan and [d] the
    number of days that the code counts: the quotient by 24 hours of the time
    from the local midnight of the start date to the local midnight of the
    date, never below 0; two dates of the same local day give the same
    reading. *)
Lemma getDailyReading_pair makeLocalDate setHours0 date language :
  let N := Z.of_nat (length readingPlan) in
  let d := elapsedDays makeLocalDate setHours0 date in
  (exists first second,
      readingPlan !! Z.to_nat ((d * 2) mod N) = Some first
      /\ readingPlan !! Z.to_nat ((d * 2 + 1) mod N) = Some second
      /\ getDailyReading makeLocalDate setHours0 date language
         = Some ({| book := localized (rp_book first) language; chapter := rp_chapter first |},
                 {| book := localized (rp_book second) language; chapter := rp_chapter second |}))
  /\ (forall date',
         setHours0 date' = setHours0 date ->
         getDailyReading makeLocalDate setHours0 date' language
         = getDailyReading makeLocalDate setHours0 date language).
Proof.
  intros N d. split.
  - assert (HN : N = 87) by reflexivity.
    assert (Hd : 0 <= d) by (unfold d, elapsedDays; lia).
    unfold getDailyReading. fold N in HN.
    change totalChapters with N.
    set (q := (setHours0 date - SCHEDULE_START_DATE makeLocalDate setHours0) / oneDay).
    assert (Hq : (if q <? 0 then 0 else q) = d).
    { unfold d, elapsedDays. fold q. destruct (Z.ltb_spec q 0); lia. }
    rewrite Hq.
    rewrite (Z.rem_mod_nonneg (d * 2) N) by lia.
    assert (H1 : 0 <= (d * 2) mod N < N) by (apply Z.mod_pos_bound; lia).
    rewrite (Z.rem_mod_nonneg ((d * 2) mod N + 1) N) by lia.
    rewrite Z.add_mod_idemp_l by lia.
    assert (H2 : 0 <= (d * 2 + 1) mod N < N) by (apply Z.mod_pos_bound; lia).
    destruct (array_get_in_range readingPlan ((d * 2) mod N)) as (x & Hx & Hx'); [done|].
    destruct (array_get_in_range readingPlan ((d * 2 + 1) mod N)) as (y & Hy & Hy'); [done|].
    exists x, y. by rewrite Hx, Hy.
  - intros date' Heq. unfold getDailyReading. by rewrite Heq.
Qed.

(** In UTC, noon and the evening of July 30, 2024 read as its midnight does. *)
Example same_day_same_reading :
  getDailyReading utc_makeLocalDate utc_setHours0 (1722297600000 + 43200000) en
  = getDailyReading utc_makeLocalDate utc_setHours0 (1722297600000 + 72000000) en.
Proof.
  apply (proj2 (getDailyReading_pair utc_makeLocalDate utc_setHours0
                  (1722297600000 + 72000000) en)).
  reflexivity.
Qed.

Example readingPlan_head :
  firstn 2 readingPlan =
  [ {| rp_book := {| name_ko := "갈라디아서"; name_en := "Galatians" |}; rp_chapter := 1 |};
    {| rp_book := {| name_ko := "갈라디아서"; name_en := "Galatians" |}; rp_chapter := 2 |} ].
Proof. reflexivity. Qed.

Example utc_start : SCHEDULE_START_DATE utc_makeLocalDate utc_setHours0 = 1722038400000.
Proof. reflexivity. Qed.

Example daily_reading_day3 :
  getDailyReading utc_makeLocalDate utc_setHours0 (1722038400000 + 3 * 86400000 + 12345) en
  = Some ({| book := "1 Thessalonians"; chapter := 1 |},
          {| book := "1 Thessalonians"; chapter := 2 |}).
Proof. reflexivity. Qed.

(** Before the start date the first day's reading is served. *)
Example daily_reading_before_start :
  getDailyReading utc_makeLocalDate utc_setHours0 0 ko
  = Some ({| book := "갈라디아서"; chapter := 1 |}, {| book := "갈라디아서"; chapter := 2 |}).
Proof. reflexivity. Qed.

(** Day 43 wraps around: the last chapter and the first one. *)
Example daily_reading_wraps :
  getDailyReading utc_makeLocalDate utc_setHours0 (1722038400000 + 43 * 86400000) en
  = Some ({| book := "2 Timothy"; chapter := 4 |}, {| book := "Galatians"; chapter := 1 |}).
Proof. reflexivity. Qed.

End ConstantsFacts.

(** ** Image generation: retries and fall-backs *)

Module GeminiFacts.
Import Gemini Chain Examples.

Section Facts.

Context (env : Env).

Lemma truthy_data_url x : truthy ("data:image/png;base64," +:+ x) = true.
Proof. reflexivity. Qed.

Lemma calls_app t1 t2 : calls (t1 ++ t2) = calls t1 ++ calls t2.
Proof. unfold calls. apply List.filter_app. Qed.

Lemma sleeps_app t1 t2 : sleeps (t1 ++ t2) = sleeps t1 ++ sleeps t2.
Proof. unfold sleeps. apply flat_map_app. Qed.

Lemma after_after w evs1 evs2 : after (after w evs1) evs2 = after w (evs1 ++ evs2).
Proof. unfold after; simpl. by rewrite app_assoc. Qed.

Lemma after_nil w : after w [] = w.
Proof. destruct w. unfold after; simpl. by rewrite app_nil_r. Qed.

(** One call of the image model: what it returns and what it records. *)
Lemma image_call_cases p w :
  let o := next_outcome env w (imageRequest p) in
  let w' := after w [ModelCall (imageRequest p) o] in
  match o with
  | Resolved response =>
      exists r, image_call env p w = (Returned r, w')
                /\ (has_image response = false -> r = None)
                /\ (forall url, r = Some url -> truthy url = true)
  | Rejected e => image_call env p w = (Thrown e, w')
  end.
Proof.
  intros o w'. unfold image_call, bind, generateContent, has_image.
  subst o w'. unfold next_outcome, after.
  destruct (service env (length (calls (trace w))) (imageRequest p)) as [response|e]; [|done].
  destruct (truthy_opt (blockReason response)); simpl.
  - exists None. split_and!; [done|done|discriminate].
  - destruct (find_imagePart (first_candidate response)) as [[? [d|]]|]; simpl.
    + eexists. split_and!; [done|discriminate|]. intros url [= <-]. apply truthy_data_url.
    + exists None. split_and!; [done|done|discriminate].
    + exists None. split_and!; [done|done|discriminate].
Qed.

(** The loop body in terms of one call. *)
Lemma generateImage_iteration_eq p attempt w :
  generateImage_iteration env p attempt w
  = match image_call env p w with
    | (Returned r, w') => (Returned (Return_ r), w')
    | (Thrown e, w') =>
        if transient e then
          if attempt + 1 >=? MAX_RETRIES then (Returned (Return_ None), w')
          else (Returned (Continue (attempt + 1)), after w' [Sleep ((attempt + 1) * 1000)])
        else (Returned (Return_ None), w')
    | (OutOfFuel, w') => (OutOfFuel, w')
    end.
Proof.
  unfold generateImage_iteration, image_call, try_catch, bind, generateContent, transient.
  destruct (service env (length (calls (trace w))) (imageRequest p)) as [response|e].
  - destruct (truthy_opt (blockReason response)); [done|].
    by destruct (find_imagePart (first_candidate response)) as [[? [d|]]|].
  - destruct (includes (json e) "Rpc failed due to xhr error"); [|done].
    by destruct (attempt + 1 >=? MAX_RETRIES).
Qed.

Lemma attempt_with_delays_unfold p delays :
  attempt_with_delays env p delays
  = try_catch (image_call env p)
      (fun error =>
         if transient error then
           match delays with
           | d :: delays' => let* _ := delay d in attempt_with_delays env p delays'
           | [] => ret None
           end
         else ret None).
Proof. by destruct delays. Qed.

Lemma delays_from_cons attempt :
  attempt + 1 < MAX_RETRIES ->
  delays_from attempt = (attempt + 1) * 1000 :: delays_from (attempt + 1).
Proof.
  intros H. unfold delays_from. rewrite seqZ_cons by lia. rewrite fmap_cons.
  do 2 f_equal. f_equal; lia.
Qed.

Lemma delays_from_nil attempt : MAX_RETRIES <= attempt + 1 -> delays_from attempt = [].
Proof. intros H. unfold delays_from. by rewrite seqZ_nil by lia. Qed.

(** The loop, from any value of its counter and with the fuel that its
    variant [MAX_RETRIES - attempt] asks for, is the attempt with the delays
    that remain; in particular it never runs out of fuel. *)
Lemma generateImage_while_eq p fuel attempt w :
  0 <= attempt < MAX_RETRIES ->
  (Z.to_nat (MAX_RETRIES - attempt) <= fuel)%nat ->
  generateImage_while env fuel p attempt w
  = attempt_with_delays env p (delays_from attempt) w.
Proof.
  revert attempt w. induction fuel as [|fuel IH]; intros attempt w Ha Hfuel; [lia|].
  cbn [generateImage_while].
  destruct (Z.ltb_spec attempt MAX_RETRIES) as [_|?]; [|lia].
  rewrite attempt_with_delays_unfold.
  unfold bind at 1. rewrite generateImage_iteration_eq. unfold try_catch at 1.
  destruct (image_call env p w) as [[r|e|] w1]; [done| |done].
  destruct (transient e); [|done].
  destruct (Z.geb_spec (attempt + 1) MAX_RETRIES) as [Hge|Hlt].
  - by rewrite delays_from_nil by lia.
  - rewrite delays_from_cons by lia. rewrite IH by lia. done.
Qed.

Lemma generateImage_eq p w :
  generateImage env p w = attempt_with_delays env p [1 * 1000; 2 * 1000] w.
Proof.
  unfold generateImage.
  by rewrite generateImage_while_eq by (unfold MAX_RETRIES; simpl; lia).
Qed.

(** What an attempt leaves in the trace: calls of the image model with the
    prompt [p], at most one more than there are delays, and between two calls
    the next delay. *)
Lemma attempt_with_delays_trace p delays w :
  exists r evs,
    attempt_with_delays env p delays w = (Returned r, after w evs)
    /\ (1 <= length (calls evs) <= S (length delays))%nat
    /\ sleeps evs = take (length (calls evs) - 1) delays
    /\ (forall ev, ev ∈ calls evs -> exists o, ev = ModelCall (imageRequest p) o)
    /\ (forall url, r = Some url -> truthy url = true).
Proof.
  revert w. induction delays as [|d delays IH]; intros w;
    rewrite attempt_with_delays_unfold; unfold try_catch;
    pose proof (image_call_cases p w) as Hc; cbv zeta in Hc;
    destruct (next_outcome env w (imageRequest p)) as [response|e] eqn:Ho.
  - destruct Hc as (r & -> & _ & Hr). exists r, [ModelCall (imageRequest p) (Resolved response)].
    split_and!; simpl; try done; try lia.
    intros ev ->%list_elem_of_singleton. eauto.
  - rewrite Hc. exists None, [ModelCall (imageRequest p) (Rejected e)].
    split_and!; simpl; try done; try lia; [by destruct (transient e)|].
    intros ev ->%list_elem_of_singleton. eauto.
  - destruct Hc as (r & -> & _ & Hr). exists r, [ModelCall (imageRequest p) (Resolved response)].
    split_and!; simpl; try done; try lia.
    intros ev ->%list_elem_of_singleton. eauto.
  - rewrite Hc. destruct (transient e).
    + unfold bind, delay.
      change {| trace := ?t; localStorage := ?l |} with
        (after (after w [ModelCall (imageRequest p) (Rejected e)]) [Sleep d]).
      rewrite after_after.
      destruct (IH (after w ([ModelCall (imageRequest p) (Rejected e)] ++ [Sleep d])))
        as (r & evs & -> & Hn & Hs & Hev & Hr).
      exists r, ([ModelCall (imageRequest p) (Rejected e); Sleep d] ++ evs).
      rewrite after_after. split_and!; [done| | | | |done].
      * rewrite calls_app. simpl. lia.
      * rewrite calls_app. simpl. lia.
      * rewrite sleeps_app, calls_app. simpl. rewrite Hs.
        destruct (length (calls evs)) as [|n] eqn:Hl; [lia|]. simpl.
        by rewrite Nat.sub_0_r.
      * rewrite calls_app. simpl. intros ev [->|Hin]%elem_of_cons; eauto.
    + exists None, [ModelCall (imageRequest p) (Rejected e)].
      split_and!; simpl; try done; try lia.
      intros ev ->%list_elem_of_singleton. eauto.
Qed.

Lemma generateImage_returns p w :
  exists r evs,
    generateImage env p w = (Returned r, after w evs)
    /\ (forall url, r = Some url -> truthy url = true).
Proof.
  rewrite generateImage_eq.
  destruct (attempt_with_delays_trace p [1 * 1000; 2 * 1000] w) as (r & evs & ? & _ & _ & _ & ?).
  eauto.
Qed.

Lemma generateImage_ends_on_error p w e :
  next_outcome env w (imageRequest p) = Rejected e ->
  transient e = false ->
  generateImage env p w = (Returned None, after w [ModelCall (imageRequest p) (Rejected e)]).
Proof.
  intros Ho Ht. rewrite generateImage_eq, attempt_with_delays_unfold. unfold try_catch.
  pose proof (image_call_cases p w) as Hc. cbv zeta in Hc. rewrite Ho in Hc.
  by rewrite Hc, Ht.
Qed.

Lemma generateImage_ends_without_image p w response :
  next_outcome env w (imageRequest p) = Resolved response ->
  has_image response = false ->
  generateImage env p w
  = (Returned None, after w [ModelCall (imageRequest p) (Resolved response)]).
Proof.
  intros Ho Hi. rewrite generateImage_eq, attempt_with_delays_unfold. unfold try_catch.
  pose proof (image_call_cases p w) as Hc. cbv zeta in Hc. rewrite Ho in Hc.
  destruct Hc as (r & -> & Hnone & _). by rewrite (Hnone Hi).
Qed.

Lemma attempt_transient_step p d delays w e :
  next_outcome env w (imageRequest p) = Rejected e ->
  transient e = true ->
  attempt_with_delays env p (d :: delays) w
  = attempt_with_delays env p delays
      (after w [ModelCall (imageRequest p) (Rejected e); Sleep d]).
Proof.
  intros Ho Ht. rewrite attempt_with_delays_unfold. unfold try_catch at 1.
  pose proof (image_call_cases p w) as Hc. cbv zeta in Hc. rewrite Ho in Hc.
  rewrite Hc, Ht. unfold bind, delay. f_equal.
  unfold after; simpl. by rewrite <- app_assoc.
Qed.

Lemma attempt_last_failure p w e :
  next_outcome env w (imageRequest p) = Rejected e ->
  attempt_with_delays env p [] w
  = (Returned None, after w [ModelCall (imageRequest p) (Rejected e)]).
Proof.
  intros Ho. rewrite attempt_with_delays_unfold. unfold try_catch at 1.
  pose proof (image_call_cases p w) as Hc. cbv zeta in Hc. rewrite Ho in Hc.
  rewrite Hc. by destruct (transient e).
Qed.

(** Three transient failures in a row: two delays, no fourth call. *)
Lemma generateImage_exhausted p w e1 e2 e3 :
  let c1 := ModelCall (imageRequest p) (Rejected e1) in
  let c2 := ModelCall (imageRequest p) (Rejected e2) in
  let c3 := ModelCall (imageRequest p) (Rejected e3) in
  next_outcome env w (imageRequest p) = Rejected e1 ->
  next_outcome env (after w [c1; Sleep 1000]) (imageRequest p) = Rejected e2 ->
  next_outcome env (after w [c1; Sleep 1000; c2; Sleep 2000]) (imageRequest p) = Rejected e3 ->
  transient e1 = true -> transient e2 = true ->
  generateImage env p w = (Returned None, after w [c1; Sleep 1000; c2; Sleep 2000; c3]).
Proof.
  intros c1 c2 c3 H1 H2 H3 T1 T2. subst c1 c2 c3.
  rewrite generateImage_eq. change (1 * 1000) with 1000. change (2 * 1000) with 2000.
  rewrite (attempt_transient_step p 1000 [2000] w e1 H1 T1).
  rewrite (attempt_transient_step p 2000 [] _ e2 H2 T2).
  rewrite after_after. cbn [app].
  rewrite (attempt_last_failure p _ e3 H3).
  by rewrite after_after.
Qed.

(** C2, as the code has it. One image-generation attempt calls the model at
    most three times in all: a call whose thrown error's serialization
    contains the transient text is followed, after a delay of the attempt
    number times 1000 ms (1000 ms, then 2000 ms), by another call, twice at
    most; the third transient failure ends the attempt with null. Any other
    thrown error, a blocked prompt and a response without image end the
    attempt at once with null, without delay or further call. *)
Theorem generateImage_three_attempts p w :
  generateImage env p w = attempt_with_delays env p [1 * 1000; 2 * 1000] w
  /\ (exists r evs,
        generateImage env p w = (Returned r, after w evs)
        /\ (length (calls evs) <= 3)%nat
        /\ sleeps evs = take (length (calls evs) - 1) [1000; 2000]
        /\ (forall ev, ev ∈ calls evs -> exists o, ev = ModelCall (imageRequest p) o))
  /\ (forall e,
        next_outcome env w (imageRequest p) = Rejected e ->
        transient e = false ->
        generateImage env p w
        = (Returned None, after w [ModelCall (imageRequest p) (Rejected e)]))
  /\ (forall response,
        next_outcome env w (imageRequest p) = Resolved response ->
        has_image response = false ->
        generateImage env p w
        = (Returned None, after w [ModelCall (imageRequest p) (Resolved response)]))
  /\ (forall e1 e2 e3,
        let c1 := ModelCall (imageRequest p) (Rejected e1) in
        let c2 := ModelCall (imageRequest p) (Rejected e2) in
        let c3 := ModelCall (imageRequest p) (Rejected e3) in
        next_outcome env w (imageRequest p) = Rejected e1 ->
        next_outcome env (after w [c1; Sleep 1000]) (imageRequest p) = Rejected e2 ->
        next_outcome env (after w [c1; Sleep 1000; c2; Sleep 2000]) (imageRequest p)
        = Rejected e3 ->
        transient e1 = true -> transient e2 = true ->
        generateImage env p w
        = (Returned None, after w [c1; Sleep 1000; c2; Sleep 2000; c3])).
Proof.
  split_and!.
  - apply generateImage_eq.
  - rewrite generateImage_eq.
    destruct (attempt_with_delays_trace p [1 * 1000; 2 * 1000] w)
      as (r & evs & ? & [_ ?] & ? & ? & _).
    exists r, evs. split_and!; try done.
  - apply generateImage_ends_on_error.
  - apply generateImage_ends_without_image.
  - apply generateImage_exhausted.
Qed.

(** **** The fall-back chain *)

Lemma generateImage_url_truthy p w url w' :
  generateImage env p w = (Returned (Some url), w') -> truthy url = true.
Proof.
  intros H. destruct (generateImage_returns p w) as (r & evs & E & Hr).
  rewrite E in H. apply Hr. congruence.
Qed.

Ltac chain_step env :=
  match goal with
  | |- context [generateImage env ?p ?w] =>
      let r := fresh "r" in
      let evs := fresh "evs" in
      let E := fresh "E" in
      let Hr := fresh "Hr" in
      destruct (generateImage_returns p w) as (r & evs & E & Hr);
      rewrite !E; destruct r as [?|];
      cbn [truthy_opt negb];
      rewrite ?(Hr _ eq_refl);
      cbn [truthy_opt negb];
      rewrite ?(Hr _ eq_refl);
      try done
  end.

(** The body of [generateContextImage] after the client has been created,
    for any prompts, against the attempts in order. *)
Lemma chain_generic p1 request (final : string -> string) static w :
  (let* imageUrl := generateImage env p1 in
   let* imageUrl :=
     if negb (truthy_opt imageUrl) then
       try_catch
         (let* promptGenResponse := generateContent env request in
          let newPrompt := option_map trim (text promptGenResponse) in
          if truthy_opt newPrompt
          then generateImage env (final (template_arg newPrompt))
          else ret imageUrl)
         (fun e => ret imageUrl)
     else ret imageUrl in
   let* imageUrl :=
     if negb (truthy_opt imageUrl) then generateImage env static else ret imageUrl in
   ret imageUrl) w
  = first_success
      [ generateImage env p1;
        (let* derived :=
           try_catch
             (let* response := generateContent env request in
              match text response with
              | Some t => if truthy (trim t) then ret (Some (trim t)) else ret None
              | None => ret None
              end)
             (fun error => ret None) in
         match derived with
         | Some newPrompt => generateImage env (final newPrompt)
         | None => ret None
         end);
        generateImage env static ] w.
Proof.
  cbn [first_success]. unfold bind, try_catch, ret.
  chain_step env.
  destruct (generateContent env request _) as [[response|e2|] w2];
    cbn [truthy_opt negb]; [| |done].
  - destruct (text response) as [t|]; cbn [option_map truthy_opt template_arg negb].
    + destruct (truthy (trim t)); cbn [truthy_opt negb]; repeat chain_step env.
    + repeat chain_step env.
  - repeat chain_step env.
Qed.

Lemma generateContextImage_eq_chain params w :
  truthy_opt (VITE_GEMINI_API_KEY env) = true ->
  generateContextImage env params w = fallback_chain env params w.
Proof.
  intros Hkey. unfold generateContextImage, getAiClient. rewrite Hkey.
  unfold fallback_chain, detailed_prompt, context_attempt, derive_prompt, static_prompt.
  destruct params as [prompt context l].
  cbn [language initialPrompt fallbackContext].
  unfold bind at 1. unfold ret at 1.
  generalize (p_imageFallback (getPrompts l "" 0 0 None None)). intros static.
  destruct l.
  - rewrite !decide_False by done.
    apply (chain_generic _ _ (fun newPrompt => "상징적인 유화: " +:+ newPrompt)).
  - rewrite !decide_True by done.
    apply (chain_generic _ _ (fun newPrompt => "A symbolic oil painting of: " +:+ newPrompt)).
Qed.

(** **** What image generation leaves in the trace *)

Lemma generateImage_events p w :
  exists r evs,
    generateImage env p w = (Returned r, after w evs)
    /\ Forall (fun ev => reading_call ev = false) evs.
Proof.
  rewrite generateImage_eq.
  destruct (attempt_with_delays_trace p [1 * 1000; 2 * 1000] w)
    as (r & evs & E & _ & _ & Hcalls & _).
  exists r, evs. split; [done|]. apply Forall_forall. intros [req o|ms] Hin; [|done].
  destruct (Hcalls (ModelCall req o)) as [o' [= -> _]]; [|done].
  unfold calls. apply list_elem_of_In, filter_In. by rewrite <- list_elem_of_In.
Qed.

Lemma first_success_events (attempts : list (M World (option string))) w :
  Forall (fun a => forall w, exists r evs,
              a w = (Returned r, after w evs)
              /\ Forall (fun ev => reading_call ev = false) evs) attempts ->
  exists r evs,
    first_success attempts w = (Returned r, after w evs)
    /\ Forall (fun ev => reading_call ev = false) evs.
Proof.
  intros Hall. revert w. induction Hall as [|a attempts Ha _ IH]; intros w.
  - exists None, []. by rewrite after_nil.
  - cbn [first_success]. destruct (Ha w) as (r & evs & E & Hevs).
    rewrite (bind_Returned _ _ _ _ _ E). destruct r as [url|].
    + by exists (Some url), evs.
    + destruct (IH (after w evs)) as (r' & evs' & E' & Hevs').
      exists r', (evs ++ evs'). rewrite E', after_after. split; [done|].
      by apply Forall_app.
Qed.

Lemma context_attempt_events params w :
  exists r evs,
    context_attempt env params w = (Returned r, after w evs)
    /\ Forall (fun ev => reading_call ev = false) evs.
Proof.
  unfold context_attempt, derive_prompt.
  set (request := textRequest gemini_2_5_flash _).
  assert (Hd : exists derived o,
             try_catch
               (let* response := generateContent env request in
                match text response with
                | Some t => if truthy (trim t) then ret (Some (trim t)) else ret None
                | None => ret None
                end)
               (fun _ => ret None) w
             = (Returned derived, after w [ModelCall request o])).
  { unfold try_catch, bind, generateContent, after.
    destruct (service env (length (calls (trace w))) request) as [response|e]; [|by eauto].
    destruct (text response) as [t|]; [|by eauto].
    destruct (truthy (trim t)); by eauto. }
  destruct Hd as (derived & o & Hd). rewrite (bind_Returned _ _ _ _ _ Hd).
  destruct derived as [newPrompt|].
  - match goal with |- context [generateImage env ?p ?w] =>
      destruct (generateImage_events p w) as (r & evs & E & Hevs) end.
    exists r, ([ModelCall request o] ++ evs). rewrite E, after_after. split; [done|].
    apply Forall_app. split; [|done]. by repeat constructor.
  - exists None, [ModelCall request o]. split; [done|]. by repeat constructor.
Qed.

(** Whatever the page, [generateContextImage] returns or throws, changes
    nothing but the trace, and never calls the model of the reading. *)
Lemma generateContextImage_events params w :
  exists r evs,
    generateContextImage env params w = (r, after w evs)
    /\ r <> OutOfFuel
    /\ Forall (fun ev => reading_call ev = false) evs.
Proof.
  destruct (truthy_opt (VITE_GEMINI_API_KEY env)) eqn:Hkey.
  - rewrite generateContextImage_eq_chain by done. unfold fallback_chain.
    destruct (first_success_events
                [ generateImage env (detailed_prompt params);
                  context_attempt env params;
                  generateImage env (static_prompt (language params)) ] w)
      as (r & evs & E & Hevs).
    { repeat constructor; intros w'.
      - apply generateImage_events.
      - apply context_attempt_events.
      - apply generateImage_events. }
    exists (Returned r), evs. by rewrite E.
  - unfold generateContextImage, getAiClient. rewrite Hkey.
    eexists _, []. rewrite after_nil. split; [reflexivity|]. by split.
Qed.

(** C1, as the code has it. Once the client has been created, that is when
    the API key is set, [generateContextImage] attempts image generation in
    a fixed order and stops at the first success: the detailed prefix of the
    language followed by the initial prompt; then a prompt derived from the
    fall-back context by a second text-model call, used only when that call
    succeeds and its trimmed text is not empty; then the static fall-back
    prompt of the language. It returns null when all of them fail, and it
    never throws. *)
Theorem generateContextImage_chain params w :
  truthy_opt (VITE_GEMINI_API_KEY env) = true ->
  generateContextImage env params w = fallback_chain env params w
  /\ (forall url w1,
        generateImage env (detailed_prompt params) w = (Returned (Some url), w1) ->
        generateContextImage env params w = (Returned (Some url), w1))
  /\ (forall w1 w2 w3,
        generateImage env (detailed_prompt params) w = (Returned None, w1) ->
        context_attempt env params w1 = (Returned None, w2) ->
        generateImage env (static_prompt (language params)) w2 = (Returned None, w3) ->
        generateContextImage env params w = (Returned None, w3))
  /\ (exists r evs, generateContextImage env params w = (Returned r, after w evs)).
Proof.
  intros Hkey. rewrite generateContextImage_eq_chain by done.
  split_and!; [done| | |].
  - intros url w1 E. unfold fallback_chain. cbn [first_success].
    by rewrite (bind_Returned _ _ _ _ _ E).
  - intros w1 w2 w3 E1 E2 E3. unfold fallback_chain. cbn [first_success].
    rewrite (bind_Returned _ _ _ _ _ E1), (bind_Returned _ _ _ _ _ E2).
    by rewrite (bind_Returned _ _ _ _ _ E3).
  - destruct (first_success_events
                [ generateImage env (detailed_prompt params);
                  context_attempt env params;
                  generateImage env (static_prompt (language params)) ] w)
      as (r & evs & E & _); [|by eauto].
    repeat constructor; intros w'.
    + apply generateImage_events.
    + apply context_attempt_events.
    + apply generateImage_events.
Qed.

Lemma generateContent_rejected r w e :
  next_outcome env w r = Rejected e ->
  generateContent env r w = (Thrown e, after w [ModelCall r (Rejected e)]).
Proof. unfold next_outcome, generateContent. by intros ->. Qed.

Lemma error_texts l :
  p_prayerGuideError (getPrompts l "" 0 0 None None) = prayerGuideError_text l
  /\ p_sermonOutlineError (getPrompts l "" 0 0 None None) = sermonOutlineError_text l
  /\ p_evangelismTipsError (getPrompts l "" 0 0 None None) = evangelismTipsError_text l.
Proof. by destruct l. Qed.

Context {JSON_SongsResponse : JSON SongsResponse}.
Context {JSON_StoryKeywords : JSON StoryKeywords}.

(** C8. When the model call of a generation entry point throws, the entry
    point catches the error itself and calls the model no second time:
    [generatePrayerGuide], [generateSermonOutline] and
    [generateEvangelismTips] return the error string of the language,
    [recommendMusic] returns the empty list of songs and
    [generateStoryKeywords] returns null. *)
Theorem entry_points_convert_errors passage context l w e :
  truthy_opt (VITE_GEMINI_API_KEY env) = true ->
  (next_outcome env w (prayerGuide_request passage l) = Rejected e ->
   generatePrayerGuide env passage l w
   = (Returned (Some (prayerGuideError_text l)),
      after w [ModelCall (prayerGuide_request passage l) (Rejected e)]))
  /\ (next_outcome env w (sermonOutline_request passage l) = Rejected e ->
      generateSermonOutline env passage l w
      = (Returned (Some (sermonOutlineError_text l)),
         after w [ModelCall (sermonOutline_request passage l) (Rejected e)]))
  /\ (next_outcome env w (evangelismTips_request passage l) = Rejected e ->
      generateEvangelismTips env passage l w
      = (Returned (Some (evangelismTipsError_text l)),
         after w [ModelCall (evangelismTips_request passage l) (Rejected e)]))
  /\ (next_outcome env w (recommendMusic_request context l) = Rejected e ->
      recommendMusic env context l w
      = (Returned [], after w [ModelCall (recommendMusic_request context l) (Rejected e)]))
  /\ (next_outcome env w (storyKeywords_request passage l) = Rejected e ->
      generateStoryKeywords env passage l w
      = (Returned None, after w [ModelCall (storyKeywords_request passage l) (Rejected e)])).
Proof.
  intros Hkey. destruct (error_texts l) as (<- & <- & <-).
  split_and!; intros Ho.
  - unfold generatePrayerGuide, getAiClient. rewrite Hkey.
    unfold bind at 1, ret at 1, try_catch.
    by rewrite (bind_Thrown _ _ _ _ _ (generateContent_rejected _ _ _ Ho)).
  - unfold generateSermonOutline, getAiClient. rewrite Hkey.
    unfold bind at 1, ret at 1, try_catch.
    by rewrite (bind_Thrown _ _ _ _ _ (generateContent_rejected _ _ _ Ho)).
  - unfold generateEvangelismTips, getAiClient. rewrite Hkey.
    unfold bind at 1, ret at 1, try_catch.
    by rewrite (bind_Thrown _ _ _ _ _ (generateContent_rejected _ _ _ Ho)).
  - unfold recommendMusic, getAiClient. rewrite Hkey.
    unfold bind at 1, ret at 1, try_catch.
    by rewrite (bind_Thrown _ _ _ _ _ (generateContent_rejected _ _ _ Ho)).
  - unfold generateStoryKeywords, getAiClient. rewrite Hkey.
    unfold bind at 1, ret at 1, try_catch.
    by rewrite (bind_Thrown _ _ _ _ _ (generateContent_rejected _ _ _ Ho)).
Qed.

End Facts.

(** The page of [env_failing]: the prayer guide is the English error text,
    after one call. *)
Lemma entry_points_convert_errors_witness :
  generatePrayerGuide env_failing "For God so loved the world" en empty_world
  = (Returned (Some "Failed to generate prayer guide. Please try again later."),
     after empty_world
       [ModelCall (prayerGuide_request "For God so loved the world" en)
          (Rejected (Error "503 Service Unavailable"))]).
Proof.
  apply (proj1 (entry_points_convert_errors env_failing
                  (JSON_SongsResponse := Codec.countable_JSON SongsResponse)
                  (JSON_StoryKeywords := Codec.countable_JSON StoryKeywords)
                  "For God so loved the world" "" en empty_world
                  (Error "503 Service Unavailable") eq_refl)).
  reflexivity.
Defined.

(** A non-transient error ends the attempt after one call. *)
Lemma generateImage_three_attempts_witness :
  generateImage env_failing "a lamp" empty_world
  = (Returned None,
     after empty_world
       [ModelCall (imageRequest "a lamp") (Rejected (Error "503 Service Unavailable"))]).
Proof.
  apply (proj1 (proj2 (proj2 (generateImage_three_attempts env_failing "a lamp" empty_world))));
    reflexivity.
Defined.

(** The claim as worded fails where every call fails transiently: the third
    failure is not retried, so that the model is called three times, not four,
    and no delay of 3000 ms is ever waited. *)
Lemma third_transient_failure_not_retried :
  let c := ModelCall (imageRequest "a lamp") (Rejected transient_error) in
  generateImage env_always_transient "a lamp" empty_world
  = (Returned None, after empty_world [c; Sleep 1000; c; Sleep 2000; c])
  /\ retried_up_to_three_times env_always_transient "a lamp" empty_world
     = (Returned None, after empty_world [c; Sleep 1000; c; Sleep 2000; c; Sleep 3000; c])
  /\ generateImage env_always_transient "a lamp" empty_world
     <> retried_up_to_three_times env_always_transient "a lamp" empty_world.
Proof.
  assert (H1 : generateImage env_always_transient "a lamp" empty_world
               = (Returned None,
                  after empty_world
                    [ModelCall (imageRequest "a lamp") (Rejected transient_error); Sleep 1000;
                     ModelCall (imageRequest "a lamp") (Rejected transient_error); Sleep 2000;
                     ModelCall (imageRequest "a lamp") (Rejected transient_error)]))
    by (vm_compute; reflexivity).
  assert (H2 : retried_up_to_three_times env_always_transient "a lamp" empty_world
               = (Returned None,
                  after empty_world
                    [ModelCall (imageRequest "a lamp") (Rejected transient_error); Sleep 1000;
                     ModelCall (imageRequest "a lamp") (Rejected transient_error); Sleep 2000;
                     ModelCall (imageRequest "a lamp") (Rejected transient_error); Sleep 3000;
                     ModelCall (imageRequest "a lamp") (Rejected transient_error)]))
    by (vm_compute; reflexivity).
  split_and!; [exact H1|exact H2|].
  rewrite H1, H2. discriminate.
Qed.

(** Without API key the call throws before any attempt, where the chain of
    attempts would have called the image model. *)
Lemma generateContextImage_without_key :
  generateContextImage env_no_key params0 empty_world
  = (Thrown (Error "VITE_GEMINI_API_KEY environment variable is not set. Please check your Vercel environment variables."),
     empty_world)
  /\ fallback_chain env_no_key params0 empty_world
     = (Returned (Some "data:image/png;base64,AAAA"),
        after empty_world
          [ModelCall (imageRequest (detailedPromptPrefix_en +:+ "a lamp on a table"))
             (Resolved (image_response "AAAA"))])
  /\ generateContextImage env_no_key params0 empty_world
     <> fallback_chain env_no_key params0 empty_world.
Proof.
  assert (H1 : generateContextImage env_no_key params0 empty_world
               = (Thrown (Error "VITE_GEMINI_API_KEY environment variable is not set. Please check your Vercel environment variables."),
                  empty_world)) by reflexivity.
  assert (H2 : fallback_chain env_no_key params0 empty_world
               = (Returned (Some "data:image/png;base64,AAAA"),
                  after empty_world
                    [ModelCall (imageRequest (detailedPromptPrefix_en +:+ "a lamp on a table"))
                       (Resolved (image_response "AAAA"))])) by (vm_compute; reflexivity).
  split_and!; [exact H1|exact H2|].
  rewrite H1, H2. discriminate.
Qed.

Lemma generateContextImage_chain_witness :
  generateContextImage (env_working "a candle") params0 empty_world
  = fallback_chain (env_working "a candle") params0 empty_world.
Proof.
  apply (proj1 (generateContextImage_chain (env_working "a candle") params0 empty_world
                  eq_refl)).
Defined.

(** The first attempt yields no image, the text model derives a prompt, and
    the second attempt succeeds: three calls, in this order. *)
Example fallback_uses_derived_prompt :
  generateContextImage env_second_attempt params0 empty_world
  = (Returned (Some "data:image/png;base64,BBBB"),
     after empty_world
       [ModelCall (imageRequest (detailedPromptPrefix_en +:+ "a lamp on a table"))
          (Resolved no_image_response);
        ModelCall (textRequest gemini_2_5_flash (fallbackPromptGenerator_en "light"))
          (Resolved (text_response "  a candle in a window "));
        ModelCall (imageRequest "A symbolic oil painting of: a candle in a window")
          (Resolved (image_response "BBBB"))]).
Proof. vm_compute. reflexivity. Qed.

(** Every call fails with a plain error: three attempts of one call each,
    and the text call between them; the result is null. *)
Example all_attempts_fail :
  let failed r := ModelCall r (Rejected (Error "503 Service Unavailable")) in
  generateContextImage env_failing params0 empty_world
  = (Returned None,
     after empty_world
       [failed (imageRequest (detailedPromptPrefix_en +:+ "a lamp on a table"));
        failed (textRequest gemini_2_5_flash (fallbackPromptGenerator_en "light"));
        failed (imageRequest "A peaceful landscape in the ancient Middle East. A realistic oil painting of a hill with olive trees and a stone path.")]).
Proof. vm_compute. reflexivity. Qed.

(** [trim] removes the white space of Unicode as well: an ideographic
    space before a word and a no-break space after it, and a text made of
    such spaces only. *)
Example trim_unicode_white_space :
  trim (MoreExamples.ideographic_space +:+ " a lamp" +:+ MoreExamples.no_break_space) = "a lamp"
  /\ trim (MoreExamples.ideographic_space +:+ MoreExamples.no_break_space) = ""
  /\ trim "  a candle in a window " = "a candle in a window".
Proof. split_and!; vm_compute; reflexivity. Qed.

(** The first attempt yields no image and the text model answers with
    white space only, an ideographic space and a no-break space: the derived
    prompt is empty once trimmed, no attempt is made with it, and the static
    prompt is used. *)
Example blank_derived_prompt_is_skipped :
  generateContextImage MoreExamples.env_blank_prompt params0 empty_world
  = (Returned (Some "data:image/png;base64,CCCC"),
     after empty_world
       [ModelCall (imageRequest (detailedPromptPrefix_en +:+ "a lamp on a table"))
          (Resolved no_image_response);
        ModelCall (textRequest gemini_2_5_flash (fallbackPromptGenerator_en "light"))
          (Resolved (text_response
                       (MoreExamples.ideographic_space +:+ MoreExamples.no_break_space)));
        ModelCall (imageRequest "A peaceful landscape in the ancient Middle East. A realistic oil painting of a hill with olive trees and a stone path.")
          (Resolved (image_response "CCCC"))]).
Proof. vm_compute. reflexivity. Qed.

End GeminiFacts.

(** ** The lawful serialization *)

Module CodecFacts.
Import Codec.

Lemma bits_of_pos_nonempty p : bits_of_pos p <> EmptyString.
Proof. by destruct p. Qed.

Lemma pos_of_bits_of_pos p : pos_of_bits (bits_of_pos p) = Some p.
Proof.
  induction p as [q IH|q IH|]; [| |done].
  - cbn [bits_of_pos pos_of_bits]. destruct (bits_of_pos q) eqn:E.
    + by destruct (bits_of_pos_nonempty q).
    + by rewrite IH.
  - cbn [bits_of_pos pos_of_bits]. destruct (bits_of_pos q) eqn:E.
    + by destruct (bits_of_pos_nonempty q).
    + by rewrite IH.
Qed.

#[global] Instance countable_JSONLaws (A : Type) `{Countable A} :
  @JSONLaws A (countable_JSON A).
Proof.
  split; intros x; unfold countable_JSON; cbn [JSON_stringify JSON_parse].
  - by rewrite pos_of_bits_of_pos, decode_encode.
  - by destruct (encode x).
Qed.

End CodecFacts.

(** ** The sync service *)

Module SyncFacts.
Import Gemini Browser Types SyncService Chain.

Section Facts.

Context (env : Env).
Context {JSON_archive : JSON ArchivedReadings}.

Lemma read_or_stored {A} `{JSON A} key (fallback : A) w data x :
  localStorage w !! key = Some data ->
  truthy data = true ->
  JSON_parse data = Some x ->
  read_or key fallback w = (Returned x, w).
Proof.
  intros Hk Ht Hp. unfold read_or, bind, getItem. rewrite Hk. cbn [truthy_opt].
  rewrite Ht. cbn [template_arg]. unfold JSON_parse_M. by rewrite Hp.
Qed.

Lemma read_or_absent {A} `{JSON A} key (fallback : A) w :
  localStorage w !! key = None ->
  read_or key fallback w = (Returned fallback, w).
Proof. intros Hk. unfold read_or, bind, getItem. by rewrite Hk. Qed.

Lemma read_or_archived w readings :
  archived_readings w = Some readings ->
  read_or "archived-readings" (∅ : ArchivedReadings) w = (Returned readings, w).
Proof.
  unfold archived_readings, read_or, bind, getItem.
  destruct (localStorage w !! "archived-readings") as [data|]; cbn [truthy_opt template_arg].
  - destruct (truthy data); [|by intros [= ->]].
    unfold JSON_parse_M. by intros ->.
  - by intros [= ->].
Qed.

Lemma getArchivedReadings_stored w readings :
  archived_readings w = Some readings ->
  getArchivedReadings w = (Returned readings, after w [Sleep MOCK_LATENCY]).
Proof.
  intros H. unfold getArchivedReadings.
  by rewrite (bind_Returned _ _ _ _ _ (read_or_archived _ _ H)).
Qed.

Lemma getArchivedReadings_corrupt w :
  archived_readings w = None ->
  getArchivedReadings w = (Thrown SyntaxError, w).
Proof.
  unfold archived_readings, getArchivedReadings, read_or, bind, getItem.
  destruct (localStorage w !! "archived-readings") as [data|]; cbn [truthy_opt template_arg];
    [|done].
  destruct (truthy data); [|done]. unfold JSON_parse_M. by intros ->.
Qed.

Lemma saveArchivedReading_corrupt day readingData w :
  archived_readings w = None ->
  saveArchivedReading env day readingData w = (Thrown SyntaxError, w).
Proof.
  intros H. unfold saveArchivedReading.
  by rewrite (bind_Thrown _ _ _ _ _ (getArchivedReadings_corrupt _ H)).
Qed.

Lemma saveArchivedReading_refused day readingData w before :
  archived_readings w = Some before ->
  storage_accepts env (localStorage w) "archived-readings"
    (JSON_stringify (<[day := readingData]> before)) = false ->
  saveArchivedReading env day readingData w
  = (Thrown QuotaExceededError, after w [Sleep MOCK_LATENCY]).
Proof.
  intros Hbefore Hrefuse. unfold saveArchivedReading.
  rewrite (bind_Returned _ _ _ _ _ (getArchivedReadings_stored _ _ Hbefore)).
  unfold bind, setItem, after. cbn [localStorage trace]. by rewrite Hrefuse.
Qed.

Context {JSON_archive_laws : JSONLaws ArchivedReadings}.

Lemma archived_readings_insert w (readings : ArchivedReadings) t :
  archived_readings
    {| trace := t;
       localStorage := <["archived-readings" := JSON_stringify readings]> (localStorage w) |}
  = Some readings.
Proof.
  unfold archived_readings. cbn [localStorage].
  rewrite lookup_insert_eq. by rewrite JSON_truthy, JSON_roundtrip.
Qed.

Lemma saveArchivedReading_stored day readingData w before :
  archived_readings w = Some before ->
  storage_accepts env (localStorage w) "archived-readings"
    (JSON_stringify (<[day := readingData]> before)) = true ->
  saveArchivedReading env day readingData w
  = (Returned tt,
     {| trace := (trace w ++ [Sleep MOCK_LATENCY]) ++ [Sleep MOCK_LATENCY];
        localStorage :=
          <["archived-readings" := JSON_stringify (<[day := readingData]> before)]>
            (localStorage w) |}).
Proof.
  intros Hbefore Haccept. unfold saveArchivedReading.
  rewrite (bind_Returned _ _ _ _ _ (getArchivedReadings_stored _ _ Hbefore)).
  unfold bind, setItem, simulateNetworkRequest, bind, delay, after.
  cbn [localStorage trace]. by rewrite Haccept.
Qed.

(** C6, as the code has it. [saveArchivedReading (d, r)] first reads the
    stored archive and then writes the whole archive back. When the stored
    archive parses and the browser accepts the write, it stores [r] under the
    key [d] and leaves the archived reading of every other day, and every
    other key of the storage, as they were; a later save for the same day,
    accepted as well, puts its record in the place of the earlier one. When
    the stored archive does not parse, the call rejects with the error of
    [JSON.parse] and nothing is written; when the browser refuses the write,
    it rejects with the error of [setItem] and the storage stays as it was:
    in both cases [r] is not stored. *)
Theorem saveArchivedReading_stores_or_rejects day readingData w :
  (forall before,
     archived_readings w = Some before ->
     storage_accepts env (localStorage w) "archived-readings"
       (JSON_stringify (<[day := readingData]> before)) = true ->
     exists w',
       saveArchivedReading env day readingData w = (Returned tt, w')
       /\ (exists stored,
             archived_readings w' = Some stored
             /\ stored !! day = Some readingData
             /\ (forall d, d <> day -> stored !! d = before !! d))
       /\ (forall key, key <> "archived-readings" ->
             localStorage w' !! key = localStorage w !! key)
       /\ (forall later,
             storage_accepts env (localStorage w') "archived-readings"
               (JSON_stringify (<[day := later]> (<[day := readingData]> before))) = true ->
             exists w'',
               saveArchivedReading env day later w' = (Returned tt, w'')
               /\ exists stored,
                    archived_readings w'' = Some stored
                    /\ stored !! day = Some later
                    /\ (forall d, d <> day -> stored !! d = before !! d)))
  /\ (archived_readings w = None ->
      saveArchivedReading env day readingData w = (Thrown SyntaxError, w))
  /\ (forall before,
        archived_readings w = Some before ->
        storage_accepts env (localStorage w) "archived-readings"
          (JSON_stringify (<[day := readingData]> before)) = false ->
        exists w',
          saveArchivedReading env day readingData w = (Thrown QuotaExceededError, w')
          /\ localStorage w' = localStorage w).
Proof.
  split_and!.
  - intros before Hbefore Haccept.
    eexists. split; [by apply saveArchivedReading_stored|].
    split_and!.
    + eexists. split; [apply archived_readings_insert|].
      split; [apply lookup_insert_eq|]. intros d Hd. by apply lookup_insert_ne.
    + intros key Hkey. cbn [localStorage]. by apply lookup_insert_ne.
    + intros later Hlater. eexists.
      split; [apply (saveArchivedReading_stored _ _ _ (<[day := readingData]> before));
              [apply archived_readings_insert|exact Hlater]|].
      eexists. split; [apply archived_readings_insert|].
      split; [apply lookup_insert_eq|].
      intros d Hd. rewrite lookup_insert_ne by done. by apply lookup_insert_ne.
  - apply saveArchivedReading_corrupt.
  - intros before Hbefore Hrefuse. eexists.
    split; [by apply (saveArchivedReading_refused _ _ _ before)|done].
Qed.

End Facts.

(** Saving day 2 into a storage that holds day 1. *)
Lemma saveArchivedReading_stores_or_rejects_witness :
  let reading1 :=
    {| ar_day := 1; ar_dateSaved := "2024-07-27T08:00:00.000Z";
       ar_readingReference := "Galatians 1-2"; ar_passage := "Paul, an apostle";
       ar_meditationGuide := "guide"; ar_context := "context"; ar_intention := "intention";
       ar_contextImageUrl := None |} in
  let reading2 :=
    {| ar_day := 2; ar_dateSaved := "2024-07-28T08:00:00.000Z";
       ar_readingReference := "Galatians 3-4"; ar_passage := "You foolish Galatians";
       ar_meditationGuide := "guide"; ar_context := "context"; ar_intention := "intention";
       ar_contextImageUrl := Some "data:image/png;base64,AAAA" |} in
  let w :=
    {| trace := [];
       localStorage :=
         {[ "archived-readings" :=
              @JSON_stringify _ (Codec.countable_JSON ArchivedReadings) {[ 1 := reading1 ]} ]} |} in
  exists w',
    saveArchivedReading (JSON_archive := Codec.countable_JSON ArchivedReadings)
      Examples.env_failing 2 reading2 w = (Returned tt, w')
    /\ exists stored,
         archived_readings (JSON_archive := Codec.countable_JSON ArchivedReadings) w'
         = Some stored
         /\ stored !! 2 = Some reading2
         /\ stored !! 1 = Some reading1.
Proof.
  intros reading1 reading2 w.
  destruct (proj1 (saveArchivedReading_stores_or_rejects Examples.env_failing
                     (JSON_archive := Codec.countable_JSON ArchivedReadings)
                     2 reading2 w) {[ 1 := reading1 ]})
    as (w' & Hsave & (stored & Hstored & Hday & Hother) & _).
  - unfold archived_readings, w. cbn [localStorage]. rewrite lookup_singleton_eq.
    by rewrite JSON_truthy, JSON_roundtrip.
  - reflexivity.
  - exists w'. split; [exact Hsave|]. exists stored. split; [exact Hstored|].
    split; [exact Hday|]. rewrite Hother by done. apply lookup_singleton_eq.
Defined.

(** Two saves that store nothing. The stored archive does not parse: the
    save rejects and the storage is as before. The storage is full: the save
    rejects and the archive is still empty. *)
Lemma saveArchivedReading_not_stored :
  saveArchivedReading (JSON_archive := Codec.countable_JSON ArchivedReadings)
    Examples.env_failing 2 MoreExamples.reading_of_day2 MoreExamples.world_with_corrupt_archive
  = (Thrown SyntaxError, MoreExamples.world_with_corrupt_archive)
  /\ archived_readings (JSON_archive := Codec.countable_JSON ArchivedReadings)
       MoreExamples.world_with_corrupt_archive = None
  /\ (exists w',
        saveArchivedReading (JSON_archive := Codec.countable_JSON ArchivedReadings)
          MoreExamples.env_full_storage 2 MoreExamples.reading_of_day2 Examples.empty_world
        = (Thrown QuotaExceededError, w')
        /\ localStorage w' = ∅
        /\ archived_readings (JSON_archive := Codec.countable_JSON ArchivedReadings) w'
           = Some ∅).
Proof.
  split_and!.
  - by apply saveArchivedReading_corrupt.
  - reflexivity.
  - eexists. split; [by apply (saveArchivedReading_refused _ _ _ _ ∅)|]. by split.
Qed.

End SyncFacts.

(** ** The reading component *)

Module BibleReadingFacts.
Import Gemini Browser Types SyncService Chain BibleReading.

Section Facts.

Context (env : Env).
Context {JSON_ComprehensiveData : JSON ComprehensiveData}.
Context {JSON_cache : JSON CachedReadingData}.
Context {JSON_status : JSON MeditationRecord}.

(** What [handleStatusChange] leaves: the toggled record in the state, and
    in the storage when the browser accepts the write. *)
Lemma handleStatusChange_run day status w st :
  let newStatus : MeditationRecord :=
    if decide (meditationStatus st !! day = Some status)
    then delete day (meditationStatus st)
    else <[day := status]> (meditationStatus st) in
  handleStatusChange env day status (w, st)
  = (Returned tt,
     (if storage_accepts env (localStorage w) "meditation-status" (JSON_stringify newStatus)
      then {| trace := trace w ++ [Sleep MOCK_LATENCY];
              localStorage :=
                <["meditation-status" := JSON_stringify newStatus]> (localStorage w) |}
      else w,
      set_meditationStatus newStatus st)).
Proof.
  intros newStatus.
  unfold handleStatusChange, bind, getState, setState, try_catch, lift, saveMeditationStatus,
    bind, setItem, simulateNetworkRequest, bind, delay, ret.
  cbn [fst snd]. fold newStatus.
  by destruct (storage_accepts env (localStorage w) "meditation-status"
                 (JSON_stringify newStatus)).
Qed.

(** The toggle, on the record that the component shows.
    [handleStatusChange (day, s)] removes the entry of [day] when its value is
    [s] and sets it to [s] otherwise, leaves the entry of every other day of
    that record as it was, and writes the record to the store. Toggling [s]
    twice on a day without status, or with another status, leaves the day
    without status; on a day whose status is [s] it puts [s] back. *)
Lemma handleStatusChange_toggles day status w st :
  let once := handleStatusChange env day status (w, st) in
  let twice := handleStatusChange env day status (snd once) in
  let record := meditationStatus st in
  let record' := meditationStatus (snd (snd once)) in
  let record'' := meditationStatus (snd (snd twice)) in
  fst once = Returned tt
  /\ (record !! day = Some status -> record' !! day = None)
  /\ (record !! day <> Some status -> record' !! day = Some status)
  /\ (forall d, d <> day -> record' !! d = record !! d)
  /\ (storage_accepts env (localStorage w) "meditation-status" (JSON_stringify record') = true ->
      localStorage (fst (snd once)) !! "meditation-status" = Some (JSON_stringify record'))
  /\ (record !! day = None -> record'' !! day = None)
  /\ (record !! day <> Some status -> record'' !! day = None)
  /\ (record !! day = Some status -> record'' !! day = Some status)
  /\ (forall d, d <> day -> record'' !! d = record !! d).
Proof.
  intros once twice record record' record''.
  subst twice record''. subst record'. subst once.
  rewrite (handleStatusChange_run day status w st). cbn zeta. cbn [fst snd].
  rewrite handleStatusChange_run. cbn zeta. cbn [fst snd].
  unfold set_meditationStatus. cbn [meditationStatus]. subst record.
  set (m := meditationStatus st).
  assert (Hfirst_eq : m !! day = Some status ->
            (if decide (m !! day = Some status) then delete day m else <[day := status]> m)
            = delete day m) by (intros; by rewrite decide_True).
  assert (Hfirst_ne : m !! day <> Some status ->
            (if decide (m !! day = Some status) then delete day m else <[day := status]> m)
            = <[day := status]> m) by (intros; by rewrite decide_False).
  split_and!.
  - done.
  - intros H. rewrite Hfirst_eq by done. apply lookup_delete_eq.
  - intros H. rewrite Hfirst_ne by done. apply lookup_insert_eq.
  - intros d Hd. destruct (decide (m !! day = Some status)).
    + by apply lookup_delete_ne.
    + by apply lookup_insert_ne.
  - intros Haccept. rewrite Haccept. cbn [localStorage]. apply lookup_insert_eq.
  - intros H. rewrite Hfirst_ne by congruence.
    rewrite decide_True by apply lookup_insert_eq. apply lookup_delete_eq.
  - intros H. rewrite Hfirst_ne by done.
    rewrite decide_True by apply lookup_insert_eq. apply lookup_delete_eq.
  - intros H. rewrite Hfirst_eq by done.
    rewrite decide_False by (rewrite lookup_delete_eq; discriminate). apply lookup_insert_eq.
  - intros d Hd. destruct (decide (m !! day = Some status)).
    + rewrite decide_False by (rewrite lookup_delete_eq; discriminate).
      rewrite lookup_insert_ne by done. by apply lookup_delete_ne.
    + rewrite decide_True by apply lookup_insert_eq.
      rewrite lookup_delete_ne by done. by apply lookup_insert_ne.
Qed.

(** **** The cache of the reading *)

Lemma fetchImageAndUpdateState_run l prompt fallback w st :
  exists r evs,
    generateContextImage env (Build_GenerateContextImageParams prompt fallback l) w
    = (r, after w evs)
    /\ Forall (fun ev => reading_call ev = false) evs
    /\ fetchImageAndUpdateState env l prompt fallback (w, st)
       = (Returned tt, (after w evs, image_settled r st)).
Proof.
  destruct (GeminiFacts.generateContextImage_events env
              (Build_GenerateContextImageParams prompt fallback l) w)
    as (r & evs & E & Hr & Hevs).
  exists r, evs. split; [done|]. split; [done|].
  unfold fetchImageAndUpdateState, try_finally, try_catch, bind, setState, lift, ret.
  cbn [fst snd]. rewrite E. by destruct r.
Qed.

Lemma loadFromCache_hit l date w st item d :
  localStorage w !! cacheKey date l = Some item ->
  truthy item = true ->
  JSON_parse item = Some d ->
  loadFromCache env l date (w, st)
  = (Returned true,
     if truthy (c_imagePrompt d)
     then snd (fetchImageAndUpdateState env l (c_imagePrompt d) (c_intention d)
                 (w, loaded d st))
     else (w, set_isImageLoading false (loaded d st))).
Proof.
  intros Hk Ht Hp.
  unfold loadFromCache, bind, try_catch, lift, getItem, setState, JSON_parse_M, ret.
  cbn [fst snd]. rewrite Hk. cbn [truthy_opt template_arg]. rewrite Ht, Hp.
  cbn [fst snd]. fold (loaded d st).
  destruct (truthy (c_imagePrompt d)); [|done].
  destruct (fetchImageAndUpdateState_run l (c_imagePrompt d) (c_intention d) w (loaded d st))
    as (r & evs & _ & _ & ->).
  done.
Qed.

Lemma loadFromCache_corrupt l date w st item :
  localStorage w !! cacheKey date l = Some item ->
  truthy item = true ->
  JSON_parse (A := CachedReadingData) item = None ->
  loadFromCache env l date (w, st)
  = (Returned false,
     ({| trace := trace w; localStorage := delete (cacheKey date l) (localStorage w) |}, st)).
Proof.
  intros Hk Ht Hp.
  unfold loadFromCache, bind, try_catch, lift, getItem, setState, JSON_parse_M, ret,
    removeItem, throw.
  cbn [fst snd]. rewrite Hk. cbn [truthy_opt template_arg]. by rewrite Ht, Hp.
Qed.

Lemma loadFromCache_miss l date w st :
  truthy_opt (localStorage w !! cacheKey date l) = false ->
  loadFromCache env l date (w, st) = (Returned false, (w, st)).
Proof.
  intros Hk. unfold loadFromCache, bind, try_catch, lift, getItem, ret.
  cbn [fst snd]. by rewrite Hk.
Qed.

(** The text generation returns or throws, and records at most its call. *)
Lemma generateComprehensiveReadingContent_run reading l w :
  exists r evs,
    generateComprehensiveReadingContent env (Constants.book (fst reading))
      (Constants.chapter (fst reading)) (Constants.chapter (snd reading)) l w
    = (r, after w evs)
    /\ r <> OutOfFuel.
Proof.
  unfold generateComprehensiveReadingContent, try_catch, bind, getAiClient, generateContent,
    JSON_parse_M, throw, ret.
  destruct (truthy_opt (VITE_GEMINI_API_KEY env)).
  - match goal with |- context [service env ?n ?r] =>
      destruct (service env n r) as [response|e] end.
    + destruct (truthy_opt (option_map trim (text response))).
      * destruct (JSON_parse (template_arg (text response))); by eexists _, [_].
      * by eexists _, [_].
    + by eexists _, [_].
  - eexists _, []. by rewrite GeminiFacts.after_nil.
Qed.

Lemma fetchFromApi_run reading l date w st :
  exists w' st',
    fetchFromApi env reading l date (w, st) = (Returned tt, (w', st'))
    /\ (localStorage w' = localStorage w
        \/ exists data,
             localStorage w'
             = <[cacheKey date l := JSON_stringify (dataToCache data)]> (localStorage w)).
Proof.
  destruct (generateComprehensiveReadingContent_run reading l w) as (r & evs & E & Hr).
  unfold fetchFromApi, bind, try_catch, lift, setState, ret. cbn [fst snd]. rewrite E.
  destruct r as [data|e|]; [| |done].
  - cbn [fst snd]. fold (generated data st).
    assert (Himg : exists w1 st1,
               (if truthy (cd_imagePrompt data)
                then fetchImageAndUpdateState env l (cd_imagePrompt data) (cd_intention data)
                else fun sc => (Returned tt, (sc.1, set_isImageLoading false sc.2)))
                 (after w evs, generated data st)
               = (Returned tt, (w1, st1))
               /\ localStorage w1 = localStorage w).
    { destruct (truthy (cd_imagePrompt data)); [|by eauto].
      destruct (fetchImageAndUpdateState_run l (cd_imagePrompt data) (cd_intention data)
                  (after w evs) (generated data st)) as (r & evs' & _ & _ & ->).
      by eauto. }
    destruct Himg as (w1 & st1 & -> & Hs). cbn [fst snd]. unfold setItem.
    destruct (storage_accepts env (localStorage w1) (cacheKey date l)
                (JSON_stringify (dataToCache data))).
    + eexists _, _. split; [done|]. right. exists data. cbn [localStorage]. by rewrite Hs.
    + eexists _, _. split; [done|]. by left.
  - destruct (includes _ "429" || includes _ "RESOURCE_EXHAUSTED"); by eauto.
Qed.

Lemma fetchContent_hit reading l date w st item d :
  localStorage w !! cacheKey date l = Some item ->
  truthy item = true ->
  JSON_parse item = Some d ->
  exists r evs,
    (truthy (c_imagePrompt d) = true ->
     generateContextImage env
       (Build_GenerateContextImageParams (c_imagePrompt d) (c_intention d) l) w
     = (r, after w evs))
    /\ (truthy (c_imagePrompt d) = false -> evs = [])
    /\ Forall (fun ev => reading_call ev = false) evs
    /\ fetchContent env reading l date (w, st)
       = (Returned tt,
          (after w evs,
           if truthy (c_imagePrompt d)
           then image_settled r (loaded d st)
           else set_isImageLoading false (loaded d st))).
Proof.
  intros Hk Ht Hp. unfold fetchContent.
  rewrite (bind_Returned _ _ _ _ _ (loadFromCache_hit l date w st item d Hk Ht Hp)).
  destruct (truthy (c_imagePrompt d)).
  - destruct (fetchImageAndUpdateState_run l (c_imagePrompt d) (c_intention d) w (loaded d st))
      as (r & evs & E & Hevs & ->).
    exists r, evs. split_and!; done.
  - exists (Returned None), []. rewrite GeminiFacts.after_nil. split_and!; done.
Qed.

Lemma fetchFromApi_success reading l date w st response t data :
  truthy_opt (VITE_GEMINI_API_KEY env) = true ->
  next_outcome env w (reading_request reading l) = Resolved response ->
  text response = Some t ->
  truthy (trim t) = true ->
  JSON_parse t = Some data ->
  (forall s v, storage_accepts env s (cacheKey date l) v = true) ->
  let w1 := after w [ModelCall (reading_request reading l) (Resolved response)] in
  exists r evs,
    (truthy (cd_imagePrompt data) = true ->
     generateContextImage env
       (Build_GenerateContextImageParams (cd_imagePrompt data) (cd_intention data) l) w1
     = (r, after w1 evs))
    /\ (truthy (cd_imagePrompt data) = false -> evs = [])
    /\ fetchFromApi env reading l date (w, st)
       = (Returned tt,
          ({| trace := trace w1 ++ evs;
              localStorage :=
                <[cacheKey date l := JSON_stringify (dataToCache data)]> (localStorage w) |},
           if truthy (cd_imagePrompt data)
           then image_settled r (generated data st)
           else set_isImageLoading false (generated data st))).
Proof.
  intros Hkey Ho Htext Ht Hp Haccept w1.
  assert (E : generateComprehensiveReadingContent env (Constants.book (fst reading))
                (Constants.chapter (fst reading)) (Constants.chapter (snd reading)) l w
              = (Returned data, w1)).
  { unfold generateComprehensiveReadingContent, try_catch, bind, getAiClient, generateContent,
      JSON_parse_M, ret.
    rewrite Hkey. unfold next_outcome, reading_request in Ho. rewrite Ho, Htext.
    cbn [option_map truthy_opt template_arg]. by rewrite Ht, Hp. }
  unfold fetchFromApi, bind, try_catch, lift, setState, ret. cbn [fst snd]. rewrite E.
  cbn [fst snd]. fold (generated data st).
  destruct (truthy (cd_imagePrompt data)).
  - destruct (fetchImageAndUpdateState_run l (cd_imagePrompt data) (cd_intention data)
                w1 (generated data st)) as (r & evs & Eimg & _ & ->).
    exists r, evs. split_and!; [done|done|].
    cbn [fst snd]. unfold setItem. by rewrite Haccept.
  - exists (Returned None), []. split_and!; [done|done|].
    cbn [fst snd]. unfold setItem. rewrite Haccept. by rewrite app_nil_r.
Qed.

Lemma loaded_fields d st :
  passage (loaded d st) = c_passage d
  /\ meditationGuide (loaded d st) = c_meditationGuide d
  /\ passageContext (loaded d st) = c_context d
  /\ passageIntention (loaded d st) = c_intention d
  /\ loadedPassage (loaded d st) = c_passage d
  /\ isLoading (loaded d st) = false.
Proof. done. Qed.

Lemma generated_fields data st :
  passage (generated data st) = cd_passage data
  /\ meditationGuide (generated data st) = cd_meditationGuide data
  /\ passageContext (generated data st) = cd_context data
  /\ passageIntention (generated data st) = cd_intention data
  /\ loadedPassage (generated data st) = cd_passage data
  /\ isLoading (generated data st) = false.
Proof. done. Qed.

(** The image state is all that the settling of an image generation and the
    end of the image loading change. *)
Lemma image_settled_fields r st :
  passage (image_settled r st) = passage st
  /\ meditationGuide (image_settled r st) = meditationGuide st
  /\ passageContext (image_settled r st) = passageContext st
  /\ passageIntention (image_settled r st) = passageIntention st
  /\ loadedPassage (image_settled r st) = loadedPassage st
  /\ isLoading (image_settled r st) = isLoading st.
Proof. by destruct r. Qed.

(** The cache of the reading, for the date string [date] that the
    component is rendered with. When the storage holds a cache record under
    the key of [date] and the language, [fetchContent] shows the cached
    passage, meditation guide, context and intention, whatever the reading
    asked for, and makes no call to the model that generates the text of the
    reading. When it holds none and the generation succeeds, the record is
    written under that key (the browser accepting the write). *)
Lemma fetchContent_cache reading l date w st :
  (forall item d,
     localStorage w !! cacheKey date l = Some item ->
     truthy item = true ->
     JSON_parse item = Some d ->
     exists evs st',
       fetchContent env reading l date (w, st) = (Returned tt, (after w evs, st'))
       /\ passage st' = c_passage d
       /\ meditationGuide st' = c_meditationGuide d
       /\ passageContext st' = c_context d
       /\ passageIntention st' = c_intention d
       /\ loadedPassage st' = c_passage d
       /\ isLoading st' = false
       /\ Forall (fun ev => reading_call ev = false) evs)
  /\ (forall response t data,
        truthy_opt (localStorage w !! cacheKey date l) = false ->
        truthy_opt (VITE_GEMINI_API_KEY env) = true ->
        next_outcome env w (reading_request reading l) = Resolved response ->
        text response = Some t ->
        truthy (trim t) = true ->
        JSON_parse t = Some data ->
        (forall s v, storage_accepts env s (cacheKey date l) v = true) ->
        exists w' st',
          fetchContent env reading l date (w, st) = (Returned tt, (w', st'))
          /\ localStorage w'
             = <[cacheKey date l := JSON_stringify (dataToCache data)]> (localStorage w)
          /\ passage st' = cd_passage data
          /\ meditationGuide st' = cd_meditationGuide data
          /\ passageContext st' = cd_context data
          /\ passageIntention st' = cd_intention data).
Proof.
  split.
  - intros item d Hk Ht Hp.
    destruct (fetchContent_hit reading l date w st item d Hk Ht Hp)
      as (r & evs & _ & _ & Hevs & ->).
    eexists evs, _. split; [done|].
    destruct (loaded_fields d st) as (? & ? & ? & ? & ? & ?).
    destruct (truthy (c_imagePrompt d)).
    + destruct (image_settled_fields r (loaded d st)) as (-> & -> & -> & -> & -> & ->).
      split_and!; done.
    + split_and!; done.
  - intros response t data Hmiss Hkey Ho Htext Ht Hp Haccept.
    unfold fetchContent.
    rewrite (bind_Returned _ _ _ _ _ (loadFromCache_miss l date w st Hmiss)).
    destruct (fetchFromApi_success reading l date w st response t data Hkey Ho Htext Ht Hp Haccept)
      as (r & evs & _ & _ & ->).
    eexists _, _. split; [done|]. split; [done|].
    destruct (generated_fields data st) as (? & ? & ? & ? & ? & ?).
    destruct (truthy (cd_imagePrompt data)).
    + destruct (image_settled_fields r (generated data st)) as (-> & -> & -> & -> & _ & _).
      split_and!; done.
    + split_and!; done.
Qed.



End Facts.

Import Examples.

(** Day 2 has no status: marking it [ok] twice leaves it without status. *)
Example handleStatusChange_twice :
  let st := set_meditationStatus {[ 1 := good ]} initial_state in
  let once :=
    handleStatusChange (JSON_status := Codec.countable_JSON MeditationRecord)
      env_failing 2 ok (empty_world, st) in
  let twice :=
    handleStatusChange (JSON_status := Codec.countable_JSON MeditationRecord)
      env_failing 2 ok (snd once) in
  meditationStatus (snd (snd twice)) !! 2 = None.
Proof.
  intros st once twice.
  pose proof (handleStatusChange_toggles env_failing
                (JSON_status := Codec.countable_JSON MeditationRecord)
                2 ok empty_world st) as H.
  cbv zeta in H. destruct H as (_ & _ & _ & _ & _ & H & _).
  apply H. reflexivity.
Qed.

Lemma cached_item_parses (d : CachedReadingData) :
  localStorage (world_with_cache d) !! cacheKey "2024-07-27" en
  = Some (@JSON_stringify _ (Codec.countable_JSON CachedReadingData) d)
  /\ truthy (@JSON_stringify _ (Codec.countable_JSON CachedReadingData) d) = true
  /\ @JSON_parse _ (Codec.countable_JSON CachedReadingData)
       (@JSON_stringify _ (Codec.countable_JSON CachedReadingData) d) = Some d.
Proof.
  split_and!.
  - unfold world_with_cache. cbn [localStorage]. apply lookup_singleton_eq.
  - apply JSON_truthy.
  - apply JSON_roundtrip.
Qed.

(** A cached record is shown without a call for the reading. *)
Example cached_record_is_shown :
  exists evs st',
    fetchContent (JSON_ComprehensiveData := Codec.countable_JSON ComprehensiveData)
      (JSON_cache := Codec.countable_JSON CachedReadingData)
      (env_working "unused") galatians_1_2 en "2024-07-27"
      (world_with_cache cached_with_prompt, initial_state)
    = (Returned tt, (after (world_with_cache cached_with_prompt) evs, st'))
    /\ passage st' = "Paul, an apostle"
    /\ Forall (fun ev => reading_call ev = false) evs.
Proof.
  destruct (cached_item_parses cached_with_prompt) as (Hk & Ht & Hp).
  destruct (proj1 (fetchContent_cache (env_working "unused")
                     (JSON_ComprehensiveData := Codec.countable_JSON ComprehensiveData)
                     (JSON_cache := Codec.countable_JSON CachedReadingData)
                     galatians_1_2 en "2024-07-27"
                     (world_with_cache cached_with_prompt) initial_state)
              _ cached_with_prompt Hk Ht Hp)
    as (evs & st' & E & Hpassage & _ & _ & _ & _ & _ & Hevs).
  exists evs, st'. split_and!; done.
Qed.



(** A first load with a working service: one call for the text, one for the
    image; the record is cached without the image, and a second load shows
    the cached text and asks for a new image only. *)
Example fresh_reading_is_cached :
  let env :=
    env_working (@JSON_stringify _ (Codec.countable_JSON ComprehensiveData) generated_data) in
  let first :=
    snd (fetchContent (JSON_ComprehensiveData := Codec.countable_JSON ComprehensiveData)
           (JSON_cache := Codec.countable_JSON CachedReadingData)
           env galatians_1_2 en "2024-07-27" (empty_world, initial_state)) in
  let second :=
    snd (fetchContent (JSON_ComprehensiveData := Codec.countable_JSON ComprehensiveData)
           (JSON_cache := Codec.countable_JSON CachedReadingData)
           env galatians_1_2 en "2024-07-27"
           ({| trace := []; localStorage := localStorage (fst first) |}, initial_state)) in
  List.map reading_call (trace (fst first)) = [true; false]
  /\ localStorage (fst first) !! cacheKey "2024-07-27" en
     = Some (@JSON_stringify _ (Codec.countable_JSON CachedReadingData) cached_with_prompt)
  /\ contextImageUrl (snd first) = Some "data:image/png;base64,AAAA"
  /\ passage (snd second) = "Paul, an apostle"
  /\ List.map reading_call (trace (fst second)) = [false].
Proof. intros env first second. split_and!; vm_compute; reflexivity. Qed.

End BibleReadingFacts.

(** ** The diary and the mission plans *)

Module FaithDiaryFacts.
Import Gemini Browser Types SyncService Chain FaithDiary Examples.

Section Facts.

Context (env : Env).
Context {JSON_entry : JSON DiaryEntry}.
Context {JSON_diary : JSON (list SavedDiaryEntry)}.
Context {JSON_diary_laws : JSONLaws (list SavedDiaryEntry)}.
Context (toLocaleTimeString : string -> Z -> string).
Context (storageKey : string) (language : Language).

(** An empty draft is not saved. *)
Lemma handleSave_blank now w st :
  all_blank (currentEntry st) = true ->
  handleSave env toLocaleTimeString storageKey language now (w, st) = (Returned tt, (w, st)).
Proof.
  intros Hblank. unfold handleSave, bind, getState. cbn [fst snd]. by rewrite Hblank.
Qed.

(** [handleSave] puts the new entry in front of the list that the component
    holds, and writes that list to the storage. *)
Lemma handleSave_appends now w st :
  all_blank (currentEntry st) = false ->
  (forall s k v, storage_accepts env s k v = true) ->
  let newEntry := new_entry toLocaleTimeString language now (currentEntry st) in
  exists w' st',
    handleSave env toLocaleTimeString storageKey language now (w, st)
    = (Returned tt, (w', st'))
    /\ savedEntries st' = newEntry :: savedEntries st
    /\ stored_entries storageKey w' = Some (newEntry :: savedEntries st)
    /\ currentEntry st' = emptyEntry.
Proof.
  intros Hblank Haccept newEntry.
  unfold handleSave, bind, getState, setState, setCurrentEntry, try_catch, bind, setState,
    lift, saveDiaryEntries, bind, setItem, simulateNetworkRequest, bind, delay, ret.
  cbn [fst snd]. rewrite Hblank. cbn [fst snd]. rewrite !Haccept. cbn [fst snd localStorage].
  eexists _, _. split; [done|]. split_and!; [done| |done].
  unfold stored_entries. cbn [localStorage]. rewrite lookup_insert_eq.
  by rewrite JSON_truthy, JSON_roundtrip.
Qed.

End Facts.

(** Saving once the saved entries have been loaded keeps them. *)
Example save_after_load_keeps_entries :
  let final :=
    snd (run (JSON_entry := Codec.countable_JSON DiaryEntry)
           (JSON_diary := Codec.countable_JSON (list SavedDiaryEntry))
           env_failing clock "diary-2024-07-27" en
           [Mount; FetchSettled; HandleSave 1722070000000]
           (diary_world, unmounted_diary)) in
  let newEntry :=
    {| sd_id := 1722070000000; sd_timestamp := "09:30 AM"; sd_content := draft |} in
  savedEntries (snd final) = [newEntry; first_entry]
  /\ stored_entries (JSON_diary := Codec.countable_JSON (list SavedDiaryEntry))
       "diary-2024-07-27" (fst final) = Some [newEntry; first_entry].
Proof. vm_compute. done. Qed.

(** C5, where the code breaks it. The storage holds one saved entry and a
    draft. The component mounts and the user saves the draft before the
    entries that [getDiaryEntries] read have arrived (the mock latency is
    still running): [handleSave] sees the initial empty list and writes a
    list of one entry, so that the entry saved earlier is gone from the
    storage. When the fetch then settles, the component shows the old entry
    and not the new one. *)
Theorem save_before_load_loses_entries :
  let before := diary_world in
  let saved :=
    snd (run (JSON_entry := Codec.countable_JSON DiaryEntry)
           (JSON_diary := Codec.countable_JSON (list SavedDiaryEntry))
           env_failing clock "diary-2024-07-27" en
           [Mount; HandleSave 1722070000000]
           (before, unmounted_diary)) in
  let settled :=
    snd (run (JSON_entry := Codec.countable_JSON DiaryEntry)
           (JSON_diary := Codec.countable_JSON (list SavedDiaryEntry))
           env_failing clock "diary-2024-07-27" en
           [FetchSettled] saved) in
  let newEntry :=
    {| sd_id := 1722070000000; sd_timestamp := "09:30 AM"; sd_content := draft |} in
  stored_entries (JSON_diary := Codec.countable_JSON (list SavedDiaryEntry))
    "diary-2024-07-27" before = Some [first_entry]
  /\ stored_entries (JSON_diary := Codec.countable_JSON (list SavedDiaryEntry))
       "diary-2024-07-27" (fst saved) = Some [newEntry]
  /\ ~ In first_entry [newEntry]
  /\ savedEntries (snd settled) = [first_entry]
  /\ stored_entries (JSON_diary := Codec.countable_JSON (list SavedDiaryEntry))
       "diary-2024-07-27" (fst settled) = Some [newEntry].
Proof.
  vm_compute. split_and!; try done.
  intros [H|[]]. discriminate H.
Qed.

(** The mission plans are saved the same way, with the same loss. *)
Example plan_saved_before_load_loses_plans :
  let saved :=
    snd (EvangelismMission.run
           (JSON_plans := Codec.countable_JSON (list SavedPlanEntry))
           env_failing clock "mission-2024-07-27" en
           [EvangelismMission.Mount;
            EvangelismMission.SetCurrentPlan "pray for the street";
            EvangelismMission.HandleSave 1722070000000]
           (mission_world, unmounted_mission)) in
  EvangelismMission.stored_plans (JSON_plans := Codec.countable_JSON (list SavedPlanEntry))
    "mission-2024-07-27" mission_world = Some [first_plan]
  /\ EvangelismMission.stored_plans (JSON_plans := Codec.countable_JSON (list SavedPlanEntry))
       "mission-2024-07-27" (fst saved)
     = Some [ {| sp_id := 1722070000000; sp_timestamp := "09:30 AM";
                 sp_content := "pray for the street" |} ].
Proof. vm_compute. done. Qed.

End FaithDiaryFacts.

(** ** The schedule and the day of the reading *)

Module ScheduleFacts.
Import Constants Schedule.

Lemma forallb_seqZ (P : Z -> bool) n i :
  forallb P (seqZ 0 n) = true -> 0 <= i < n -> P i = true.
Proof.
  intros H Hi. rewrite forallb_forall in H. apply H.
  apply list_elem_of_In, elem_of_seqZ. lia.
Qed.

Lemma Math_ceil_div_2 n : 0 <= n -> Math_ceil_div n 2 = (n + 1) / 2.
Proof. intros Hn. unfold Math_ceil_div. Z.div_mod_to_equations. lia. Qed.

(** [getDailyReading] is [reading_at] the index twice the elapsed days,
    modulo the length of the plan. *)
Lemma getDailyReading_reading_at makeLocalDate setHours0 date language :
  getDailyReading makeLocalDate setHours0 date language
  = reading_at ((elapsedDays makeLocalDate setHours0 date * 2) mod 87) language.
Proof.
  unfold getDailyReading, reading_at.
  set (q := (setHours0 date - SCHEDULE_START_DATE makeLocalDate setHours0) / oneDay).
  assert (Hq : (if q <? 0 then 0 else q) = elapsedDays makeLocalDate setHours0 date).
  { unfold elapsedDays. fold q. destruct (Z.ltb_spec q 0); lia. }
  rewrite Hq. change totalChapters with 87.
  assert (0 <= elapsedDays makeLocalDate setHours0 date) by (unfold elapsedDays; lia).
  by rewrite (Z.rem_mod_nonneg (_ * 2) 87) by lia.
Qed.

Lemma distinct_readings_ok language : distinct_readings language = true.
Proof. destruct language; vm_compute; reflexivity. Qed.

Lemma reading_at_inj language i j :
  0 <= i < 87 -> 0 <= j < 87 ->
  reading_at i language = reading_at j language -> i = j.
Proof.
  intros Hi Hj E.
  pose proof (distinct_readings_ok language) as H. unfold distinct_readings in H.
  change totalChapters with 87 in H.
  pose proof (forallb_seqZ _ _ i H Hi) as H1. cbv beta in H1.
  pose proof (forallb_seqZ _ _ j H1 Hj) as H2. cbv beta in H2.
  apply orb_true_iff in H2 as [H2|H2]; [lia|].
  apply negb_true_iff, bool_decide_eq_false in H2. done.
Qed.

Lemma mod_87_double d d' : (d * 2) mod 87 = (d' * 2) mod 87 <-> (d - d') mod 87 = 0.
Proof.
  split.
  - intros E.
    assert (H : (87 | 2 * (d - d'))).
    { apply Z.mod_divide; [lia|].
      replace (2 * (d - d')) with (d * 2 - d' * 2) by lia.
      rewrite Zminus_mod, E, Z.sub_diag. reflexivity. }
    apply Z.gauss in H; [by apply Z.mod_divide|reflexivity].
  - intros E. apply Z.mod_divide in E; [|lia]. destruct E as [k Hk].
    replace (d * 2) with (d' * 2 + (2 * k) * 87) by lia.
    by rewrite Z_mod_plus_full.
Qed.

(** X1. Two dates have the same daily reading exactly when their numbers of
    elapsed days differ by a multiple of 87, the number of chapters of the
    plan: the readings repeat every 87 days, not every 44. *)
Theorem getDailyReading_repeats makeLocalDate setHours0 date date' language :
  getDailyReading makeLocalDate setHours0 date language
  = getDailyReading makeLocalDate setHours0 date' language
  <-> (elapsedDays makeLocalDate setHours0 date
       - elapsedDays makeLocalDate setHours0 date') mod 87 = 0.
Proof.
  rewrite !getDailyReading_reading_at.
  set (d := elapsedDays makeLocalDate setHours0 date).
  set (d' := elapsedDays makeLocalDate setHours0 date').
  split.
  - intros E. apply reading_at_inj in E; [|apply Z.mod_pos_bound; lia..].
    by apply mod_87_double.
  - intros E. f_equal. by apply mod_87_double.
Qed.

Example second_cycle_starts_on_day_87 :
  getDailyReading utc_makeLocalDate utc_setHours0 (1722038400000 + 87 * 86400000) en
  = getDailyReading utc_makeLocalDate utc_setHours0 1722038400000 en
  /\ getDailyReading utc_makeLocalDate utc_setHours0 (1722038400000 + 44 * 86400000) en
     = Some ({| book := "Galatians"; chapter := 2 |}, {| book := "Galatians"; chapter := 3 |}).
Proof. split; reflexivity. Qed.

Lemma array_get_Some {A} (a : list A) i x :
  array_get a i = Some x <-> 0 <= i /\ a !! Z.to_nat i = Some x.
Proof.
  unfold array_get. destruct (Z.ltb_spec i 0); [|by intuition].
  split; [done|]. intros [? _]. lia.
Qed.

Lemma array_get_lookup {A} (a : list A) i :
  0 <= i -> array_get a i = a !! Z.to_nat i.
Proof. intros Hi. unfold array_get. by destruct (Z.ltb_spec i 0); [lia|]. Qed.

Lemma schedule_row_is_Some plan language i :
  0 <= i -> i * 2 < Z.of_nat (length plan) -> is_Some (schedule_row plan language i).
Proof.
  intros Hi Hlt. unfold schedule_row.
  destruct (ConstantsFacts.array_get_in_range plan (i * 2)) as (x & -> & _); [lia|]. by eexists.
Qed.

(** The loop pushes the rows of the days from [dayIndex] to [totalDays],
    and its fuel suffices. *)
Lemma schedule_loop_rows plan language totalDays fuel dayIndex schedule :
  0 <= dayIndex <= totalDays ->
  2 * totalDays <= Z.of_nat (length plan) + 1 ->
  (Z.to_nat (totalDays - dayIndex) < fuel)%nat ->
  exists rest,
    schedule_loop fuel plan language totalDays dayIndex schedule = Returned (schedule ++ rest)
    /\ Forall2 (fun i item => schedule_row plan language i = Some item)
         (seqZ dayIndex (totalDays - dayIndex)) rest.
Proof.
  intros Hk Htotal. revert dayIndex schedule Hk.
  induction fuel as [|fuel IH]; intros k acc Hk Hfuel; [lia|].
  cbn [schedule_loop]. destruct (Z.ltb_spec k totalDays) as [Hlt|Hge].
  - destruct (schedule_row_is_Some plan language k) as [item Hitem]; [lia..|].
    unfold schedule_row in Hitem.
    destruct (array_get plan (k * 2)) as [firstChapter|] eqn:Hfirst; [|done].
    injection Hitem as <-.
    destruct (IH (k + 1)
                (acc ++ [ {| day := k + 1;
                             reading := readingText language firstChapter
                                          (array_get plan (k * 2 + 1)) |} ]))
      as (rest & -> & Hrest); [lia..|].
    eexists (_ :: rest). split; [by rewrite <- app_assoc|].
    rewrite (seqZ_cons k) by lia. constructor.
    + unfold schedule_row. by rewrite Hfirst.
    + replace (Z.succ k) with (k + 1) by lia.
      by replace (Z.pred (totalDays - k)) with (totalDays - (k + 1)) by lia.
  - exists []. rewrite app_nil_r. split; [done|].
    rewrite seqZ_nil by lia. constructor.
Qed.

Lemma getFullScheduleOf_spec plan language :
  exists schedule,
    getFullScheduleOf plan language = Returned schedule
    /\ Z.of_nat (length schedule) = (Z.of_nat (length plan) + 1) / 2
    /\ forall i firstChapter,
         plan !! (2 * i)%nat = Some firstChapter ->
         schedule !! i
         = Some {| day := Z.of_nat i + 1;
                   reading := readingText language firstChapter (plan !! (2 * i + 1)%nat) |}.
Proof.
  unfold getFullScheduleOf. rewrite Math_ceil_div_2 by lia.
  set (total := (Z.of_nat (length plan) + 1) / 2).
  assert (Htotal : 0 <= total /\ 2 * total <= Z.of_nat (length plan) + 1
                   /\ Z.of_nat (length plan) < 2 * total + 1).
  { unfold total. Z.div_mod_to_equations. lia. }
  destruct (schedule_loop_rows plan language total (S (Z.to_nat total)) 0 [])
    as (rest & -> & Hrows); [lia..|].
  exists rest. split; [done|].
  rewrite Z.sub_0_r in Hrows.
  pose proof (Forall2_length _ _ _ Hrows) as Hlen. rewrite length_seqZ in Hlen.
  split; [lia|].
  intros i firstChapter Hfirst.
  pose proof (lookup_lt_Some _ _ _ Hfirst) as Hi.
  destruct (Forall2_lookup_l _ _ _ i (Z.of_nat i) Hrows) as (item & Hitem & Hrow).
  { apply lookup_seqZ. lia. }
  rewrite Hitem. f_equal. unfold schedule_row in Hrow.
  rewrite !array_get_lookup in Hrow by lia.
  replace (Z.to_nat (Z.of_nat i * 2)) with (2 * i)%nat in Hrow by lia.
  replace (Z.to_nat (Z.of_nat i * 2 + 1)) with (2 * i + 1)%nat in Hrow by lia.
  rewrite Hfirst in Hrow. by injection Hrow.
Qed.

(** X2. For every plan [getFullSchedule] returns, with one row for every
    two chapters, rounded up; the rows are numbered from 1 without gap, and
    the row of day [i + 1] shows the chapters [2 i] and [2 i + 1] of the plan,
    the last row a single chapter when the plan has an odd length. *)
Theorem getFullSchedule_rows plan language :
  exists schedule,
    getFullScheduleOf plan language = Returned schedule
    /\ Z.of_nat (length schedule) = (Z.of_nat (length plan) + 1) / 2
    /\ forall i firstChapter,
         plan !! (2 * i)%nat = Some firstChapter ->
         schedule !! i
         = Some {| day := Z.of_nat i + 1;
                   reading := readingText language firstChapter (plan !! (2 * i + 1)%nat) |}.
Proof. apply getFullScheduleOf_spec. Qed.

Lemma getFullSchedule_rows_witness :
  exists schedule,
    getFullSchedule en = Returned schedule
    /\ length schedule = 44%nat
    /\ schedule !! 5%nat
       = Some {| day := 6; reading := "1 Thessalonians 5 & 2 Thessalonians 1" |}
    /\ schedule !! 43%nat = Some {| day := 44; reading := "2 Timothy 4" |}.
Proof.
  destruct (getFullSchedule_rows readingPlan en) as (schedule & E & Hlen & Hrows).
  exists schedule. split; [exact E|]. split; [apply Nat2Z.inj; rewrite Hlen; reflexivity|].
  split.
  - apply (Hrows 5%nat {| rp_book := {| name_ko := "데살로니가전서"; name_en := "1 Thessalonians" |};
                          rp_chapter := 5 |}).
    reflexivity.
  - apply (Hrows 43%nat {| rp_book := {| name_ko := "디모데후서"; name_en := "2 Timothy" |};
                           rp_chapter := 4 |}).
    reflexivity.
Defined.

(** The daily reading of a day of the cycle, by its plan items. *)
Lemma reading_at_items i language :
  0 <= i < 87 ->
  exists first second,
    readingPlan !! Z.to_nat i = Some first
    /\ readingPlan !! Z.to_nat ((i + 1) mod 87) = Some second
    /\ reading_at i language
       = Some ({| book := localized (rp_book first) language; chapter := rp_chapter first |},
               {| book := localized (rp_book second) language; chapter := rp_chapter second |}).
Proof.
  intros Hi. unfold reading_at. change totalChapters with 87.
  rewrite (Z.rem_mod_nonneg (i + 1) 87) by lia.
  assert (H2 : 0 <= (i + 1) mod 87 < 87) by (apply Z.mod_pos_bound; lia).
  destruct (ConstantsFacts.array_get_in_range readingPlan i) as (x & Hx & Hx'); [done|].
  destruct (ConstantsFacts.array_get_in_range readingPlan ((i + 1) mod 87))
    as (y & Hy & Hy'); [done|].
  exists x, y. by rewrite Hx, Hy.
Qed.

Lemma daily_reading_row makeLocalDate setHours0 date language :
  let r := elapsedDays makeLocalDate setHours0 date mod 87 in
  r < 43 ->
  exists schedule first second,
    getFullSchedule language = Returned schedule
    /\ getDailyReading makeLocalDate setHours0 date language
       = Some ({| book := localized (rp_book first) language; chapter := rp_chapter first |},
               {| book := localized (rp_book second) language; chapter := rp_chapter second |})
    /\ schedule !! Z.to_nat r
       = Some {| day := r + 1; reading := readingText language first (Some second) |}.
Proof.
  intros r Hr.
  assert (Hr0 : 0 <= r < 87) by (apply Z.mod_pos_bound; lia).
  destruct (getFullScheduleOf_spec readingPlan language) as (schedule & E & _ & Hrows).
  rewrite getDailyReading_reading_at.
  assert (Hi : (elapsedDays makeLocalDate setHours0 date * 2) mod 87 = r * 2).
  { unfold r. rewrite Z.mul_mod by lia. rewrite (Z.mod_small 2 87) by lia.
    fold r. apply Z.mod_small. lia. }
  rewrite Hi.
  destruct (reading_at_items (r * 2) language) as (first & second & Hfirst & Hsecond & ->); [lia|].
  rewrite Z.mod_small in Hsecond by lia.
  exists schedule, first, second. split; [exact E|]. split; [done|].
  replace (Z.to_nat (r * 2)) with (2 * Z.to_nat r)%nat in Hfirst by lia.
  replace (Z.to_nat (r * 2 + 1)) with (2 * Z.to_nat r + 1)%nat in Hsecond by lia.
  rewrite (Hrows _ _ Hfirst), Hsecond. do 3 f_equal. lia.
Qed.

(** X3. During the first 43 days of a cycle of 87 days the row of the
    schedule whose number is the day of the cycle shows the two chapters that
    [getDailyReading] serves on that day. *)
Theorem schedule_shows_daily_reading makeLocalDate setHours0 date language :
  let r := elapsedDays makeLocalDate setHours0 date mod 87 in
  r < 43 ->
  exists schedule first second,
    getFullSchedule language = Returned schedule
    /\ getDailyReading makeLocalDate setHours0 date language
       = Some ({| book := localized (rp_book first) language; chapter := rp_chapter first |},
               {| book := localized (rp_book second) language; chapter := rp_chapter second |})
    /\ schedule !! Z.to_nat r
       = Some {| day := r + 1; reading := readingText language first (Some second) |}.
Proof. apply daily_reading_row. Qed.

Lemma append_assoc_string (a b c : string) : (a +:+ b) +:+ c = a +:+ (b +:+ c).
Proof.
  induction a as [|x a IH]; [done|].
  change (String x ((a +:+ b) +:+ c) = String x (a +:+ (b +:+ c))). by f_equal.
Qed.

Lemma append_empty_r (a : string) : a +:+ "" = a.
Proof.
  induction a as [|x a IH]; [done|].
  change (String x (a +:+ "") = String x a). by f_equal.
Qed.

Lemma readingRef_readingText language first second :
  readingRef ({| book := localized (rp_book first) language; chapter := rp_chapter first |},
              {| book := localized (rp_book second) language; chapter := rp_chapter second |})
    language
  = readingText language first (Some second)
  <-> localized (rp_book first) language = localized (rp_book second) language.
Proof.
  unfold readingRef, readingText. cbn [fst snd book chapter].
  destruct (String.eqb_spec (localized (rp_book first) language)
              (localized (rp_book second) language)) as [Heq|Hne].
  - split; [done|]. intros _.
    destruct language; [done|]. rewrite decide_False by done.
    by rewrite append_empty_r.
  - split; [|done]. intros H. exfalso.
    destruct language.
    + rewrite !decide_True in H by done. rewrite !append_assoc_string in H.
      do 3 apply String.app_inj in H. discriminate H.
    + rewrite !decide_False in H by done. rewrite !append_assoc_string in H.
      do 3 apply String.app_inj in H. discriminate H.
Qed.

(** X29. During the first 43 days of a cycle, the reference that the
    header of the application shows is the text of the day's row of the
    schedule exactly when the two chapters of the day are of the same book;
    when they are not, the header gives the name of the first book to both
    chapters. *)
Theorem readingRef_matches_schedule makeLocalDate setHours0 date language :
  let r := elapsedDays makeLocalDate setHours0 date mod 87 in
  r < 43 ->
  exists schedule dailyReading row,
    getFullSchedule language = Returned schedule
    /\ getDailyReading makeLocalDate setHours0 date language = Some dailyReading
    /\ schedule !! Z.to_nat r = Some row
    /\ day row = r + 1
    /\ (readingRef dailyReading language = reading row
        <-> book (fst dailyReading) = book (snd dailyReading))
    /\ readingRef dailyReading language
       = book (fst dailyReading) +:+ " " +:+ pretty (chapter (fst dailyReading)) +:+ "-"
         +:+ pretty (chapter (snd dailyReading)) +:+ (if decide (language = ko) then "장" else "").
Proof.
  intros r Hr.
  destruct (daily_reading_row makeLocalDate setHours0 date language Hr)
    as (schedule & first & second & E & Hdaily & Hrow).
  eexists schedule, _, _. split; [exact E|]. split; [exact Hdaily|]. split; [exact Hrow|].
  split; [done|]. split; [|done]. apply readingRef_readingText.
Qed.

(** In UTC, August 1, 2024 is day 6 of the schedule: 1 Thessalonians 5 and
    2 Thessalonians 1. *)
Lemma readingRef_matches_schedule_witness :
  exists schedule dailyReading row,
    getFullSchedule en = Returned schedule
    /\ getDailyReading utc_makeLocalDate utc_setHours0 1722470400000 en = Some dailyReading
    /\ schedule !! 5%nat = Some row
    /\ reading row = "1 Thessalonians 5 & 2 Thessalonians 1"
    /\ readingRef dailyReading en = "1 Thessalonians 5-1".
Proof.
  destruct (readingRef_matches_schedule utc_makeLocalDate utc_setHours0 1722470400000 en)
    as (schedule & dailyReading & row & E & Hdaily & Hrow & _ & _ & Href); [reflexivity|].
  exists schedule, dailyReading, row. split; [exact E|]. split; [exact Hdaily|].
  split; [exact Hrow|].
  assert (Hs : exists s, getFullSchedule en = Returned s /\ s = schedule) by eauto.
  destruct Hs as (s & Es & <-).
  vm_compute in Es. injection Es as <-.
  vm_compute in Hrow. injection Hrow as <-.
  vm_compute in Hdaily. injection Hdaily as <-.
  split; reflexivity.
Defined.

(** In UTC, July 30, 2024 is day 4 of the schedule. *)
Lemma schedule_shows_daily_reading_witness :
  exists schedule first second,
    getFullSchedule en = Returned schedule
    /\ getDailyReading utc_makeLocalDate utc_setHours0 (1722297600000 + 43200000) en
       = Some ({| book := localized (rp_book first) en; chapter := rp_chapter first |},
               {| book := localized (rp_book second) en; chapter := rp_chapter second |})
    /\ schedule !! Z.to_nat 3
       = Some {| day := 3 + 1; reading := readingText en first (Some second) |}.
Proof.
  apply (schedule_shows_daily_reading utc_makeLocalDate utc_setHours0
           (1722297600000 + 43200000) en).
  reflexivity.
Defined.

Lemma currentDay_at_ok language i : 0 <= i < 87 -> currentDay_at i language = true.
Proof.
  intros Hi.
  assert (H : forallb (fun i => currentDay_at i language) (seqZ 0 87) = true)
    by (destruct language; vm_compute; reflexivity).
  by apply (forallb_seqZ _ _ i H).
Qed.

Lemma currentDay_reading_at language i :
  0 <= i < 87 ->
  exists reading, reading_at i language = Some reading /\ currentDay reading language = i / 2 + 1.
Proof.
  intros Hi. pose proof (currentDay_at_ok language i Hi) as H. unfold currentDay_at in H.
  destruct (reading_at i language) as [reading|]; [|done].
  exists reading. split; [done|]. lia.
Qed.

(** X4. The day number that the reading component computes for the reading
    of a date lies between 1 and 44, the number of days of the schedule. It
    is the day of the cycle of 87 days during its first 44 days, and that day
    less 44 afterwards. *)
Theorem currentDay_of_daily_reading makeLocalDate setHours0 date language :
  let r := elapsedDays makeLocalDate setHours0 date mod 87 in
  exists reading,
    getDailyReading makeLocalDate setHours0 date language = Some reading
    /\ currentDay reading language = (if r <? 44 then r + 1 else r + 1 - 44)
    /\ 1 <= currentDay reading language <= totalDays.
Proof.
  intros r.
  assert (Hr0 : 0 <= r < 87) by (apply Z.mod_pos_bound; lia).
  rewrite getDailyReading_reading_at.
  set (i := (elapsedDays makeLocalDate setHours0 date * 2) mod 87).
  assert (Hi : i = if r <? 44 then r * 2 else r * 2 - 87).
  { unfold i, r. rewrite Z.mul_mod by lia. rewrite (Z.mod_small 2 87) by lia. fold r.
    destruct (Z.ltb_spec r 44).
    - apply Z.mod_small. lia.
    - symmetry. apply Z.mod_unique with (q := 1); lia. }
  destruct (currentDay_reading_at language i) as (reading & -> & Hday).
  { destruct (Z.ltb_spec r 44); lia. }
  exists reading. split; [done|]. rewrite Hday, Hi.
  change totalDays with 44.
  destruct (Z.ltb_spec r 44); Z.div_mod_to_equations; lia.
Qed.

(** X5. Two dates 44 days apart, the earlier one among the first 43 days of
    a cycle, have different readings and the same day number: what the
    component stores under the day number of the one (archive, meditation
    status), it stores under that of the other. *)
Theorem currentDay_collision makeLocalDate setHours0 date date' language :
  elapsedDays makeLocalDate setHours0 date mod 87 < 43 ->
  elapsedDays makeLocalDate setHours0 date'
  = elapsedDays makeLocalDate setHours0 date + 44 ->
  exists reading reading',
    getDailyReading makeLocalDate setHours0 date language = Some reading
    /\ getDailyReading makeLocalDate setHours0 date' language = Some reading'
    /\ reading <> reading'
    /\ currentDay reading language = currentDay reading' language.
Proof.
  intros Hr Hd'.
  set (d := elapsedDays makeLocalDate setHours0 date) in *.
  assert (Hr0 : 0 <= d mod 87 < 87) by (apply Z.mod_pos_bound; lia).
  rewrite !getDailyReading_reading_at. rewrite Hd'. fold d.
  assert (Hi : (d * 2) mod 87 = d mod 87 * 2).
  { rewrite Z.mul_mod by lia. rewrite (Z.mod_small 2 87) by lia. apply Z.mod_small. lia. }
  assert (Hi' : ((d + 44) * 2) mod 87 = d mod 87 * 2 + 1).
  { replace ((d + 44) * 2) with (d * 2 + 1 + 1 * 87) by lia.
    rewrite Z_mod_plus_full. rewrite <- Z.add_mod_idemp_l by lia. rewrite Hi.
    apply Z.mod_small. lia. }
  rewrite Hi, Hi'.
  destruct (currentDay_reading_at language (d mod 87 * 2)) as (reading & E & Hday); [lia|].
  destruct (currentDay_reading_at language (d mod 87 * 2 + 1)) as (reading' & E' & Hday'); [lia|].
  exists reading, reading'. split; [done|]. split; [done|]. split.
  - intros ->. rewrite <- E' in E. apply reading_at_inj in E; lia.
  - rewrite Hday, Hday'. Z.div_mod_to_equations. lia.
Qed.

(** In UTC, July 28 and September 10, 2024 are the days 2 and 46. *)
Lemma currentDay_collision_witness :
  exists reading reading',
    getDailyReading utc_makeLocalDate utc_setHours0 1722124800000 en = Some reading
    /\ getDailyReading utc_makeLocalDate utc_setHours0 1725926400000 en = Some reading'
    /\ reading <> reading'
    /\ currentDay reading en = currentDay reading' en.
Proof.
  apply (currentDay_collision utc_makeLocalDate utc_setHours0 1722124800000 1725926400000 en);
    reflexivity.
Defined.

End ScheduleFacts.

(** ** The archive of the readings *)

Module ReadingArchiveFacts.
Import Gemini Browser Types SyncService Chain BibleReading ReadingArchive.

Section Facts.

Context (env : Env).
Context {JSON_status : JSON MeditationRecord}.
Context {JSON_archive : JSON ArchivedReadings}.

Lemma read_or_stored_value {A} `{JSON A} key (fallback : A) w :
  read_or key fallback w
  = (match stored key fallback w with Some x => Returned x | None => Thrown SyntaxError end, w).
Proof.
  unfold read_or, stored, bind, getItem.
  destruct (localStorage w !! key) as [data|]; cbn [truthy_opt template_arg]; [|done].
  destruct (truthy data); [|done]. unfold JSON_parse_M. by destruct (JSON_parse data).
Qed.

Lemma stored_archive w :
  stored "archived-readings" (∅ : ArchivedReadings) w = archived_readings w.
Proof. reflexivity. Qed.

Context (reading : Constants.DailyReading) (language : Language).

Lemma handleCompleteReading_guard now w s :
  truthy (passage (fst s)) && truthy (meditationGuide (fst s)) = false ->
  handleCompleteReading env reading language now (w, s) = (Returned tt, (w, s)).
Proof.
  intros H. unfold handleCompleteReading, bind, getState. cbn [fst snd].
  rewrite <- negb_andb, H. done.
Qed.

Lemma handleCompleteReading_not_saved now w s e w1 :
  truthy (passage (fst s)) && truthy (meditationGuide (fst s)) = true ->
  saveArchivedReading env (Schedule.currentDay reading language)
    (dataToArchive reading language (fst s) now) w = (Thrown e, w1) ->
  handleCompleteReading env reading language now (w, s)
  = (Returned tt, (w1, set_isSaving true s)).
Proof.
  intros H E. unfold handleCompleteReading, bind, getState, setState, try_catch, lift, ret.
  cbn [fst snd]. rewrite <- negb_andb, H. cbn [negb fst snd]. by rewrite E.
Qed.

Lemma handleCompleteReading_saved now w st a w1 :
  truthy (passage st) && truthy (meditationGuide st) = true ->
  let day := Schedule.currentDay reading language in
  let data := dataToArchive reading language st now in
  saveArchivedReading env day data w = (Returned tt, w1) ->
  let a' := {| isSaving := true; archivedReadings := <[day := data]> (archivedReadings a) |} in
  handleCompleteReading env reading language now (w, (st, a))
  = if decide (meditationStatus st !! day = Some good)
    then (Returned tt, (w1, (st, a')))
    else (Returned tt,
          (fst (snd (handleStatusChange env day good (w1, st))),
           (snd (snd (handleStatusChange env day good (w1, st))), a'))).
Proof.
  intros H day data E a'.
  unfold handleCompleteReading, bind, getState, setState, try_catch, lift, ret.
  cbn [fst snd]. rewrite <- negb_andb, H. cbn [negb fst snd].
  fold day. fold data. rewrite E. cbn [fst snd].
  unfold update_archivedReadings, set_isSaving. cbn [fst snd isSaving archivedReadings].
  fold a'. destruct (decide (meditationStatus st !! day = Some good)); [done|].
  unfold on_reading. cbn [fst snd].
  rewrite (BibleReadingFacts.handleStatusChange_run env day good w1 st). done.
Qed.

Lemma handleStatusChange_good day w st :
  meditationStatus st !! day <> Some good ->
  exists w' st',
    handleStatusChange env day good (w, st) = (Returned tt, (w', st'))
    /\ meditationStatus st' = <[day := good]> (meditationStatus st)
    /\ (forall key, key <> "meditation-status" ->
           localStorage w' !! key = localStorage w !! key).
Proof.
  intros Hne. rewrite (BibleReadingFacts.handleStatusChange_run env day good w st).
  cbv zeta. rewrite decide_False by done.
  eexists _, _. split; [done|]. split; [done|].
  intros key Hkey.
  destruct (storage_accepts env (localStorage w) "meditation-status" _); [|done].
  cbn [localStorage]. by apply lookup_insert_ne.
Qed.

(** Before the statuses are loaded the component holds none, and a change
    of status writes the day of the click alone over whatever the store
    holds. *)
Lemma handleStatusChange_not_loaded day status w st :
  meditationStatus st = ∅ ->
  storage_accepts env (localStorage w) "meditation-status"
    (JSON_stringify ({[ day := status ]} : MeditationRecord)) = true ->
  exists w' st',
    handleStatusChange env day status (w, st) = (Returned tt, (w', st'))
    /\ meditationStatus st' = {[ day := status ]}
    /\ localStorage w' !! "meditation-status"
       = Some (JSON_stringify ({[ day := status ]} : MeditationRecord)).
Proof.
  intros Hempty Haccept.
  rewrite (BibleReadingFacts.handleStatusChange_run env day status w st).
  cbv zeta. rewrite Hempty. rewrite decide_False by (by rewrite lookup_empty).
  rewrite insert_empty, Haccept.
  eexists _, _. split; [done|]. split; [done|]. cbn [localStorage]. apply lookup_insert_eq.
Qed.

(** X7. Whatever the storage holds and the browser accepts,
    [handleCompleteReading] returns. Either it leaves the storage, the
    reading and the archived readings of the component as they were, or the
    stored archive parsed and now holds the record of the reading under its
    day number, the component holds it too, and the status of that day is
    [good]: a day is never marked without being archived, and a status [good]
    is never toggled off. *)
Theorem handleCompleteReading_marks_only_archived now w st a :
  let day := Schedule.currentDay reading language in
  let data := dataToArchive reading language st now in
  exists w' st' a',
    handleCompleteReading env reading language now (w, (st, a))
    = (Returned tt, (w', (st', a')))
    /\ ((localStorage w' = localStorage w /\ st' = st
         /\ archivedReadings a' = archivedReadings a)
        \/ (exists before,
              archived_readings w = Some before
              /\ localStorage w' !! "archived-readings"
                 = Some (JSON_stringify (<[day := data]> before))
              /\ archivedReadings a' = <[day := data]> (archivedReadings a)
              /\ meditationStatus st' !! day = Some good)).
Proof.
  intros day data.
  destruct (truthy (passage st) && truthy (meditationGuide st)) eqn:Hguard.
  2: { rewrite handleCompleteReading_guard by done. eexists _, _, _. split; [done|]. by left. }
  destruct (archived_readings w) as [before|] eqn:Hbefore.
  2: { rewrite (handleCompleteReading_not_saved now w (st, a) SyntaxError w Hguard)
         by (by apply SyncFacts.saveArchivedReading_corrupt).
       eexists _, _, _. split; [done|]. by left. }
  destruct (storage_accepts env (localStorage w) "archived-readings"
              (JSON_stringify (<[day := data]> before))) eqn:Haccept.
  2: { rewrite (handleCompleteReading_not_saved now w (st, a) QuotaExceededError
                  (after w [Sleep MOCK_LATENCY]) Hguard)
         by (by apply (SyncFacts.saveArchivedReading_refused _ _ _ _ before)).
       eexists _, _, _. split; [done|]. by left. }
  rewrite (handleCompleteReading_saved now w st a _ Hguard
             (SyncFacts.saveArchivedReading_stored env day data w before Hbefore Haccept)).
  fold day. fold data.
  destruct (decide (meditationStatus st !! day = Some good)) as [Hgood|Hgood].
  - eexists _, _, _. split; [done|]. right. exists before.
    split_and!; [done| |done|done]. cbn [localStorage]. apply lookup_insert_eq.
  - match goal with |- context [handleStatusChange env day good (?w1, st)] =>
      destruct (handleStatusChange_good day w1 st Hgood) as (w' & st' & -> & Hst' & Hw')
    end.
    cbn [fst snd]. eexists _, _, _. split; [done|]. right. exists before.
    split_and!; [done| |done|].
    + rewrite Hw' by done. cbn [localStorage]. apply lookup_insert_eq.
    + rewrite Hst'. apply lookup_insert_eq.
Qed.

Context {JSON_archive_laws : JSONLaws ArchivedReadings}.
Context {JSON_status_laws : JSONLaws MeditationRecord}.

Lemma stored_insert {A} `{JSON A} `{!JSONLaws A} key (fallback x : A) t m :
  stored key fallback {| trace := t; localStorage := <[key := JSON_stringify x]> m |} = Some x.
Proof.
  unfold stored. cbn [localStorage]. rewrite lookup_insert_eq.
  by rewrite JSON_truthy, JSON_roundtrip.
Qed.

Lemma stored_insert_ne {A} `{JSON A} key key' (fallback : A) value t w :
  key <> key' ->
  stored key fallback {| trace := t; localStorage := <[key' := value]> (localStorage w) |}
  = stored key fallback w.
Proof. intros Hne. unfold stored. cbn [localStorage]. by rewrite lookup_insert_ne. Qed.

Lemma handleCompleteReading_stores now w st a before recorded :
  truthy (passage st) = true ->
  truthy (meditationGuide st) = true ->
  archived_readings w = Some before ->
  stored "meditation-status" (∅ : MeditationRecord) w = Some recorded ->
  (forall s k v, storage_accepts env s k v = true) ->
  let day := Schedule.currentDay reading language in
  let data := dataToArchive reading language st now in
  exists w' st',
    handleCompleteReading env reading language now (w, (st, a))
    = (Returned tt,
       (w', (st', {| isSaving := true;
                     archivedReadings := <[day := data]> (archivedReadings a) |})))
    /\ archived_readings w' = Some (<[day := data]> before)
    /\ meditationStatus st' = <[day := good]> (meditationStatus st)
    /\ stored "meditation-status" (∅ : MeditationRecord) w'
       = Some (if decide (meditationStatus st !! day = Some good)
               then recorded else <[day := good]> (meditationStatus st)).
Proof.
  intros Hp Hg Hbefore Hrecorded Haccept day data.
  assert (Hguard : truthy (passage st) && truthy (meditationGuide st) = true)
    by (by rewrite Hp, Hg).
  rewrite (handleCompleteReading_saved now w st a _ Hguard
             (SyncFacts.saveArchivedReading_stored env day data w before Hbefore
                (Haccept _ _ _))).
  fold day. fold data.
  destruct (decide (meditationStatus st !! day = Some good)) as [Hgood|Hgood].
  - eexists _, _. split; [done|]. split_and!.
    + apply SyncFacts.archived_readings_insert.
    + by rewrite insert_id.
    + by rewrite stored_insert_ne.
  - rewrite (BibleReadingFacts.handleStatusChange_run env day good _ st).
    cbv zeta. rewrite decide_False by done. rewrite Haccept. cbn [fst snd].
    eexists _, _. split; [done|]. split_and!.
    + unfold archived_readings. cbn [localStorage].
      rewrite lookup_insert_ne by done. rewrite lookup_insert_eq.
      by rewrite JSON_truthy, JSON_roundtrip.
    + done.
    + apply stored_insert.
Qed.


Lemma fetchInitialData_run w st a :
  fetchInitialData (w, (st, a))
  = (Returned tt,
     (match stored "meditation-status" (∅ : MeditationRecord) w, archived_readings w with
      | Some _, Some _ => after w [Sleep MOCK_LATENCY; Sleep MOCK_LATENCY]
      | None, None => w
      | _, _ => after w [Sleep MOCK_LATENCY]
      end,
      match stored "meditation-status" (∅ : MeditationRecord) w, archived_readings w with
      | Some status, Some archives =>
          (set_meditationStatus status st,
           {| isSaving := isSaving a; archivedReadings := archives |})
      | _, _ => (st, a)
      end)).
Proof.
  unfold fetchInitialData, getMeditationStatus, getArchivedReadings. cbn [fst snd].
  unfold bind at 1. rewrite read_or_stored_value.
  destruct (stored "meditation-status" ∅ w) as [status|].
  - unfold simulateNetworkRequest, bind at 1, delay, ret.
    unfold bind at 1. rewrite read_or_stored_value. rewrite stored_archive.
    unfold archived_readings at 1. cbn [localStorage]. fold (archived_readings w).
    destruct (archived_readings w) as [archives|]; [|done].
    unfold bind, after. cbn [trace localStorage]. by rewrite <- app_assoc.
  - unfold bind at 1. rewrite read_or_stored_value. rewrite stored_archive.
    destruct (archived_readings w) as [archives|]; done.
Qed.

(** [fetchInitialData] is its two steps, one after the other. *)
Lemma fetchInitialData_two_steps w s :
  fetchInitialData (w, s) = initialData_settled (initialData_read w) (w, s).
Proof.
  destruct s as [st a]. rewrite fetchInitialData_run.
  unfold initialData_settled, initialData_read. rewrite !read_or_stored_value. cbn [fst snd].
  rewrite stored_archive.
  destruct (stored "meditation-status" ∅ w) as [status|], (archived_readings w) as [archives|];
    unfold bind, lift, delay, ret, setState, after; cbn [fst snd trace localStorage];
    try done.
  by rewrite <- app_assoc.
Qed.

Lemma clickCompleteReading_archived now w st a :
  is_Some (archivedReadings a !! Schedule.currentDay reading language) ->
  clickCompleteReading env reading language now (w, (st, a)) = (Returned tt, (w, (st, a))).
Proof.
  intros Harchived. unfold clickCompleteReading, bind, getState. cbn [fst snd].
  unfold completeButton_disabled, isTodayArchived. cbn [fst snd].
  rewrite bool_decide_eq_true_2 by done.
  by rewrite !orb_true_r, andb_false_r.
Qed.

(** X8. The first effect of the reading component shows the stored
    statuses and the stored archive when both parse, and neither of them when
    one does not: a corrupted archive also keeps the statuses from loading. It
    never throws and never writes. *)
Theorem fetchInitialData_all_or_nothing w st a :
  exists w',
    fetchInitialData (w, (st, a))
    = (Returned tt,
       (w',
        match stored "meditation-status" (∅ : MeditationRecord) w, archived_readings w with
        | Some status, Some archives =>
            (set_meditationStatus status st,
             {| isSaving := isSaving a; archivedReadings := archives |})
        | _, _ => (st, a)
        end))
    /\ localStorage w' = localStorage w.
Proof.
  unfold fetchInitialData, getMeditationStatus, getArchivedReadings. cbn [fst snd].
  unfold bind at 1. rewrite read_or_stored_value.
  destruct (stored "meditation-status" ∅ w) as [status|].
  - unfold simulateNetworkRequest, bind at 1, delay, ret.
    unfold bind at 1. rewrite read_or_stored_value. rewrite stored_archive.
    unfold archived_readings at 1. cbn [localStorage]. fold (archived_readings w).
    destruct (archived_readings w) as [archives|]; by eexists.
  - unfold bind at 1. rewrite read_or_stored_value. rewrite stored_archive.
    destruct (archived_readings w) as [archives|]; by eexists.
Qed.

End Facts.

Section Archived.

Context (env : Env).
Context {JSON_status : JSON MeditationRecord}.
Context {JSON_archive : JSON ArchivedReadings}.
Context {JSON_archive_laws : JSONLaws ArchivedReadings}.
Context {JSON_status_laws : JSONLaws MeditationRecord}.

(** X9. A day that is archived is not archived again through the button.
    Once [handleCompleteReading] has stored the record of a reading, the
    button that runs it is disabled for every reading with the same day
    number, as the readings of two dates 44 days apart have: in the same
    visit, whatever [isSaving] is then, and in a later visit, once the first
    effect of the component has loaded the archive. A click there does
    nothing, and the stored record stays the one of the first reading. *)
Theorem archived_day_is_not_archived_again
    reading language reading' language' now now' w st a before recorded :
  Schedule.currentDay reading language = Schedule.currentDay reading' language' ->
  truthy (passage st) = true -> truthy (meditationGuide st) = true ->
  archived_readings w = Some before ->
  stored "meditation-status" (∅ : MeditationRecord) w = Some recorded ->
  (forall s k v, storage_accepts env s k v = true) ->
  let day := Schedule.currentDay reading language in
  let data := dataToArchive reading language st now in
  exists w1 st1 a1,
    handleCompleteReading env reading language now (w, (st, a))
    = (Returned tt, (w1, (st1, a1)))
    /\ archived_readings w1 = Some (<[day := data]> before)
    /\ (forall st' saving,
          let shown := (st', {| isSaving := saving; archivedReadings := archivedReadings a1 |}) in
          completeButton_disabled reading' language' shown = true
          /\ clickCompleteReading env reading' language' now' (w1, shown)
             = (Returned tt, (w1, shown)))
    /\ (forall st0 a0, exists w2 st2 a2,
          fetchInitialData (w1, (st0, a0)) = (Returned tt, (w2, (st2, a2)))
          /\ localStorage w2 = localStorage w1
          /\ archivedReadings a2 !! day = Some data
          /\ forall st' saving,
               let shown :=
                 (st', {| isSaving := saving; archivedReadings := archivedReadings a2 |}) in
               completeButton_disabled reading' language' shown = true
               /\ clickCompleteReading env reading' language' now' (w2, shown)
                  = (Returned tt, (w2, shown))).
Proof.
  intros Hday Hp Hg Hbefore Hrecorded Haccept day data.
  destruct (handleCompleteReading_stores env reading language now w st a before recorded
              Hp Hg Hbefore Hrecorded Haccept) as (w1 & st1 & E1 & Hw1 & _ & Hs1).
  fold day in E1, Hw1, Hs1. fold data in E1, Hw1.
  assert (Hdisabled : forall (archives : ArchivedReadings) w' st' saving,
            archives !! day = Some data ->
            let shown := (st', {| isSaving := saving; archivedReadings := archives |}) in
            completeButton_disabled reading' language' shown = true
            /\ clickCompleteReading env reading' language' now' (w', shown)
               = (Returned tt, (w', shown))).
  { intros archives w' st' saving Harchives shown.
    assert (Hsome : is_Some (archives !! Schedule.currentDay reading' language'))
      by (rewrite <- Hday; fold day; by rewrite Harchives).
    split.
    - unfold completeButton_disabled, isTodayArchived, shown. cbn [fst snd archivedReadings].
      rewrite bool_decide_eq_true_2 by done. by rewrite orb_true_r.
    - by apply clickCompleteReading_archived. }
  eexists w1, st1, _. split; [exact E1|]. split; [exact Hw1|]. split.
  - intros st' saving. apply Hdisabled. cbn [archivedReadings]. apply lookup_insert_eq.
  - intros st0 a0. rewrite fetchInitialData_run. rewrite Hw1, Hs1.
    eexists _, _, _. split; [done|]. split; [done|]. cbn [archivedReadings].
    split; [apply lookup_insert_eq|].
    intros st' saving. apply Hdisabled. apply lookup_insert_eq.
Qed.

End Archived.

Import Examples MoreExamples.

(** The readings of the days 2 and 46 of the schedule, both day 2 for the
    component: after the first is archived, a later visit finds the button
    disabled for the second. *)
Lemma archived_day_is_not_archived_again_witness :
  let reading := ({| Constants.book := "Galatians"; Constants.chapter := 3 |},
                  {| Constants.book := "Galatians"; Constants.chapter := 4 |}) in
  let reading' := ({| Constants.book := "Galatians"; Constants.chapter := 4 |},
                   {| Constants.book := "Galatians"; Constants.chapter := 5 |}) in
  let st := set_meditationGuide "guide" (set_passage "You foolish Galatians" initial_state) in
  let st' :=
    set_isLoading false
      (set_meditationGuide "guide" (set_passage "But when the fullness" initial_state)) in
  let a := {| isSaving := false; archivedReadings := ∅ |} in
  exists w1 st1 a1 w2 st2 a2,
    handleCompleteReading (JSON_status := Codec.countable_JSON MeditationRecord)
      (JSON_archive := Codec.countable_JSON ArchivedReadings)
      env_failing reading en "2024-07-28T08:00:00.000Z" (empty_world, (st, a))
    = (Returned tt, (w1, (st1, a1)))
    /\ fetchInitialData (JSON_status := Codec.countable_JSON MeditationRecord)
         (JSON_archive := Codec.countable_JSON ArchivedReadings)
         (w1, (initial_state, a))
       = (Returned tt, (w2, (st2, a2)))
    /\ completeButton_rendered (st', a2) = true
    /\ completeButton_disabled reading' en (st', {| isSaving := false;
                                                    archivedReadings := archivedReadings a2 |})
       = true
    /\ clickCompleteReading (JSON_status := Codec.countable_JSON MeditationRecord)
         (JSON_archive := Codec.countable_JSON ArchivedReadings)
         env_failing reading' en "2024-09-10T08:00:00.000Z"
         (w2, (st', {| isSaving := false; archivedReadings := archivedReadings a2 |}))
       = (Returned tt,
          (w2, (st', {| isSaving := false; archivedReadings := archivedReadings a2 |})))
    /\ archivedReadings a2 !! 2
       = Some (dataToArchive reading en st "2024-07-28T08:00:00.000Z").
Proof.
  intros reading reading' st st' a.
  destruct (archived_day_is_not_archived_again env_failing
              (JSON_status := Codec.countable_JSON MeditationRecord)
              (JSON_archive := Codec.countable_JSON ArchivedReadings)
              reading en reading' en "2024-07-28T08:00:00.000Z" "2024-09-10T08:00:00.000Z"
              empty_world st a ∅ ∅)
    as (w1 & st1 & a1 & E1 & _ & _ & Hlater); [reflexivity..|].
  destruct (Hlater initial_state a) as (w2 & st2 & a2 & E2 & _ & Harchived & Hclick).
  destruct (Hclick st' false) as [Hdisabled Hnothing].
  exists w1, st1, a1, w2, st2, a2.
  split; [exact E1|]. split; [exact E2|]. split; [reflexivity|].
  split; [exact Hdisabled|]. split; [exact Hnothing|exact Harchived].
Defined.


(** C7. The record of meditation statuses maps days to [good], [ok] or
    [bad], and [handleStatusChange (day, s)] is meant to toggle the status of
    [day] and to leave the entry of every other day as it was. It writes the
    record of the component over the stored one, and the component shows the
    stored record only once its first effect has settled, after the latency
    of the two getters. Here the store holds [good] for day 1 and the user
    marks day 2 [ok] before that: the store then holds day 2 alone, the
    status of day 1 is lost, and when the first effect settles the component
    shows day 1 and not day 2. *)
Theorem status_change_before_load_loses_statuses :
  let mounted : Component := (initial_state, {| isSaving := false; archivedReadings := ∅ |}) in
  let pending :=
    initialData_read (JSON_status := Codec.countable_JSON MeditationRecord)
      (JSON_archive := Codec.countable_JSON ArchivedReadings) world_with_status in
  let clicked :=
    snd (on_reading
           (handleStatusChange (JSON_status := Codec.countable_JSON MeditationRecord)
              env_failing 2 ok)
           (world_with_status, mounted)) in
  let settled := snd (initialData_settled pending clicked) in
  stored (H := Codec.countable_JSON MeditationRecord)
    "meditation-status" (∅ : MeditationRecord) world_with_status = Some {[ 1 := good ]}
  /\ meditationStatus (fst (snd clicked)) = {[ 2 := ok ]}
  /\ stored (H := Codec.countable_JSON MeditationRecord)
       "meditation-status" (∅ : MeditationRecord) (fst clicked) = Some {[ 2 := ok ]}
  /\ ({[ 2 := ok ]} : MeditationRecord) !! 1 = None
  /\ meditationStatus (fst (snd settled)) = {[ 1 := good ]}
  /\ stored (H := Codec.countable_JSON MeditationRecord)
       "meditation-status" (∅ : MeditationRecord) (fst settled) = Some {[ 2 := ok ]}.
Proof. vm_compute. split_and!; reflexivity. Qed.

End ReadingArchiveFacts.

(** ** Loading the reading: failures and the cache *)

Module ReadingCacheFacts.
Import Gemini Browser Types SyncService Chain BibleReading.

Section Facts.

Context (env : Env).
Context {JSON_ComprehensiveData : JSON ComprehensiveData}.
Context {JSON_cache : JSON CachedReadingData}.

(** The message that [fetchFromApi] inspects, and the text it shows. *)
Lemma fetchFromApi_failure reading l date w st e w1 :
  generateComprehensiveReadingContent env (Constants.book (fst reading))
    (Constants.chapter (fst reading)) (Constants.chapter (snd reading)) l w
  = (Thrown e, w1) ->
  let errorMessage := if isError e then message e else json e in
  fetchFromApi env reading l date (w, st)
  = (Returned tt,
     (w1,
      set_isImageLoading false
        (set_isLoading false
           (set_error
              (Some (if includes errorMessage "429" || includes errorMessage "RESOURCE_EXHAUSTED"
                     then t_apiQuotaExceeded l else t_contentError l))
              (set_contextImageUrl None (set_error None (set_isLoading true st))))))).
Proof.
  intros E errorMessage.
  unfold fetchFromApi, bind, try_catch, lift, setState, ret. cbn [fst snd]. rewrite E.
  fold errorMessage.
  by destruct (includes errorMessage "429" || includes errorMessage "RESOURCE_EXHAUSTED").
Qed.

(** The generation of the text throws in four ways, after at most its one
    call. *)
Lemma generateComprehensiveReadingContent_throws reading l w e w1 :
  generateComprehensiveReadingContent env (Constants.book (fst reading))
    (Constants.chapter (fst reading)) (Constants.chapter (snd reading)) l w
  = (Thrown e, w1) ->
  w1 = w
  \/ exists o, w1 = after w [ModelCall (reading_request reading l) o].
Proof.
  unfold generateComprehensiveReadingContent, try_catch, bind, getAiClient, generateContent,
    JSON_parse_M, throw, ret.
  destruct (truthy_opt (VITE_GEMINI_API_KEY env)).
  - fold (reading_request reading l).
    destruct (service env (length (calls (trace w))) (reading_request reading l))
      as [response|e'].
    + destruct (truthy_opt (option_map trim (text response))).
      * destruct (JSON_parse (template_arg (text response))); [done|].
        intros [= <- <-]. right. by eexists.
      * intros [= <- <-]. right. by eexists.
    + intros [= <- <-]. right. by eexists.
  - intros [= <- <-]. by left.
Qed.

(** X10. When the cache holds nothing for the day and the generation of
    the text throws, [fetchContent] still returns. It shows the quota message
    when the message of the error (its serialization, for a value that is no
    [Error]) contains 429 or RESOURCE_EXHAUSTED, and the general content
    error otherwise; both loading flags are off, the passage stays as it was,
    nothing is written to the storage and no image is asked for. *)
Theorem fetchContent_failure reading l date w st e w1 :
  truthy_opt (localStorage w !! cacheKey date l) = false ->
  generateComprehensiveReadingContent env (Constants.book (fst reading))
    (Constants.chapter (fst reading)) (Constants.chapter (snd reading)) l w
  = (Thrown e, w1) ->
  let errorMessage := if isError e then message e else json e in
  exists st',
    fetchContent env reading l date (w, st) = (Returned tt, (w1, st'))
    /\ error st'
       = Some (if includes errorMessage "429" || includes errorMessage "RESOURCE_EXHAUSTED"
               then t_apiQuotaExceeded l else t_contentError l)
    /\ isLoading st' = false /\ isImageLoading st' = false
    /\ passage st' = passage st /\ contextImageUrl st' = None
    /\ localStorage w1 = localStorage w
    /\ (w1 = w \/ exists o, w1 = after w [ModelCall (reading_request reading l) o]).
Proof.
  intros Hmiss E errorMessage. unfold fetchContent.
  rewrite (bind_Returned _ _ _ _ _ (BibleReadingFacts.loadFromCache_miss env l date w st Hmiss)).
  rewrite (fetchFromApi_failure reading l date w st e w1 E). fold errorMessage.
  eexists. split; [done|]. split_and!; try done.
  - by destruct (generateComprehensiveReadingContent_throws reading l w e w1 E)
      as [->|[o ->]].
  - by apply (generateComprehensiveReadingContent_throws reading l w e).
Qed.

(** A cache item that does not parse is removed, and the text generated. *)
Lemma fetchContent_corrupt reading l date w st item :
  localStorage w !! cacheKey date l = Some item ->
  truthy item = true ->
  JSON_parse (A := CachedReadingData) item = None ->
  fetchContent env reading l date (w, st)
  = fetchFromApi env reading l date
      ({| trace := trace w; localStorage := delete (cacheKey date l) (localStorage w) |}, st).
Proof.
  intros Hk Ht Hp. unfold fetchContent.
  by rewrite (bind_Returned _ _ _ _ _
                (BibleReadingFacts.loadFromCache_corrupt env l date w st item Hk Ht Hp)).
Qed.

(** X11. A cache item that does not parse never survives a load: after
    [fetchContent] the key of the day holds the record of freshly generated
    data, or nothing when the generation failed or the write was refused; the
    other keys of the storage are untouched. *)
Theorem fetchContent_heals_corrupt_cache reading l date w st item :
  localStorage w !! cacheKey date l = Some item ->
  truthy item = true ->
  JSON_parse (A := CachedReadingData) item = None ->
  exists w' st',
    fetchContent env reading l date (w, st) = (Returned tt, (w', st'))
    /\ (localStorage w' !! cacheKey date l = None
        \/ exists data,
             localStorage w' !! cacheKey date l = Some (JSON_stringify (dataToCache data)))
    /\ (forall key, key <> cacheKey date l -> localStorage w' !! key = localStorage w !! key).
Proof.
  intros Hk Ht Hp. rewrite (fetchContent_corrupt reading l date w st item Hk Ht Hp).
  destruct (BibleReadingFacts.fetchFromApi_run env reading l date
              {| trace := trace w; localStorage := delete (cacheKey date l) (localStorage w) |}
              st) as (w' & st' & -> & Hs).
  exists w', st'. split; [done|]. cbn [localStorage] in Hs.
  destruct Hs as [->|[data ->]].
  - split; [left; apply lookup_delete_eq|].
    intros key Hkey. by apply lookup_delete_ne.
  - split; [right; exists data; apply lookup_insert_eq|].
    intros key Hkey. rewrite lookup_insert_ne by done. by apply lookup_delete_ne.
Qed.

Context {JSON_cache_laws : JSONLaws CachedReadingData}.

(** X12. What a first load generates and caches, a second load of the same
    date and language shows, whatever reading it is asked for and whatever
    the component showed in between, without a call for the text of the
    reading. *)
Theorem second_load_shows_first reading l date w st response t data reading2 st2 :
  truthy_opt (localStorage w !! cacheKey date l) = false ->
  truthy_opt (VITE_GEMINI_API_KEY env) = true ->
  next_outcome env w (reading_request reading l) = Resolved response ->
  text response = Some t ->
  truthy (trim t) = true ->
  JSON_parse t = Some data ->
  (forall s v, storage_accepts env s (cacheKey date l) v = true) ->
  exists w1 st1 evs st',
    fetchContent env reading l date (w, st) = (Returned tt, (w1, st1))
    /\ fetchContent env reading2 l date (w1, st2) = (Returned tt, (after w1 evs, st'))
    /\ passage st' = cd_passage data
    /\ meditationGuide st' = cd_meditationGuide data
    /\ passageContext st' = cd_context data
    /\ passageIntention st' = cd_intention data
    /\ loadedPassage st' = cd_passage data
    /\ Forall (fun ev => reading_call ev = false) evs.
Proof.
  intros Hmiss Hkey Ho Htext Ht Hp Haccept. unfold fetchContent at 1.
  rewrite (bind_Returned _ _ _ _ _ (BibleReadingFacts.loadFromCache_miss env l date w st Hmiss)).
  destruct (BibleReadingFacts.fetchFromApi_success env reading l date w st response t data
              Hkey Ho Htext Ht Hp Haccept) as (r & evs1 & _ & _ & ->).
  match goal with |- context [(Returned tt, (?x, ?y)) = _] => set (w1 := x); set (st1 := y) end.
  destruct (BibleReadingFacts.fetchContent_hit env reading2 l date w1 st2
              (JSON_stringify (dataToCache data)) (dataToCache data))
    as (r2 & evs & _ & _ & Hevs & E2).
  { unfold w1. cbn [localStorage]. apply lookup_insert_eq. }
  { apply JSON_truthy. }
  { apply JSON_roundtrip. }
  exists w1, st1, evs. eexists. split; [done|]. split; [exact E2|].
  cbn [dataToCache c_imagePrompt].
  destruct (truthy (cd_imagePrompt data)).
  - destruct (BibleReadingFacts.image_settled_fields r2 (loaded (dataToCache data) st2))
      as (-> & -> & -> & -> & -> & _).
    split_and!; done.
  - split_and!; done.
Qed.

End Facts.

Import Examples MoreExamples Outcomes.

Lemma fetchContent_failure_witness :
  exists st',
    fetchContent (JSON_ComprehensiveData := Codec.countable_JSON ComprehensiveData)
      (JSON_cache := Codec.countable_JSON CachedReadingData)
      env_quota galatians_1_2 en "2024-07-27" (empty_world, initial_state)
    = (Returned tt,
       (after empty_world
          [ModelCall (reading_request galatians_1_2 en)
             (Rejected (Error "429 Too Many Requests"))], st'))
    /\ error st' = Some (t_apiQuotaExceeded en)
    /\ isLoading st' = false.
Proof.
  destruct (fetchContent_failure env_quota
              (JSON_ComprehensiveData := Codec.countable_JSON ComprehensiveData)
              (JSON_cache := Codec.countable_JSON CachedReadingData)
              galatians_1_2 en "2024-07-27" empty_world initial_state
              (Error "429 Too Many Requests")
              (after empty_world
                 [ModelCall (reading_request galatians_1_2 en)
                    (Rejected (Error "429 Too Many Requests"))]))
    as (st' & E & Herror & Hloading & _); [reflexivity..|].
  exists st'. split; [exact E|]. split; [exact Herror|exact Hloading].
Defined.

Lemma fetchContent_heals_corrupt_cache_witness :
  exists w' st',
    fetchContent (JSON_ComprehensiveData := Codec.countable_JSON ComprehensiveData)
      (JSON_cache := Codec.countable_JSON CachedReadingData)
      env_failing galatians_1_2 en "2024-07-27" (world_with_corrupt_cache, initial_state)
    = (Returned tt, (w', st'))
    /\ localStorage w' !! "other" = Some "kept".
Proof.
  destruct (fetchContent_heals_corrupt_cache env_failing
              (JSON_ComprehensiveData := Codec.countable_JSON ComprehensiveData)
              (JSON_cache := Codec.countable_JSON CachedReadingData)
              galatians_1_2 en "2024-07-27" world_with_corrupt_cache initial_state "{oops")
    as (w' & st' & E & _ & Hother); [reflexivity..|].
  exists w', st'. split; [exact E|]. by rewrite Hother.
Defined.

Lemma second_load_shows_first_witness :
  let env :=
    env_working (@JSON_stringify _ (Codec.countable_JSON ComprehensiveData) generated_data) in
  exists w1 st1 evs st',
    fetchContent (JSON_ComprehensiveData := Codec.countable_JSON ComprehensiveData)
      (JSON_cache := Codec.countable_JSON CachedReadingData)
      env galatians_1_2 en "2024-07-27" (empty_world, initial_state)
    = (Returned tt, (w1, st1))
    /\ fetchContent (JSON_ComprehensiveData := Codec.countable_JSON ComprehensiveData)
         (JSON_cache := Codec.countable_JSON CachedReadingData)
         env galatians_1_2 en "2024-07-27" (w1, initial_state)
       = (Returned tt, (after w1 evs, st'))
    /\ passage st' = "Paul, an apostle"
    /\ Forall (fun ev => reading_call ev = false) evs.
Proof.
  intros env.
  destruct (second_load_shows_first env
              (JSON_ComprehensiveData := Codec.countable_JSON ComprehensiveData)
              (JSON_cache := Codec.countable_JSON CachedReadingData)
              galatians_1_2 en "2024-07-27" empty_world initial_state
              (text_response
                 (@JSON_stringify _ (Codec.countable_JSON ComprehensiveData) generated_data))
              (@JSON_stringify _ (Codec.countable_JSON ComprehensiveData) generated_data)
              generated_data galatians_1_2 initial_state)
    as (w1 & st1 & evs & st' & E1 & E2 & Hpassage & _ & _ & _ & _ & Hevs);
    [reflexivity|reflexivity|reflexivity|reflexivity|vm_compute; reflexivity
    |apply JSON_roundtrip|reflexivity|].
  exists w1, st1, evs, st'. split_and!; done.
Defined.

End ReadingCacheFacts.

(** ** The entry points of the service and the API key *)

Module EntryPointFacts.
Import Gemini Chain Explanation Examples MoreExamples Outcomes.

Section Facts.

Context (env : Env).
Context {JSON_ComprehensiveData : JSON ComprehensiveData}.
Context {JSON_SongsResponse : JSON SongsResponse}.
Context {JSON_StoryKeywords : JSON StoryKeywords}.

Lemma getAiClient_run w :
  getAiClient env w
  = if truthy_opt (VITE_GEMINI_API_KEY env) then (Returned tt, w)
    else (Thrown missing_key_error, w).
Proof. unfold getAiClient. by destruct (truthy_opt (VITE_GEMINI_API_KEY env)). Qed.

Lemma generateContent_run r w :
  generateContent env r w
  = (match next_outcome env w r with
     | Resolved response => Returned response
     | Rejected e => Thrown e
     end,
     after w [ModelCall r (next_outcome env w r)]).
Proof.
  unfold generateContent, next_outcome, after.
  by destruct (service env (length (calls (trace w))) r).
Qed.

(** An entry point that returns the text of the response, or [fallback]
    when the call throws. *)
Lemma text_entry_point_run request fallback w :
  (let* _ := getAiClient env in
   try_catch
     (let* response := generateContent env request in ret (text response))
     (fun error => ret (Some fallback))) w
  = if truthy_opt (VITE_GEMINI_API_KEY env)
    then (Returned (text_or fallback (next_outcome env w request)),
          after w [ModelCall request (next_outcome env w request)])
    else (Thrown missing_key_error, w).
Proof.
  unfold bind at 1. rewrite getAiClient_run.
  destruct (truthy_opt (VITE_GEMINI_API_KEY env)); [|done].
  unfold try_catch, bind. rewrite generateContent_run.
  by destruct (next_outcome env w request).
Qed.

Lemma generatePrayerGuide_run passage l w :
  generatePrayerGuide env passage l w
  = if truthy_opt (VITE_GEMINI_API_KEY env)
    then (Returned (text_or (prayerGuideError_text l)
                      (next_outcome env w (prayerGuide_request passage l))),
          after w [ModelCall (prayerGuide_request passage l)
                     (next_outcome env w (prayerGuide_request passage l))])
    else (Thrown missing_key_error, w).
Proof.
  destruct (GeminiFacts.error_texts l) as (<- & _ & _). apply text_entry_point_run.
Qed.

Lemma generateSermonOutline_run passage l w :
  generateSermonOutline env passage l w
  = if truthy_opt (VITE_GEMINI_API_KEY env)
    then (Returned (text_or (sermonOutlineError_text l)
                      (next_outcome env w (sermonOutline_request passage l))),
          after w [ModelCall (sermonOutline_request passage l)
                     (next_outcome env w (sermonOutline_request passage l))])
    else (Thrown missing_key_error, w).
Proof.
  destruct (GeminiFacts.error_texts l) as (_ & <- & _). apply text_entry_point_run.
Qed.

Lemma generateEvangelismTips_run passage l w :
  generateEvangelismTips env passage l w
  = if truthy_opt (VITE_GEMINI_API_KEY env)
    then (Returned (text_or (evangelismTipsError_text l)
                      (next_outcome env w (evangelismTips_request passage l))),
          after w [ModelCall (evangelismTips_request passage l)
                     (next_outcome env w (evangelismTips_request passage l))])
    else (Thrown missing_key_error, w).
Proof.
  destruct (GeminiFacts.error_texts l) as (_ & _ & <-). apply text_entry_point_run.
Qed.

Lemma explainPassageSelection_run selectedText passageContext l w :
  explainPassageSelection env selectedText passageContext l w
  = if truthy_opt (VITE_GEMINI_API_KEY env)
    then (Returned (text_or (p_explainSelectionError l)
                      (next_outcome env w (explainSelection_request selectedText passageContext l))),
          after w [ModelCall (explainSelection_request selectedText passageContext l)
                     (next_outcome env w
                        (explainSelection_request selectedText passageContext l))])
    else (Thrown missing_key_error, w).
Proof. apply text_entry_point_run. Qed.

(** The two entry points that parse the response. *)
Lemma recommendMusic_run context l w :
  exists recommended,
    recommendMusic env context l w
    = if truthy_opt (VITE_GEMINI_API_KEY env)
      then (Returned recommended,
            after w [ModelCall (recommendMusic_request context l)
                       (next_outcome env w (recommendMusic_request context l))])
      else (Thrown missing_key_error, w).
Proof.
  unfold recommendMusic. unfold bind at 1. rewrite getAiClient_run.
  destruct (truthy_opt (VITE_GEMINI_API_KEY env)); [|by exists []].
  unfold try_catch. unfold bind at 1. fold (recommendMusic_request context l).
  rewrite generateContent_run.
  destruct (next_outcome env w (recommendMusic_request context l)) as [response|e];
    [|by eexists].
  destruct (truthy_opt (option_map trim (text response))); [|by eexists].
  unfold bind, JSON_parse_M.
  destruct (JSON_parse (template_arg (text response))); by eexists.
Qed.

Lemma generateStoryKeywords_run passage l w :
  exists generated,
    generateStoryKeywords env passage l w
    = if truthy_opt (VITE_GEMINI_API_KEY env)
      then (Returned generated,
            after w [ModelCall (storyKeywords_request passage l)
                       (next_outcome env w (storyKeywords_request passage l))])
      else (Thrown missing_key_error, w).
Proof.
  unfold generateStoryKeywords. unfold bind at 1. rewrite getAiClient_run.
  destruct (truthy_opt (VITE_GEMINI_API_KEY env)); [|by exists None].
  unfold try_catch. unfold bind at 1. fold (storyKeywords_request passage l).
  rewrite generateContent_run.
  destruct (next_outcome env w (storyKeywords_request passage l)) as [response|e];
    [|by eexists].
  destruct (truthy_opt (option_map trim (text response))); [|by eexists].
  unfold bind, JSON_parse_M.
  destruct (JSON_parse (template_arg (text response))); by eexists.
Qed.

(** X13. Without API key every entry point of the service throws the error
    of [getAiClient], also those that turn the errors of the model into a
    text, an empty list or null; none of them calls the model or waits. *)
Theorem entry_points_need_key book chapter1 chapter2 params passage context l w :
  truthy_opt (VITE_GEMINI_API_KEY env) = false ->
  generateComprehensiveReadingContent env book chapter1 chapter2 l w
  = (Thrown missing_key_error, w)
  /\ generateContextImage env params w = (Thrown missing_key_error, w)
  /\ generateEvangelismTips env passage l w = (Thrown missing_key_error, w)
  /\ recommendMusic env context l w = (Thrown missing_key_error, w)
  /\ generatePrayerGuide env passage l w = (Thrown missing_key_error, w)
  /\ generateSermonOutline env passage l w = (Thrown missing_key_error, w)
  /\ generateStoryKeywords env passage l w = (Thrown missing_key_error, w)
  /\ explainPassageSelection env passage context l w = (Thrown missing_key_error, w).
Proof.
  intros Hkey.
  rewrite generateEvangelismTips_run, generatePrayerGuide_run, generateSermonOutline_run,
    explainPassageSelection_run.
  destruct (recommendMusic_run context l w) as [? ->].
  destruct (generateStoryKeywords_run passage l w) as [? ->].
  rewrite Hkey. split_and!; try done.
  - unfold generateComprehensiveReadingContent, try_catch. unfold bind at 1.
    rewrite getAiClient_run, Hkey. done.
  - unfold generateContextImage. unfold bind at 1. rewrite getAiClient_run, Hkey. done.
Qed.

(** X14. With the API key set, the six entry points that answer with a
    text, a list of songs or keywords return whatever the model does: they
    never throw, and they call the model exactly once. *)
Theorem text_entry_points_return passage context l w :
  truthy_opt (VITE_GEMINI_API_KEY env) = true ->
  (exists r o,
      generateEvangelismTips env passage l w
      = (Returned r, after w [ModelCall (evangelismTips_request passage l) o]))
  /\ (exists r o,
        recommendMusic env context l w
        = (Returned r, after w [ModelCall (recommendMusic_request context l) o]))
  /\ (exists r o,
        generatePrayerGuide env passage l w
        = (Returned r, after w [ModelCall (prayerGuide_request passage l) o]))
  /\ (exists r o,
        generateSermonOutline env passage l w
        = (Returned r, after w [ModelCall (sermonOutline_request passage l) o]))
  /\ (exists r o,
        generateStoryKeywords env passage l w
        = (Returned r, after w [ModelCall (storyKeywords_request passage l) o]))
  /\ (exists r o,
        explainPassageSelection env passage context l w
        = (Returned r, after w [ModelCall (explainSelection_request passage context l) o])).
Proof.
  intros Hkey.
  rewrite generateEvangelismTips_run, generatePrayerGuide_run, generateSermonOutline_run,
    explainPassageSelection_run.
  destruct (recommendMusic_run context l w) as [? ->].
  destruct (generateStoryKeywords_run passage l w) as [? ->].
  rewrite Hkey. split_and!; by eexists _, _.
Qed.

End Facts.

Lemma entry_points_need_key_witness :
  generateSermonOutline env_no_key "For God so loved the world" en empty_world
  = (Thrown missing_key_error, empty_world).
Proof.
  apply (entry_points_need_key env_no_key
           (JSON_ComprehensiveData := Codec.countable_JSON ComprehensiveData)
           (JSON_SongsResponse := Codec.countable_JSON SongsResponse)
           (JSON_StoryKeywords := Codec.countable_JSON StoryKeywords)
           "" 0 0 params0 "For God so loved the world" "" en empty_world eq_refl).
Defined.

Lemma text_entry_points_return_witness :
  exists r o,
    recommendMusic (JSON_SongsResponse := Codec.countable_JSON SongsResponse)
      env_failing "thanks" en empty_world
    = (Returned r, after empty_world [ModelCall (recommendMusic_request "thanks" en) o]).
Proof.
  apply (text_entry_points_return env_failing
           (JSON_SongsResponse := Codec.countable_JSON SongsResponse)
           (JSON_StoryKeywords := Codec.countable_JSON StoryKeywords)
           "" "thanks" en empty_world eq_refl).
Defined.

End EntryPointFacts.

(** ** The cost of an image *)

Module CostFacts.
Import Gemini Chain Examples MoreExamples Outcomes.

Section Facts.

Context (env : Env).

Lemma total_delay_app evs1 evs2 :
  total_delay (evs1 ++ evs2) = total_delay evs1 + total_delay evs2.
Proof.
  unfold total_delay. rewrite GeminiFacts.sleeps_app.
  induction (sleeps evs1) as [|d ds IH]; simpl; lia.
Qed.

Lemma costs_bind {A B} (m : M World A) (k : A -> M World B) c1 d1 c2 d2 :
  costs m c1 d1 -> (forall a, costs (k a) c2 d2) -> costs (bind m k) (c1 + c2) (d1 + d2).
Proof.
  intros Hm Hk w. destruct (Hm w) as (a & evs1 & E1 & Hc1 & Hd1).
  destruct (Hk a (after w evs1)) as (b & evs2 & E2 & Hc2 & Hd2).
  exists b, (evs1 ++ evs2). unfold bind. rewrite E1, E2, GeminiFacts.after_after.
  split; [done|]. rewrite GeminiFacts.calls_app, length_app, total_delay_app. lia.
Qed.

Lemma costs_ret {A} (a : A) : costs (ret a : M World A) 0 0.
Proof. intros w. exists a, []. by rewrite GeminiFacts.after_nil. Qed.

Lemma costs_weaken {A} (m : M World A) c d c' d' :
  costs m c d -> (c <= c')%nat -> d <= d' -> costs m c' d'.
Proof.
  intros Hm Hc Hd w. destruct (Hm w) as (r & evs & E & ? & ?).
  exists r, evs. split; [done|]. lia.
Qed.

Lemma generateImage_costs p : costs (generateImage env p) 3 3000.
Proof.
  intros w. rewrite GeminiFacts.generateImage_eq.
  destruct (GeminiFacts.attempt_with_delays_trace env p [1 * 1000; 2 * 1000] w)
    as (r & evs & E & Hn & Hs & _).
  exists r, evs. split; [done|]. cbn [length] in Hn. split; [apply Hn|].
  unfold total_delay. rewrite Hs.
  destruct (length (calls evs)) as [|[|[|[|n]]]]; try lia; vm_compute; by split.
Qed.

Lemma derive_prompt_costs params : costs (derive_prompt env params) 1 0.
Proof.
  intros w. unfold derive_prompt, try_catch, bind.
  rewrite EntryPointFacts.generateContent_run.
  match goal with |- context [next_outcome env w ?r] =>
    destruct (next_outcome env w r) as [response|e] eqn:Ho
  end.
  - destruct (text response) as [t|]; [destruct (truthy (trim t))|]; by eexists _, [_].
  - by eexists _, [_].
Qed.

Lemma context_attempt_costs params : costs (context_attempt env params) 4 3000.
Proof.
  unfold context_attempt.
  apply (costs_bind _ _ 1 0 3 3000); [apply derive_prompt_costs|].
  intros [newPrompt|]; [apply generateImage_costs|].
  eapply costs_weaken; [apply costs_ret|lia..].
Qed.

Lemma first_success_costs a1 a2 a3 c1 d1 c2 d2 c3 d3 :
  costs a1 c1 d1 -> costs a2 c2 d2 -> costs a3 c3 d3 ->
  0 <= d1 -> 0 <= d2 -> 0 <= d3 ->
  costs (first_success [a1; a2; a3]) (c1 + (c2 + (c3 + 0))) (d1 + (d2 + (d3 + 0))).
Proof.
  intros H1 H2 H3 ? ? ?. cbn [first_success].
  apply costs_bind; [done|]. intros [url|].
  { eapply costs_weaken; [apply costs_ret|lia..]. }
  apply costs_bind; [done|]. intros [url|].
  { eapply costs_weaken; [apply costs_ret|lia..]. }
  apply costs_bind; [done|]. intros [url|]; apply costs_ret.
Qed.

(** X30. An image costs at most ten calls of the models and nine seconds
    of delays: whatever the service answers, [generateContextImage] ends,
    after at most ten calls (three for each of its three attempts and one for
    the derived prompt) and delays that add up to at most 9000 ms. *)
Theorem generateContextImage_cost params w :
  exists r evs,
    generateContextImage env params w = (r, after w evs)
    /\ r <> OutOfFuel
    /\ (length (calls evs) <= 10)%nat
    /\ 0 <= total_delay evs <= 9000.
Proof.
  destruct (truthy_opt (VITE_GEMINI_API_KEY env)) eqn:Hkey.
  - rewrite GeminiFacts.generateContextImage_eq_chain by done.
    destruct (first_success_costs
                (generateImage env (detailed_prompt params))
                (context_attempt env params)
                (generateImage env (static_prompt (language params)))
                3 3000 4 3000 3 3000
                (generateImage_costs _) (context_attempt_costs _) (generateImage_costs _)
                ltac:(lia) ltac:(lia) ltac:(lia) w)
      as (r & evs & E & Hc & Hd).
    exists (Returned r), evs. unfold fallback_chain. rewrite E.
    split; [done|]. split; [done|]. cbn in Hc. lia.
  - exists (Thrown missing_key_error), []. rewrite GeminiFacts.after_nil.
    unfold generateContextImage. unfold bind at 1.
    rewrite EntryPointFacts.getAiClient_run, Hkey. split_and!; cbn; try done; lia.
Qed.

End Facts.

(** Where the text model answers and every call of the image model fails
    transiently the bounds are met. *)
Example generateContextImage_cost_reached :
  let evs := trace (snd (generateContextImage env_images_transient params0 empty_world)) in
  length (calls evs) = 10%nat /\ total_delay evs = 9000.
Proof. vm_compute. done. Qed.

End CostFacts.

(** ** The components that call the service *)

Module ComponentFacts.
Import Gemini Browser Chain Examples MoreExamples Outcomes Translations.

Section Facts.

Context (env : Env).
Context {JSON_SongsResponse : JSON SongsResponse}.
Context {JSON_StoryKeywords : JSON StoryKeywords}.

(** X15. [handleGenerate] of the sermon outline always returns, with the
    loading flag off. Off line it shows the off-line message and calls
    nothing. On line with the API key set it calls the model once and shows
    no error of its own: when the call fails the outline is the error text
    of the service. The error message of the component is shown exactly
    when the API key is missing. *)
Theorem handleGenerate_outcomes passage l w st :
  let request := sermonOutline_request passage l in
  exists w' st',
    SermonOutline.handleGenerate env passage l (w, st) = (Returned tt, (w', st'))
    /\ if SermonOutline.isOnline st then
         SermonOutline.isLoading st' = false
         /\ if truthy_opt (VITE_GEMINI_API_KEY env) then
              w' = after w [ModelCall request (next_outcome env w request)]
              /\ SermonOutline.error st' = None
              /\ SermonOutline.outline st'
                 = text_or (sermonOutlineError_text l) (next_outcome env w request)
            else
              w' = w
              /\ SermonOutline.error st' = Some (t_sermonApiError l)
              /\ SermonOutline.outline st' = Some ""
       else
         w' = w /\ st' = SermonOutline.set_error (Some (t_offlineError l)) st.
Proof.
  intros request.
  unfold SermonOutline.handleGenerate, bind, getState, setState, try_finally, try_catch, lift, ret.
  cbn [fst snd]. destruct (SermonOutline.isOnline st) eqn:Honline; cbn [negb].
  - cbn [fst snd]. rewrite EntryPointFacts.generateSermonOutline_run. fold request.
    destruct (truthy_opt (VITE_GEMINI_API_KEY env)); by eexists _, _.
  - by eexists _, _.
Qed.

(** X16. [handleExplainClick] does nothing without a selection. With one,
    it opens the modal and ends its loading; with the API key set it calls
    the model once and shows no error: a failed call shows the error text of
    the service as the explanation. The error of the modal is shown exactly
    when the API key is missing. *)
Theorem handleExplainClick_outcomes passage l w st :
  let request := Explanation.explainSelection_request (Explanation.selectedText st) passage l in
  exists w' modal,
    Explanation.handleExplainClick env passage l (w, st)
    = (Returned tt,
       (w', {| Explanation.selectedText := Explanation.selectedText st;
               Explanation.explanationModal := modal |}))
    /\ if truthy (Explanation.selectedText st) then
         Explanation.isOpen modal = true
         /\ Explanation.isLoading modal = false
         /\ if truthy_opt (VITE_GEMINI_API_KEY env) then
              w' = after w [ModelCall request (next_outcome env w request)]
              /\ Explanation.error modal = None
              /\ Explanation.content modal
                 = text_or (Explanation.p_explainSelectionError l) (next_outcome env w request)
            else
              w' = w
              /\ Explanation.error modal = Some (t_explanationApiError l)
              /\ Explanation.content modal = Some ""
       else w' = w /\ modal = Explanation.explanationModal st.
Proof.
  intros request.
  unfold Explanation.handleExplainClick, bind, getState, setState, try_catch, lift, ret.
  cbn [fst snd]. destruct (truthy (Explanation.selectedText st)) eqn:Hsel; cbn [negb].
  - cbn [fst snd Explanation.selectedText].
    rewrite EntryPointFacts.explainPassageSelection_run. fold request.
    destruct (truthy_opt (VITE_GEMINI_API_KEY env)); by eexists _, _.
  - destruct st. by eexists _, _.
Qed.

(** X17. On line, [handleRecommend] always returns with the loading flag
    off and with either songs and no error, or no songs and an error: the
    message that nothing was found when the API key is set, also when the
    call of the model failed, and the message of an API error exactly when
    the key is missing. Off line it calls nothing. *)
Theorem handleRecommend_outcomes context l w st :
  let request := recommendMusic_request context l in
  exists w' st',
    MusicRecommendation.handleRecommend env context l (w, st) = (Returned tt, (w', st'))
    /\ if MusicRecommendation.isOnline st then
         MusicRecommendation.isLoading st' = false
         /\ if truthy_opt (VITE_GEMINI_API_KEY env) then
              w' = after w [ModelCall request (next_outcome env w request)]
              /\ fst (recommendMusic env context l w) = Returned (MusicRecommendation.songs st')
              /\ MusicRecommendation.error st'
                 = match MusicRecommendation.songs st' with
                   | [] => Some (t_recommendationError l)
                   | _ :: _ => None
                   end
            else
              w' = w
              /\ MusicRecommendation.songs st' = []
              /\ MusicRecommendation.error st' = Some (t_recommendationApiError l)
       else
         w' = w /\ st' = MusicRecommendation.set_error (Some (t_offlineError l)) st.
Proof.
  intros request.
  unfold MusicRecommendation.handleRecommend, bind, getState, setState, try_finally, try_catch,
    lift, ret.
  cbn [fst snd]. destruct (MusicRecommendation.isOnline st) eqn:Honline; cbn [negb].
  - cbn [fst snd]. destruct (EntryPointFacts.recommendMusic_run env context l w) as [recommended ->].
    fold request.
    destruct (truthy_opt (VITE_GEMINI_API_KEY env)); [|by eexists _, _].
    cbn [fst snd]. destruct recommended as [|song rest]; by eexists _, _.
  - by eexists _, _.
Qed.

(** *** The tips of the mission *)

Lemma tips_loadFromCache_hit l today w st cached :
  localStorage w !! EvangelismTips.cacheKey today l = Some cached ->
  truthy cached = true ->
  EvangelismTips.loadFromCache l today (w, st)
  = (Returned true, (w, {| EvangelismTips.tips := Some cached;
                           EvangelismTips.isLoading := false |})).
Proof.
  intros Hk Ht.
  unfold EvangelismTips.loadFromCache, try_catch, bind, lift, getItem, setState, ret.
  cbn [fst snd]. rewrite Hk. cbn [truthy_opt]. by rewrite Ht.
Qed.

Lemma tips_loadFromCache_miss l today w st :
  truthy_opt (localStorage w !! EvangelismTips.cacheKey today l) = false ->
  EvangelismTips.loadFromCache l today (w, st) = (Returned false, (w, st)).
Proof.
  intros Hk.
  unfold EvangelismTips.loadFromCache, try_catch, bind, lift, getItem, setState, ret.
  cbn [fst snd]. by rewrite Hk.
Qed.

(** What [fetchTips] does when the cache holds nothing for the day. *)
Lemma fetchTips_miss passage l today w st :
  truthy passage = true ->
  truthy_opt (localStorage w !! EvangelismTips.cacheKey today l) = false ->
  let request := evangelismTips_request passage l in
  let generatedTips := text_or (evangelismTipsError_text l) (next_outcome env w request) in
  let w1 := after w [ModelCall request (next_outcome env w request)] in
  EvangelismTips.fetchTips env passage l today (w, st)
  = if truthy_opt (VITE_GEMINI_API_KEY env) then
      if storage_accepts env (localStorage w) (EvangelismTips.cacheKey today l)
           (template_arg generatedTips)
      then (Returned tt,
            ({| trace := trace w1;
                localStorage :=
                  <[EvangelismTips.cacheKey today l := template_arg generatedTips]>
                    (localStorage w) |},
             {| EvangelismTips.tips := generatedTips; EvangelismTips.isLoading := false |}))
      else (Returned tt,
            (w1, {| EvangelismTips.tips := Some (t_tipsFailed l);
                    EvangelismTips.isLoading := false |}))
    else (Returned tt,
          (w, {| EvangelismTips.tips := Some (t_tipsFailed l);
                 EvangelismTips.isLoading := false |})).
Proof.
  intros Hpassage Hmiss request generatedTips w1.
  unfold EvangelismTips.fetchTips. rewrite Hpassage. cbn [negb].
  rewrite (bind_Returned _ _ _ _ _ (tips_loadFromCache_miss l today w st Hmiss)).
  unfold bind, setState, try_finally, try_catch, lift, ret. cbn [fst snd].
  rewrite EntryPointFacts.generateEvangelismTips_run. fold request. fold generatedTips. fold w1.
  destruct (truthy_opt (VITE_GEMINI_API_KEY env)); [|done].
  cbn [fst snd]. unfold setItem. cbn [localStorage w1 after].
  by destruct (storage_accepts env (localStorage w) (EvangelismTips.cacheKey today l)
                 (template_arg generatedTips)).
Qed.

Lemma evangelismTipsError_truthy l : truthy (evangelismTipsError_text l) = true.
Proof. by destruct l. Qed.

(** X18. A failed generation of the tips is cached. When the cache holds
    nothing for the day and the call of the model throws, [fetchTips] shows
    the error text of the service and writes it to the cache of the day;
    until the end of the day every later [fetchTips] in that language shows
    that text, whatever the passage, and calls the model no more. *)
Theorem fetchTips_caches_failure passage l today w st e passage2 st2 :
  truthy passage = true ->
  truthy passage2 = true ->
  truthy_opt (localStorage w !! EvangelismTips.cacheKey today l) = false ->
  truthy_opt (VITE_GEMINI_API_KEY env) = true ->
  next_outcome env w (evangelismTips_request passage l) = Rejected e ->
  (forall s v, storage_accepts env s (EvangelismTips.cacheKey today l) v = true) ->
  let failed :=
    {| EvangelismTips.tips := Some (evangelismTipsError_text l);
       EvangelismTips.isLoading := false |} in
  exists w1,
    EvangelismTips.fetchTips env passage l today (w, st) = (Returned tt, (w1, failed))
    /\ trace w1 = trace w ++ [ModelCall (evangelismTips_request passage l) (Rejected e)]
    /\ localStorage w1 !! EvangelismTips.cacheKey today l = Some (evangelismTipsError_text l)
    /\ EvangelismTips.fetchTips env passage2 l today (w1, st2) = (Returned tt, (w1, failed)).
Proof.
  intros Hpassage Hpassage2 Hmiss Hkey Ho Haccept failed.
  rewrite (fetchTips_miss passage l today w st Hpassage Hmiss).
  rewrite Hkey, Ho, Haccept. cbn [text_or template_arg].
  match goal with |- context [(Returned tt, (?x, _)) = _] => set (w1 := x) end.
  assert (Hstored : localStorage w1 !! EvangelismTips.cacheKey today l
                    = Some (evangelismTipsError_text l)) by apply lookup_insert_eq.
  exists w1. split; [done|]. split; [done|]. split; [done|].
  unfold EvangelismTips.fetchTips. rewrite Hpassage2. cbn [negb].
  by rewrite (bind_Returned _ _ _ _ _
                (tips_loadFromCache_hit l today w1 st2 _ Hstored (evangelismTipsError_truthy l))).
Qed.

(** X19. The failure message of the component is shown when the API key
    is missing and when the browser refuses the write to the cache: in the
    second case the tips were generated, and the message takes their place.
    In both cases nothing is cached. *)
Theorem fetchTips_failure_message passage l today w st :
  truthy passage = true ->
  truthy_opt (localStorage w !! EvangelismTips.cacheKey today l) = false ->
  truthy_opt (VITE_GEMINI_API_KEY env) = false
  \/ (forall v, storage_accepts env (localStorage w) (EvangelismTips.cacheKey today l) v = false) ->
  exists w1,
    EvangelismTips.fetchTips env passage l today (w, st)
    = (Returned tt,
       (w1, {| EvangelismTips.tips := Some (t_tipsFailed l);
               EvangelismTips.isLoading := false |}))
    /\ localStorage w1 = localStorage w.
Proof.
  intros Hpassage Hmiss Hcause.
  rewrite (fetchTips_miss passage l today w st Hpassage Hmiss).
  destruct (truthy_opt (VITE_GEMINI_API_KEY env)) eqn:Hkey.
  - destruct Hcause as [?|Hrefuse]; [done|]. rewrite Hrefuse. by eexists.
  - by eexists.
Qed.

(** *** The story keywords *)

Lemma keywords_loadFromCache_miss l today w st :
  truthy_opt (localStorage w !! StoryKeywordsComponent.cacheKey today l) = false ->
  StoryKeywordsComponent.loadFromCache l today (w, st) = (Returned false, (w, st)).
Proof.
  intros Hk.
  unfold StoryKeywordsComponent.loadFromCache, try_catch, bind, lift, getItem, setState, ret.
  cbn [fst snd]. by rewrite Hk.
Qed.

Lemma keywords_loadFromCache_hit l today w st cached parsed :
  localStorage w !! StoryKeywordsComponent.cacheKey today l = Some cached ->
  truthy cached = true ->
  JSON_parse cached = Some parsed ->
  StoryKeywordsComponent.loadFromCache l today (w, st)
  = (Returned true,
     (w, {| StoryKeywordsComponent.keywords := Some parsed;
            StoryKeywordsComponent.isLoading := false;
            StoryKeywordsComponent.error := StoryKeywordsComponent.error st |})).
Proof.
  intros Hk Ht Hp.
  unfold StoryKeywordsComponent.loadFromCache, try_catch, bind, lift, getItem, setState,
    JSON_parse_M, ret.
  cbn [fst snd]. rewrite Hk. cbn [truthy_opt template_arg]. by rewrite Ht, Hp.
Qed.

(** What [fetchKeywords] does once the service has answered. *)
Lemma fetchKeywords_miss passage l today w st generated w1 :
  truthy passage = true ->
  truthy_opt (localStorage w !! StoryKeywordsComponent.cacheKey today l) = false ->
  generateStoryKeywords env passage l w = (Returned generated, w1) ->
  StoryKeywordsComponent.fetchKeywords env passage l true today (w, st)
  = match generated with
    | Some generatedKeywords =>
        if storage_accepts env (localStorage w1) (StoryKeywordsComponent.cacheKey today l)
             (JSON_stringify generatedKeywords)
        then (Returned tt,
              ({| trace := trace w1;
                  localStorage :=
                    <[StoryKeywordsComponent.cacheKey today l :=
                        JSON_stringify generatedKeywords]> (localStorage w1) |},
               {| StoryKeywordsComponent.keywords := Some generatedKeywords;
                  StoryKeywordsComponent.isLoading := false;
                  StoryKeywordsComponent.error := None |}))
        else (Returned tt,
              (w1, {| StoryKeywordsComponent.keywords := Some generatedKeywords;
                      StoryKeywordsComponent.isLoading := false;
                      StoryKeywordsComponent.error := Some (t_keywordsApiError l) |}))
    | None =>
        (Returned tt,
         (w1, {| StoryKeywordsComponent.keywords := StoryKeywordsComponent.keywords st;
                 StoryKeywordsComponent.isLoading := false;
                 StoryKeywordsComponent.error := Some (t_keywordsApiError l) |}))
    end.
Proof.
  intros Hpassage Hmiss E.
  unfold StoryKeywordsComponent.fetchKeywords. rewrite Hpassage. cbn [negb orb].
  rewrite (bind_Returned _ _ _ _ _ (keywords_loadFromCache_miss l today w st Hmiss)).
  unfold bind, setState, try_finally, try_catch, lift, throw, ret. cbn [fst snd].
  rewrite E. destruct generated as [generatedKeywords|]; [|done].
  cbn [fst snd]. unfold setItem.
  by destruct (storage_accepts env (localStorage w1) (StoryKeywordsComponent.cacheKey today l)
                 (JSON_stringify generatedKeywords)).
Qed.

(** X20. A failed generation of the keywords is not cached. When the cache
    holds nothing for the day and [generateStoryKeywords] yields null (the
    call threw, or the response had no text that parses), [fetchKeywords]
    shows the error message, keeps the keywords it showed and writes nothing
    to the storage. *)
Theorem fetchKeywords_failure_not_cached passage l today w st w1 :
  truthy passage = true ->
  truthy_opt (localStorage w !! StoryKeywordsComponent.cacheKey today l) = false ->
  generateStoryKeywords env passage l w = (Returned None, w1) ->
  StoryKeywordsComponent.fetchKeywords env passage l true today (w, st)
  = (Returned tt,
     (w1, {| StoryKeywordsComponent.keywords := StoryKeywordsComponent.keywords st;
             StoryKeywordsComponent.isLoading := false;
             StoryKeywordsComponent.error := Some (t_keywordsApiError l) |}))
  /\ localStorage w1 = localStorage w.
Proof.
  intros Hpassage Hmiss E.
  rewrite (fetchKeywords_miss passage l today w st None w1 Hpassage Hmiss E).
  split; [done|].
  destruct (EntryPointFacts.generateStoryKeywords_run env passage l w) as [generated E'].
  rewrite E in E'.
  destruct (truthy_opt (VITE_GEMINI_API_KEY env)); [|done].
  by injection E' as _ ->.
Qed.

Context {JSON_StoryKeywords_laws : JSONLaws StoryKeywords}.

(** X21. Generated keywords are cached and served from the cache. When
    the cache holds nothing for the day, [generateStoryKeywords] yields
    keywords and the browser accepts the write, [fetchKeywords] shows them
    and stores them; every later [fetchKeywords] of that day and language
    shows the same keywords, whatever the passage, and calls the model no
    more. Off line, or without a passage, it touches neither the model nor
    the storage. *)
Theorem fetchKeywords_round_trip passage l today w st generatedKeywords w1 passage2 st2 :
  truthy passage = true ->
  truthy passage2 = true ->
  truthy_opt (localStorage w !! StoryKeywordsComponent.cacheKey today l) = false ->
  generateStoryKeywords env passage l w = (Returned (Some generatedKeywords), w1) ->
  (forall s v, storage_accepts env s (StoryKeywordsComponent.cacheKey today l) v = true) ->
  exists w2,
    StoryKeywordsComponent.fetchKeywords env passage l true today (w, st)
    = (Returned tt,
       (w2, {| StoryKeywordsComponent.keywords := Some generatedKeywords;
               StoryKeywordsComponent.isLoading := false;
               StoryKeywordsComponent.error := None |}))
    /\ trace w2 = trace w1
    /\ StoryKeywordsComponent.fetchKeywords env passage2 l true today (w2, st2)
       = (Returned tt,
          (w2, {| StoryKeywordsComponent.keywords := Some generatedKeywords;
                  StoryKeywordsComponent.isLoading := false;
                  StoryKeywordsComponent.error := StoryKeywordsComponent.error st2 |}))
    /\ (forall passage3 online st3,
          truthy passage3 && online = false ->
          exists st3',
            StoryKeywordsComponent.fetchKeywords env passage3 l online today (w2, st3)
            = (Returned tt, (w2, st3'))
            /\ StoryKeywordsComponent.keywords st3' = StoryKeywordsComponent.keywords st3).
Proof.
  intros Hpassage Hpassage2 Hmiss E Haccept.
  rewrite (fetchKeywords_miss passage l today w st _ w1 Hpassage Hmiss E).
  rewrite Haccept.
  match goal with |- context [(Returned tt, (?x, _)) = _] => set (w2 := x) end.
  assert (Hstored : localStorage w2 !! StoryKeywordsComponent.cacheKey today l
                    = Some (JSON_stringify generatedKeywords)) by apply lookup_insert_eq.
  exists w2. split; [done|]. split; [done|]. split.
  - unfold StoryKeywordsComponent.fetchKeywords. rewrite Hpassage2. cbn [negb orb].
    by rewrite (bind_Returned _ _ _ _ _
                  (keywords_loadFromCache_hit l today w2 st2 _ generatedKeywords Hstored
                     (JSON_truthy _) (JSON_roundtrip _))).
  - intros passage3 online st3 Hguard.
    unfold StoryKeywordsComponent.fetchKeywords.
    rewrite <- negb_andb, Hguard. cbn [negb].
    unfold bind, setState, ret. cbn [fst snd].
    destruct (negb online); by eexists.
Qed.

End Facts.

Lemma fetchTips_caches_failure_witness :
  exists w1,
    EvangelismTips.fetchTips env_failing "For God so loved the world" en "2024-07-27"
      (empty_world, EvangelismTips.initial_state)
    = (Returned tt,
       (w1, {| EvangelismTips.tips := Some (evangelismTipsError_text en);
               EvangelismTips.isLoading := false |}))
    /\ localStorage w1 !! EvangelismTips.cacheKey "2024-07-27" en
       = Some "Failed to generate evangelism tips. Please try again later."
    /\ EvangelismTips.fetchTips env_failing "Another passage" en "2024-07-27"
         (w1, EvangelismTips.initial_state)
       = (Returned tt,
          (w1, {| EvangelismTips.tips := Some (evangelismTipsError_text en);
                  EvangelismTips.isLoading := false |})).
Proof.
  destruct (fetchTips_caches_failure env_failing "For God so loved the world" en "2024-07-27"
              empty_world EvangelismTips.initial_state (Error "503 Service Unavailable")
              "Another passage" EvangelismTips.initial_state)
    as (w1 & E1 & _ & Hstored & E2); [reflexivity..|].
  exists w1. split; [exact E1|]. split; [exact Hstored|exact E2].
Defined.

Lemma fetchTips_failure_message_witness :
  exists w1,
    EvangelismTips.fetchTips env_full_storage "For God so loved the world" en "2024-07-27"
      (empty_world, EvangelismTips.initial_state)
    = (Returned tt,
       (w1, {| EvangelismTips.tips := Some (t_tipsFailed en);
               EvangelismTips.isLoading := false |}))
    /\ localStorage w1 = localStorage empty_world.
Proof.
  apply (fetchTips_failure_message env_full_storage "For God so loved the world" en
           "2024-07-27" empty_world EvangelismTips.initial_state);
    [reflexivity|reflexivity|right; reflexivity].
Defined.

Lemma fetchKeywords_failure_not_cached_witness :
  StoryKeywordsComponent.fetchKeywords (JSON_StoryKeywords := Codec.countable_JSON StoryKeywords)
    env_failing "For God so loved the world" en true "2024-07-27"
    (empty_world, StoryKeywordsComponent.initial_state)
  = (Returned tt,
     (after empty_world
        [ModelCall (storyKeywords_request "For God so loved the world" en)
           (Rejected (Error "503 Service Unavailable"))],
      {| StoryKeywordsComponent.keywords := None;
         StoryKeywordsComponent.isLoading := false;
         StoryKeywordsComponent.error := Some (t_keywordsApiError en) |})).
Proof.
  apply (fetchKeywords_failure_not_cached env_failing
           (JSON_StoryKeywords := Codec.countable_JSON StoryKeywords)
           "For God so loved the world" en "2024-07-27" empty_world
           StoryKeywordsComponent.initial_state); reflexivity.
Defined.

Lemma fetchKeywords_round_trip_witness :
  let env :=
    env_working (@JSON_stringify _ (Codec.countable_JSON StoryKeywords) grace_keywords) in
  exists w2,
    StoryKeywordsComponent.fetchKeywords (JSON_StoryKeywords := Codec.countable_JSON StoryKeywords)
      env "For God so loved the world" en true "2024-07-27"
      (empty_world, StoryKeywordsComponent.initial_state)
    = (Returned tt,
       (w2, {| StoryKeywordsComponent.keywords := Some grace_keywords;
               StoryKeywordsComponent.isLoading := false;
               StoryKeywordsComponent.error := None |}))
    /\ StoryKeywordsComponent.fetchKeywords
         (JSON_StoryKeywords := Codec.countable_JSON StoryKeywords)
         env "Another passage" en true "2024-07-27" (w2, StoryKeywordsComponent.initial_state)
       = (Returned tt,
          (w2, {| StoryKeywordsComponent.keywords := Some grace_keywords;
                  StoryKeywordsComponent.isLoading := false;
                  StoryKeywordsComponent.error := None |})).
Proof.
  intros env.
  destruct (fetchKeywords_round_trip env
              (JSON_StoryKeywords := Codec.countable_JSON StoryKeywords)
              "For God so loved the world" en "2024-07-27" empty_world
              StoryKeywordsComponent.initial_state grace_keywords
              (after empty_world
                 [ModelCall (storyKeywords_request "For God so loved the world" en)
                    (Resolved
                       (text_response
                          (@JSON_stringify _ (Codec.countable_JSON StoryKeywords)
                             grace_keywords)))])
              "Another passage" StoryKeywordsComponent.initial_state)
    as (w2 & E1 & _ & E2 & _);
    [reflexivity|reflexivity|reflexivity|vm_compute; reflexivity|reflexivity|].
  exists w2. split; [exact E1|exact E2].
Defined.

End ComponentFacts.

(** ** The gate of the API key *)

Module AppFacts.
Import Gemini Examples MoreExamples Outcomes App.

Section Facts.

Context (env : Env).

Lemma checkApiKey_run aistudio w st :
  settles aistudio = true ->
  checkApiKey env aistudio (w, st)
  = (Returned tt,
     (w, {| apiKeySelected := reports_key aistudio || truthy_opt (VITE_GEMINI_API_KEY env);
            isCheckingApiKey := false |})).
Proof.
  intros Hsettles.
  unfold checkApiKey, bind, setState, try_catch, await, ret. cbn [fst snd].
  destruct aistudio as [[[[]|e|] open]|]; try done; cbn [fst snd reports_key];
    by destruct (truthy_opt (VITE_GEMINI_API_KEY env)).
Qed.

(** X22. Once the promise of AI Studio has settled, [checkApiKey] ends the
    check, and the application is unlocked exactly when AI Studio reports a
    selected key or the build has an API key; a rejection of AI Studio counts
    as no report. With a key in the build the application is always unlocked.
    When the promise never settles the check never ends. *)
Theorem checkApiKey_gate aistudio w st :
  if settles aistudio then
    checkApiKey env aistudio (w, st)
    = (Returned tt,
       (w, {| apiKeySelected := reports_key aistudio || truthy_opt (VITE_GEMINI_API_KEY env);
              isCheckingApiKey := false |}))
  else
    checkApiKey env aistudio (w, st) = (OutOfFuel, (w, set_isCheckingApiKey true st)).
Proof.
  destruct (settles aistudio) eqn:Hsettles; [by apply checkApiKey_run|].
  unfold checkApiKey, bind, setState, try_catch, await, ret. cbn [fst snd].
  by destruct aistudio as [[[[]|e|] open]|].
Qed.

Context {JSON_ComprehensiveData : JSON ComprehensiveData}.

(** X23. The gate and the service read different keys. When AI Studio
    reports a selected key, or the user has selected one with
    [handleSelectApiKey], and the build has no API key, the application is
    unlocked and yet the generation of the reading throws for want of a
    key. *)
Theorem unlocked_without_key aistudio book chapter1 chapter2 l w st :
  truthy_opt (VITE_GEMINI_API_KEY env) = false ->
  reports_key aistudio = true
  \/ (exists studio, aistudio = Some studio /\ openSelectKey studio = Returned tt) ->
  (exists st',
      (checkApiKey env aistudio (w, st) = (Returned tt, (w, st'))
       \/ handleSelectApiKey aistudio (w, st) = (Returned tt, (w, st')))
      /\ apiKeySelected st' = true)
  /\ generateComprehensiveReadingContent env book chapter1 chapter2 l w
     = (Thrown missing_key_error, w).
Proof.
  intros Hkey Hstudio. split.
  - destruct Hstudio as [Hreports|(studio & -> & Hopen)].
    + eexists. split; [left; apply checkApiKey_run|].
      * by destruct aistudio as [[[[]|e|] open]|].
      * cbn [apiKeySelected]. by rewrite Hreports.
    + eexists. split; [right|].
      * unfold handleSelectApiKey, bind, await, setState. rewrite Hopen. cbn [fst snd]. done.
      * done.
  - unfold generateComprehensiveReadingContent, try_catch. unfold bind at 1.
    by rewrite EntryPointFacts.getAiClient_run, Hkey.
Qed.

End Facts.

Lemma unlocked_without_key_witness :
  (exists st',
      (checkApiKey env_no_key
         (Some {| hasSelectedApiKey := Returned true; openSelectKey := Returned tt |})
         (empty_world, initial_state) = (Returned tt, (empty_world, st'))
       \/ handleSelectApiKey
            (Some {| hasSelectedApiKey := Returned true; openSelectKey := Returned tt |})
            (empty_world, initial_state) = (Returned tt, (empty_world, st')))
      /\ apiKeySelected st' = true)
  /\ generateComprehensiveReadingContent
       (JSON_ComprehensiveData := Codec.countable_JSON ComprehensiveData)
       env_no_key "Galatians" 1 2 en empty_world
     = (Thrown missing_key_error, empty_world).
Proof.
  apply (unlocked_without_key env_no_key
           (JSON_ComprehensiveData := Codec.countable_JSON ComprehensiveData)
           (Some {| hasSelectedApiKey := Returned true; openSelectKey := Returned tt |})
           "Galatians" 1 2 en empty_world initial_state);
    [reflexivity|left; reflexivity].
Defined.

End AppFacts.

(** ** The stores of the sync service *)

Module SyncStoreFacts.
Import Gemini Browser Types SyncService Chain ReadingArchive.

Section Facts.

Context (env : Env).
Context {JSON_diary : JSON (list SavedDiaryEntry)}.
Context {JSON_plans : JSON (list SavedPlanEntry)}.
Context {JSON_status : JSON MeditationRecord}.
Context {JSON_archive : JSON ArchivedReadings}.
Context {JSON_diary_laws : JSONLaws (list SavedDiaryEntry)}.
Context {JSON_plans_laws : JSONLaws (list SavedPlanEntry)}.
Context {JSON_status_laws : JSONLaws MeditationRecord}.

(** A write of a serialized value, and the read that follows it. *)
Lemma save_then_read {A} `{JSONLaws A} key (value fallback : A) w :
  storage_accepts env (localStorage w) key (JSON_stringify value) = true ->
  let w1 := {| trace := trace w ++ [Sleep MOCK_LATENCY];
               localStorage := <[key := JSON_stringify value]> (localStorage w) |} in
  (let* _ := setItem env key (JSON_stringify value) in simulateNetworkRequest tt) w
  = (Returned tt, w1)
  /\ (let* x := read_or key fallback in simulateNetworkRequest x) w1
     = (Returned value, after w1 [Sleep MOCK_LATENCY]).
Proof.
  intros Haccept w1. split.
  - unfold bind, setItem, simulateNetworkRequest, bind, delay, ret. by rewrite Haccept.
  - unfold bind at 1.
    rewrite (SyncFacts.read_or_stored key fallback w1 (JSON_stringify value) value).
    + done.
    + apply lookup_insert_eq.
    + apply JSON_truthy.
    + apply JSON_roundtrip.
Qed.

(** X24. What the sync service saves, it reads back: after
    [saveDiaryEntries], [saveMissionPlans] and [saveMeditationStatus], the
    getter of the same key resolves with the saved value, each after the
    mock latency; the save changes no other key of the storage. *)
Theorem sync_round_trip storageKey entries plans status w :
  (forall s k v, storage_accepts env s k v = true) ->
  (exists w1,
      saveDiaryEntries env storageKey entries w = (Returned tt, w1)
      /\ getDiaryEntries storageKey w1 = (Returned entries, after w1 [Sleep MOCK_LATENCY])
      /\ forall key, key <> storageKey -> localStorage w1 !! key = localStorage w !! key)
  /\ (exists w1,
        saveMissionPlans env storageKey plans w = (Returned tt, w1)
        /\ getMissionPlans storageKey w1 = (Returned plans, after w1 [Sleep MOCK_LATENCY])
        /\ forall key, key <> storageKey -> localStorage w1 !! key = localStorage w !! key)
  /\ (exists w1,
        saveMeditationStatus env status w = (Returned tt, w1)
        /\ getMeditationStatus w1 = (Returned status, after w1 [Sleep MOCK_LATENCY])
        /\ forall key, key <> "meditation-status" ->
             localStorage w1 !! key = localStorage w !! key).
Proof.
  intros Haccept. split_and!.
  - destruct (save_then_read storageKey entries [] w (Haccept _ _ _)) as [E1 E2].
    eexists. split; [exact E1|]. split; [exact E2|].
    intros key Hkey. cbn [localStorage]. by apply lookup_insert_ne.
  - destruct (save_then_read storageKey plans [] w (Haccept _ _ _)) as [E1 E2].
    eexists. split; [exact E1|]. split; [exact E2|].
    intros key Hkey. cbn [localStorage]. by apply lookup_insert_ne.
  - destruct (save_then_read "meditation-status" status ∅ w (Haccept _ _ _)) as [E1 E2].
    eexists. split; [exact E1|]. split; [exact E2|].
    intros key Hkey. cbn [localStorage]. by apply lookup_insert_ne.
Qed.

(** X25. The getters of the sync service resolve with the empty list or
    the empty record, after the mock latency, when the storage has no item
    under their key, or an empty one; they reject at once, with the error of
    [JSON.parse], when the item does not parse. In both cases they leave the
    storage as it is. *)
Theorem sync_getters_defaults storageKey w :
  (truthy_opt (localStorage w !! storageKey) = false ->
   getDiaryEntries storageKey w = (Returned [], after w [Sleep MOCK_LATENCY])
   /\ getMissionPlans storageKey w = (Returned [], after w [Sleep MOCK_LATENCY]))
  /\ (truthy_opt (localStorage w !! "meditation-status") = false ->
      getMeditationStatus w = (Returned ∅, after w [Sleep MOCK_LATENCY]))
  /\ (truthy_opt (localStorage w !! "archived-readings") = false ->
      getArchivedReadings w = (Returned ∅, after w [Sleep MOCK_LATENCY]))
  /\ (stored storageKey ([] : list SavedDiaryEntry) w = None ->
      getDiaryEntries storageKey w = (Thrown SyntaxError, w))
  /\ (stored storageKey ([] : list SavedPlanEntry) w = None ->
      getMissionPlans storageKey w = (Thrown SyntaxError, w))
  /\ (stored "meditation-status" (∅ : MeditationRecord) w = None ->
      getMeditationStatus w = (Thrown SyntaxError, w))
  /\ (stored "archived-readings" (∅ : ArchivedReadings) w = None ->
      getArchivedReadings w = (Thrown SyntaxError, w)).
Proof.
  assert (Hget : forall A (J : JSON A) key (fallback : A),
             (let* x := read_or key fallback in simulateNetworkRequest x) w
             = getter_outcome w (stored key fallback w)).
  { intros A J key fallback. unfold bind at 1.
    rewrite ReadingArchiveFacts.read_or_stored_value.
    by destruct (stored key fallback w). }
  assert (Hmiss : forall A (J : JSON A) key (fallback : A),
             truthy_opt (localStorage w !! key) = false ->
             stored key fallback w = Some fallback).
  { intros A J key fallback Hk. unfold stored.
    destruct (localStorage w !! key) as [data|]; [|done].
    cbn [truthy_opt] in Hk. by rewrite Hk. }
  unfold getDiaryEntries, getMissionPlans, getMeditationStatus, getArchivedReadings.
  rewrite !Hget.
  split_and!; intros H; rewrite ?(Hmiss _ _ _ _ H), ?H; done.
Qed.

End Facts.

Lemma sync_round_trip_witness :
  exists w1,
    saveMeditationStatus (JSON_status := Codec.countable_JSON MeditationRecord)
      Examples.env_failing {[ 3 := ok ]} Examples.empty_world = (Returned tt, w1)
    /\ getMeditationStatus (JSON_status := Codec.countable_JSON MeditationRecord) w1
       = (Returned {[ 3 := ok ]}, after w1 [Sleep MOCK_LATENCY]).
Proof.
  destruct (sync_round_trip Examples.env_failing
              (JSON_diary := Codec.countable_JSON (list SavedDiaryEntry))
              (JSON_plans := Codec.countable_JSON (list SavedPlanEntry))
              (JSON_status := Codec.countable_JSON MeditationRecord)
              "diary-2024-07-27-saved" [] [] {[ 3 := ok ]} Examples.empty_world)
    as (_ & _ & (w1 & E1 & E2 & _)); [reflexivity|].
  exists w1. split; [exact E1|exact E2].
Defined.

Lemma sync_getters_defaults_witness :
  getMeditationStatus (JSON_status := Codec.countable_JSON MeditationRecord)
    Examples.empty_world
  = (Returned ∅, after Examples.empty_world [Sleep MOCK_LATENCY])
  /\ getArchivedReadings (JSON_archive := Codec.countable_JSON ArchivedReadings)
       MoreExamples.world_with_corrupt_archive
     = (Thrown SyntaxError, MoreExamples.world_with_corrupt_archive).
Proof.
  split.
  - apply (sync_getters_defaults
             (JSON_diary := Codec.countable_JSON (list SavedDiaryEntry))
             (JSON_plans := Codec.countable_JSON (list SavedPlanEntry))
             (JSON_status := Codec.countable_JSON MeditationRecord)
             (JSON_archive := Codec.countable_JSON ArchivedReadings)
             "diary-2024-07-27-saved" Examples.empty_world).
    reflexivity.
  - apply (sync_getters_defaults
             (JSON_diary := Codec.countable_JSON (list SavedDiaryEntry))
             (JSON_plans := Codec.countable_JSON (list SavedPlanEntry))
             (JSON_status := Codec.countable_JSON MeditationRecord)
             (JSON_archive := Codec.countable_JSON ArchivedReadings)
             "diary-2024-07-27-saved" MoreExamples.world_with_corrupt_archive).
    reflexivity.
Defined.

End SyncStoreFacts.

(** ** The diary: saving, drafts and blank entries *)

Module DiaryFacts.
Import Gemini Browser Types SyncService Chain FaithDiary DiaryStore Examples.

Lemma append_inj_l (k a b : string) : k +:+ a = k +:+ b -> a = b.
Proof. induction k as [|c k IH]; [done|]. cbn. intros [= H]. by apply IH. Qed.

Lemma draft_key_ne_saved_key (k : string) : k +:+ "-current" <> k +:+ "-saved".
Proof. intros H. apply append_inj_l in H. discriminate H. Qed.

Section Facts.

Context (env : Env).
Context {JSON_entry : JSON DiaryEntry}.
Context {JSON_diary : JSON (list SavedDiaryEntry)}.
Context (toLocaleTimeString : string -> Z -> string).
Context (storageKey : string) (language : Language).

Lemma useLocalStorage_initial_run w :
  useLocalStorage_initial (storageKey +:+ "-current") emptyEntry w
  = (Returned (stored_draft storageKey w), w).
Proof.
  unfold useLocalStorage_initial, stored_draft, try_catch, bind, getItem, JSON_parse_M.
  destruct (localStorage w !! (storageKey +:+ "-current")) as [item|];
    cbn [truthy_opt template_arg]; [|done].
  destruct (truthy item); [|done]. by destruct (JSON_parse item).
Qed.

Lemma read_saved_run w :
  read_or (storageKey +:+ "-saved") ([] : list SavedDiaryEntry) w
  = (match stored_entries storageKey w with
     | Some entries => Returned entries
     | None => Thrown SyntaxError
     end, w).
Proof.
  unfold read_or, stored_entries, bind, getItem, JSON_parse_M.
  destruct (localStorage w !! (storageKey +:+ "-saved")) as [data|];
    cbn [truthy_opt template_arg]; [|done].
  destruct (truthy data); [|done]. by destruct (JSON_parse data).
Qed.

Lemma mount_run w st :
  mount storageKey (w, st)
  = (Returned tt,
     (w, {| currentEntry := stored_draft storageKey w; savedEntries := [];
            isSyncing := true; isSaved := false;
            fetching :=
              Some match stored_entries storageKey w with
                   | Some entries => Returned entries
                   | None => Thrown SyntaxError
                   end |})).
Proof.
  unfold mount, bind, lift. cbn [fst snd].
  rewrite useLocalStorage_initial_run. cbn [fst snd]. by rewrite read_saved_run.
Qed.

Lemma fetchEntries_settled_run w st r :
  fetching st = Some r ->
  fetchEntries_settled (w, st)
  = (Returned tt,
     (after w [Sleep MOCK_LATENCY],
      {| currentEntry := currentEntry st;
         savedEntries := match r with Returned entries => entries | _ => savedEntries st end;
         isSyncing := false; isSaved := isSaved st; fetching := None |})).
Proof.
  intros Hr. unfold fetchEntries_settled, bind, getState, lift, delay, setState, ret.
  cbn [fst snd]. rewrite Hr. by destruct r.
Qed.

Lemma fetchEntries_settled_idle w st :
  fetching st = None -> fetchEntries_settled (w, st) = (Returned tt, (w, st)).
Proof.
  intros Hr. unfold fetchEntries_settled, bind, getState. cbn [fst snd]. by rewrite Hr.
Qed.

(** The world after [setCurrentEntry (value)]. *)
Lemma setCurrentEntry_run value w st :
  setCurrentEntry env storageKey value (w, st)
  = (Returned tt,
     (if storage_accepts env (localStorage w) (storageKey +:+ "-current") (JSON_stringify value)
      then {| trace := trace w;
              localStorage :=
                <[storageKey +:+ "-current" := JSON_stringify value]> (localStorage w) |}
      else w,
      set_currentEntry value st)).
Proof.
  unfold setCurrentEntry, try_catch, bind, setState, lift, setItem, ret. cbn [fst snd].
  by destruct (storage_accepts env (localStorage w) (storageKey +:+ "-current")
                 (JSON_stringify value)).
Qed.

Lemma stored_entries_draft_written w v t :
  stored_entries storageKey
    {| trace := t; localStorage := <[storageKey +:+ "-current" := v]> (localStorage w) |}
  = stored_entries storageKey w.
Proof.
  unfold stored_entries. cbn [localStorage].
  by rewrite lookup_insert_ne by apply draft_key_ne_saved_key.
Qed.

(** What [handleSave] does with a draft that is not blank. *)
Lemma handleSave_run now w st :
  all_blank (currentEntry st) = false ->
  let newEntries :=
    new_entry toLocaleTimeString language now (currentEntry st) :: savedEntries st in
  let w1 :=
    if storage_accepts env (localStorage w) (storageKey +:+ "-current")
         (JSON_stringify emptyEntry)
    then {| trace := trace w;
            localStorage :=
              <[storageKey +:+ "-current" := JSON_stringify emptyEntry]> (localStorage w) |}
    else w in
  handleSave env toLocaleTimeString storageKey language now (w, st)
  = if storage_accepts env (localStorage w1) (storageKey +:+ "-saved")
         (JSON_stringify newEntries)
    then (Returned tt,
          ({| trace := trace w1 ++ [Sleep MOCK_LATENCY];
              localStorage :=
                <[storageKey +:+ "-saved" := JSON_stringify newEntries]> (localStorage w1) |},
           {| currentEntry := emptyEntry; savedEntries := newEntries;
              isSyncing := isSyncing st; isSaved := true; fetching := fetching st |}))
    else (Returned tt,
          (w1,
           {| currentEntry := emptyEntry; savedEntries := savedEntries st;
              isSyncing := isSyncing st; isSaved := true; fetching := fetching st |})).
Proof.
  intros Hblank newEntries w1.
  unfold handleSave. unfold bind at 1, getState. cbn [fst snd]. rewrite Hblank.
  fold newEntries.
  unfold bind at 1, setState at 1. cbn [fst snd].
  unfold bind at 1. rewrite setCurrentEntry_run. fold w1.
  unfold bind, setState, try_catch, lift, saveDiaryEntries, bind, setItem,
    simulateNetworkRequest, bind, delay, ret.
  cbn [fst snd].
  by destruct (storage_accepts env (localStorage w1) (storageKey +:+ "-saved")
                 (JSON_stringify newEntries)).
Qed.

Context {JSON_diary_laws : JSONLaws (list SavedDiaryEntry)}.

Lemma stored_entries_written m (entries : list SavedDiaryEntry) t :
  stored_entries storageKey
    {| trace := t;
       localStorage := <[storageKey +:+ "-saved" := JSON_stringify entries]> m |}
  = Some entries.
Proof.
  unfold stored_entries. cbn [localStorage]. rewrite lookup_insert_eq.
  by rewrite JSON_truthy, JSON_roundtrip.
Qed.

(** X26. Saving once the saved entries have been loaded keeps them. The
    component mounts, its fetch settles, and the user saves a draft that is
    not blank: whatever entries the storage held, it then holds the new entry
    in front of them, the component shows the same list, and the draft is
    empty again. *)
Theorem save_after_load_keeps_all now w st0 old :
  stored_entries storageKey w = Some old ->
  all_blank (stored_draft storageKey w) = false ->
  (forall s k v, storage_accepts env s k v = true) ->
  let newEntry := new_entry toLocaleTimeString language now (stored_draft storageKey w) in
  exists w' st',
    run env toLocaleTimeString storageKey language [Mount; FetchSettled; HandleSave now] (w, st0)
    = (Returned tt, (w', st'))
    /\ stored_entries storageKey w' = Some (newEntry :: old)
    /\ savedEntries st' = newEntry :: old
    /\ currentEntry st' = emptyEntry
    /\ localStorage w' !! (storageKey +:+ "-current") = Some (JSON_stringify emptyEntry).
Proof.
  intros Hold Hdraft Haccept newEntry.
  cbn [run step]. unfold bind at 1. rewrite mount_run, Hold.
  unfold bind at 1. erewrite fetchEntries_settled_run by reflexivity.
  cbn [currentEntry savedEntries isSaved].
  unfold bind at 1. rewrite handleSave_run by done. cbv zeta.
  rewrite !Haccept. cbn [currentEntry savedEntries localStorage trace]. fold newEntry.
  eexists _, _. split; [done|].
  split; [apply stored_entries_written|]. split; [done|]. split; [done|].
  cbn [localStorage].
  rewrite lookup_insert_ne by (intros H; by apply (draft_key_ne_saved_key storageKey)).
  apply lookup_insert_eq.
Qed.

Lemma no_blank_entry_cons now entry entries :
  all_blank entry = false ->
  no_blank_entry entries ->
  no_blank_entry (new_entry toLocaleTimeString language now entry :: entries).
Proof. intros Hentry Hentries. by constructor. Qed.

Lemma step_keeps_no_blank_entry a ws :
  no_blank_entry_anywhere storageKey ws ->
  exists ws',
    step env toLocaleTimeString storageKey language a ws = (Returned tt, ws')
    /\ no_blank_entry_anywhere storageKey ws'.
Proof.
  destruct ws as [w st]. intros (Hstored & Hshown & Hfetching). cbn [fst snd] in *.
  destruct a as [| |field value|now]; cbn [step].
  - rewrite mount_run. eexists. split; [done|]. split_and!; cbn [fst snd savedEntries fetching].
    + done.
    + constructor.
    + intros entries [= H]. apply Hstored.
      by destruct (stored_entries storageKey w); [injection H as ->|].
  - destruct (fetching st) as [r|] eqn:Hr.
    + rewrite (fetchEntries_settled_run w st r Hr). eexists. split; [done|].
      split_and!; cbn [fst snd savedEntries fetching]; [done| |done].
      destruct r as [entries| |]; [by apply Hfetching|done..].
    + rewrite (fetchEntries_settled_idle w st Hr). exists (w, st). split; [done|].
      split_and!; cbn [fst snd]; [done..|]. by rewrite Hr.
  - unfold handleChange, bind, getState. cbn [fst snd]. rewrite setCurrentEntry_run.
    eexists. split; [done|]. split_and!; cbn [fst snd]; [|done..].
    intros entries. destruct (storage_accepts env _ _ _); [|by apply Hstored].
    rewrite stored_entries_draft_written. by apply Hstored.
  - destruct (all_blank (currentEntry st)) eqn:Hblank.
    + unfold handleSave, bind, getState. cbn [fst snd]. rewrite Hblank.
      eexists. split; [done|]. by split_and!.
    + rewrite (handleSave_run now w st Hblank). cbv zeta.
      set (w1 := if storage_accepts env (localStorage w) (storageKey +:+ "-current")
                      (JSON_stringify emptyEntry)
                 then _ else w).
      assert (Hw1 : stored_entries storageKey w1 = stored_entries storageKey w).
      { unfold w1. destruct (storage_accepts env _ _ _); [|done].
        apply stored_entries_draft_written. }
      destruct (storage_accepts env (localStorage w1) _ _).
      * eexists. split; [done|]. split_and!; cbn [fst snd savedEntries fetching]; [| |done].
        -- intros entries. rewrite stored_entries_written. intros [= <-].
           by apply no_blank_entry_cons.
        -- by apply no_blank_entry_cons.
      * eexists. split; [done|]. split_and!; cbn [fst snd savedEntries fetching]; [|done..].
        intros entries. rewrite Hw1. by apply Hstored.
Qed.

(** X27. The diary never saves a blank entry. When neither the storage nor
    the component holds an entry whose three fields are blank, no sequence of
    mounts, settled fetches, edits and saves makes one appear, whether the
    browser accepts the writes or not; and every such sequence runs to its
    end without throwing. *)
Theorem no_blank_entry_saved actions ws :
  no_blank_entry_anywhere storageKey ws ->
  exists ws',
    run env toLocaleTimeString storageKey language actions ws = (Returned tt, ws')
    /\ no_blank_entry_anywhere storageKey ws'.
Proof.
  revert ws. induction actions as [|a actions IH]; intros ws Hws; cbn [run].
  - by exists ws.
  - destruct (step_keeps_no_blank_entry a ws Hws) as (ws1 & E1 & Hws1).
    destruct (IH ws1 Hws1) as (ws' & E & Hws').
    exists ws'. split; [|done]. by rewrite (bind_Returned _ _ _ _ _ E1).
Qed.

Context {JSON_entry_laws : JSONLaws DiaryEntry}.

(** X28. The draft survives a remount. After [handleChange] has set a
    field and the browser has accepted the write, a component that mounts on
    that storage starts from the edited draft; when the browser has refused
    the write it starts from the draft that the storage held before. *)
Theorem draft_survives_remount field value w st st1 :
  let edited := with_field (currentEntry st) field value in
  exists w' st2,
    run env toLocaleTimeString storageKey language [HandleChange field value] (w, st)
    = (Returned tt, (w', set_currentEntry edited st))
    /\ run env toLocaleTimeString storageKey language [Mount] (w', st1)
       = (Returned tt, (w', st2))
    /\ currentEntry st2
       = if storage_accepts env (localStorage w) (storageKey +:+ "-current")
              (JSON_stringify edited)
         then edited else stored_draft storageKey w.
Proof.
  intros edited. cbn [run step].
  unfold handleChange, bind at 1 2, getState. cbn [fst snd]. fold edited.
  rewrite setCurrentEntry_run. unfold ret.
  eexists _, _. split; [done|].
  unfold bind. rewrite mount_run. split; [done|]. cbn [currentEntry].
  destruct (storage_accepts env (localStorage w) _ _); [|done].
  unfold stored_draft. cbn [localStorage]. rewrite lookup_insert_eq.
  by rewrite JSON_truthy, JSON_roundtrip.
Qed.

End Facts.

Lemma save_after_load_keeps_all_witness :
  exists w' st',
    run (JSON_entry := Codec.countable_JSON DiaryEntry)
      (JSON_diary := Codec.countable_JSON (list SavedDiaryEntry))
      env_failing clock "diary-2024-07-27" en [Mount; FetchSettled; HandleSave 1722070000000]
      (diary_world, unmounted_diary)
    = (Returned tt, (w', st'))
    /\ savedEntries st'
       = [ {| sd_id := 1722070000000; sd_timestamp := "09:30 AM"; sd_content := draft |};
           first_entry ].
Proof.
  destruct (save_after_load_keeps_all env_failing
              (JSON_entry := Codec.countable_JSON DiaryEntry)
              (JSON_diary := Codec.countable_JSON (list SavedDiaryEntry))
              clock "diary-2024-07-27" en 1722070000000 diary_world unmounted_diary
              [first_entry])
    as (w' & st' & E & _ & Hshown & _);
    [vm_compute; reflexivity|vm_compute; reflexivity|reflexivity|].
  exists w', st'. split; [exact E|]. rewrite Hshown. vm_compute. reflexivity.
Defined.

Lemma no_blank_entry_saved_witness :
  exists ws',
    run (JSON_entry := Codec.countable_JSON DiaryEntry)
      (JSON_diary := Codec.countable_JSON (list SavedDiaryEntry))
      env_failing clock "diary-2024-07-27" en
      [Mount; HandleSave 1722070000000; FetchSettled; HandleSave 1722070000001]
      (empty_world, unmounted_diary)
    = (Returned tt, ws')
    /\ no_blank_entry_anywhere (JSON_diary := Codec.countable_JSON (list SavedDiaryEntry))
         "diary-2024-07-27" ws'.
Proof.
  apply (no_blank_entry_saved env_failing
           (JSON_entry := Codec.countable_JSON DiaryEntry)
           (JSON_diary := Codec.countable_JSON (list SavedDiaryEntry))
           clock "diary-2024-07-27" en).
  split_and!.
  - intros entries [= <-]. constructor.
  - constructor.
  - intros entries [=].
Defined.

(** An edit of the resolution, on a browser that accepts the write. *)
Lemma draft_survives_remount_witness :
  exists w' st2,
    run (JSON_entry := Codec.countable_JSON DiaryEntry)
      (JSON_diary := Codec.countable_JSON (list SavedDiaryEntry))
      env_failing clock "diary-2024-07-27" en [HandleChange Resolve "call my sister"]
      (empty_world, unmounted_diary)
    = (Returned tt,
       (w', set_currentEntry (with_field emptyEntry Resolve "call my sister") unmounted_diary))
    /\ run (JSON_entry := Codec.countable_JSON DiaryEntry)
         (JSON_diary := Codec.countable_JSON (list SavedDiaryEntry))
         env_failing clock "diary-2024-07-27" en [Mount] (w', unmounted_diary)
       = (Returned tt, (w', st2))
    /\ currentEntry st2 = with_field emptyEntry Resolve "call my sister".
Proof.
  apply (draft_survives_remount env_failing
           (JSON_entry := Codec.countable_JSON DiaryEntry)
           (JSON_diary := Codec.countable_JSON (list SavedDiaryEntry))
           clock "diary-2024-07-27" en Resolve "call my sister" empty_world
           unmounted_diary unmounted_diary).
Defined.

(** A draft of no-break and ideographic spaces is blank for [handleSave],
    which saves nothing. *)
Example blank_draft_is_not_saved :
  let final :=
    snd (run (JSON_entry := Codec.countable_JSON DiaryEntry)
           (JSON_diary := Codec.countable_JSON (list SavedDiaryEntry))
           env_failing clock "diary-2024-07-27" en
           [Mount; FetchSettled;
            HandleChange Repentance MoreExamples.no_break_space;
            HandleChange Resolve (MoreExamples.ideographic_space +:+ " ");
            HandleSave 1722070000000]
           (empty_world, unmounted_diary)) in
  all_blank MoreExamples.blank_draft = true
  /\ currentEntry (snd final) = MoreExamples.blank_draft
  /\ savedEntries (snd final) = []
  /\ stored_entries (JSON_diary := Codec.countable_JSON (list SavedDiaryEntry))
       "diary-2024-07-27" (fst final) = Some [].
Proof. vm_compute. done. Qed.

End DiaryFacts.

(** ** The day of the schedule and the calendar *)

Module CalendarFacts.
Import Constants Schedule Calendar.

Lemma readingOfDay_reading_at d language :
  readingOfDay d language = reading_at ((d * 2) mod 87) language.
Proof.
  unfold readingOfDay, reading_at.
  change (Z.of_nat (length readingPlan)) with 87. change totalChapters with 87.
  assert (H : 0 <= (d * 2) mod 87 < 87) by (apply Z.mod_pos_bound; lia).
  rewrite (Z.rem_mod_nonneg ((d * 2) mod 87 + 1) 87) by lia.
  rewrite Z.add_mod_idemp_l by lia.
  assert (H' : 0 <= (d * 2 + 1) mod 87 < 87) by (apply Z.mod_pos_bound; lia).
  unfold array_get.
  destruct (Z.ltb_spec ((d * 2) mod 87) 0); [lia|].
  destruct (Z.ltb_spec ((d * 2 + 1) mod 87) 0); [lia|]. done.
Qed.

(** The reading of the code is the one that the specification describes,
    for the number of days that the code counts. *)
Lemma getDailyReading_readingOfDay makeLocalDate setHours0 date language :
  getDailyReading makeLocalDate setHours0 date language
  = readingOfDay (elapsedDays makeLocalDate setHours0 date) language.
Proof. by rewrite ScheduleFacts.getDailyReading_reading_at, readingOfDay_reading_at. Qed.

Lemma readingOfDay_next d language :
  readingOfDay (d - 1) language <> readingOfDay d language.
Proof.
  rewrite !readingOfDay_reading_at. intros E.
  apply ScheduleFacts.reading_at_inj in E; [|apply Z.mod_pos_bound; lia..].
  apply ScheduleFacts.mod_87_double in E.
  replace (d - 1 - d) with (-1) in E by lia. discriminate E.
Qed.

Lemma readingOfDay_Some d language : is_Some (readingOfDay d language).
Proof.
  rewrite readingOfDay_reading_at.
  assert (H : 0 <= (d * 2) mod 87 < 87) by (apply Z.mod_pos_bound; lia).
  pose proof (ScheduleFacts.forallb_seqZ
                (fun i => bool_decide (is_Some (reading_at i language))) 87 _
                ltac:(destruct language; vm_compute; reflexivity) H) as Hi.
  by apply bool_decide_eq_true in Hi.
Qed.

(** In a zone at a fixed offset the code counts the days of the calendar. *)
Lemma elapsedDays_fixed offset date y m d :
  fixed_localDay offset date = days_from_civil y m d ->
  elapsedDays (fixed_makeLocalDate offset) (fixed_setHours0 offset) date
  = calendarDaysSinceStart y m d.
Proof.
  intros Hday. unfold elapsedDays, SCHEDULE_START_DATE, calendarDaysSinceStart.
  unfold fixed_setHours0 at 1 2. rewrite Hday.
  unfold fixed_localDay, fixed_makeLocalDate.
  replace (days_from_civil 2024 6 27 * oneDay - offset + offset)
    with (days_from_civil 2024 6 27 * oneDay) by lia.
  rewrite Z.div_mul by done.
  replace (days_from_civil y m d * oneDay - offset - (days_from_civil 2024 6 27 * oneDay - offset))
    with ((days_from_civil y m d - days_from_civil 2024 6 27) * oneDay) by lia.
  by rewrite Z.div_mul.
Qed.

Lemma sydney_start :
  SCHEDULE_START_DATE sydney_makeLocalDate sydney_setHours0
  = days_from_civil 2024 6 27 * oneDay - 10 * oneHour.
Proof. reflexivity. Qed.

Lemma sydney_midnight_summer localDay :
  days_from_civil 2024 9 7 <= localDay <= days_from_civil 2025 3 6 ->
  sydney_midnight localDay = localDay * oneDay - 11 * oneHour.
Proof.
  change (days_from_civil 2024 9 7) with 20003. change (days_from_civil 2025 3 6) with 20184.
  intros H. unfold sydney_midnight, sydney_offset.
  change sydney_dst_start with 1728144000000. change sydney_dst_end with 1743868800000.
  change oneDay with 86400000. change oneHour with 3600000.
  destruct (Z.leb_spec 1728144000000 (localDay * 86400000 - 11 * 3600000)); [|lia].
  destruct (Z.ltb_spec (localDay * 86400000 - 11 * 3600000) 1743868800000); [|lia].
  reflexivity.
Qed.

(** In Sydney, on the days of the summer time, the code counts one day
    less than the calendar. *)
Lemma elapsedDays_sydney_summer date y m d :
  sydney_localDay date = days_from_civil y m d ->
  days_from_civil 2024 9 7 <= days_from_civil y m d <= days_from_civil 2025 3 6 ->
  elapsedDays sydney_makeLocalDate sydney_setHours0 date = calendarDaysSinceStart y m d - 1.
Proof.
  intros Hday Hrange. unfold elapsedDays. rewrite sydney_start.
  unfold sydney_setHours0. rewrite Hday, sydney_midnight_summer by done.
  unfold calendarDaysSinceStart.
  revert Hrange. generalize (days_from_civil y m d). intros n.
  change (days_from_civil 2024 9 7) with 20003. change (days_from_civil 2025 3 6) with 20184.
  change (days_from_civil 2024 6 27) with 19931.
  change oneDay with 86400000. change oneHour with 3600000. intros Hrange.
  assert ((n * 86400000 - 11 * 3600000 - (19931 * 86400000 - 10 * 3600000)) / 86400000
          = n - 19931 - 1) as -> by (Z.div_mod_to_equations; lia).
  lia.
Qed.

(** C3. [getDailyReading] is to return the items [(d * 2) mod N] and
    [(d * 2 + 1) mod N] of the reading plan, [d] being the number of whole
    local days since July 27, 2024, never below 0. The code takes for [d] the
    quotient by 24 hours of the time between the two local midnights. In a
    zone at a fixed offset from UTC that is the number of days of the
    calendar, and the reading is the one of that number for every date. In
    Sydney, where July 27 is in standard time, every local midnight of the
    summer time comes 23 hours after a whole number of days, so that on each
    day from October 7, 2024 to April 6, 2025 the code counts one day less
    and serves the reading of the day before: at 9:00 on October 7 the
    reading of day 71, Romans 13-14, where the calendar gives day 72, Romans
    15-16; it served the same reading the day before. *)
Theorem getDailyReading_lags_in_summer_time :
  (forall offset date y m d language,
     fixed_localDay offset date = days_from_civil y m d ->
     getDailyReading (fixed_makeLocalDate offset) (fixed_setHours0 offset) date language
     = readingOfDay (calendarDaysSinceStart y m d) language
     /\ is_Some (readingOfDay (calendarDaysSinceStart y m d) language))
  /\ (forall date y m d language,
        sydney_localDay date = days_from_civil y m d ->
        days_from_civil 2024 9 7 <= days_from_civil y m d <= days_from_civil 2025 3 6 ->
        getDailyReading sydney_makeLocalDate sydney_setHours0 date language
        = readingOfDay (calendarDaysSinceStart y m d - 1) language
        /\ readingOfDay (calendarDaysSinceStart y m d - 1) language
           <> readingOfDay (calendarDaysSinceStart y m d) language)
  /\ (let date := days_from_civil 2024 9 6 * oneDay + 22 * oneHour in
      sydney_localDay date = days_from_civil 2024 9 7
      /\ date + sydney_offset date = days_from_civil 2024 9 7 * oneDay + 9 * oneHour
      /\ calendarDaysSinceStart 2024 9 7 = 72
      /\ elapsedDays sydney_makeLocalDate sydney_setHours0 date = 71
      /\ getDailyReading sydney_makeLocalDate sydney_setHours0 date en
         = Some ({| book := "Romans"; chapter := 13 |}, {| book := "Romans"; chapter := 14 |})
      /\ readingOfDay 72 en
         = Some ({| book := "Romans"; chapter := 15 |}, {| book := "Romans"; chapter := 16 |})
      /\ sydney_localDay (date - oneDay) = days_from_civil 2024 9 6
      /\ getDailyReading sydney_makeLocalDate sydney_setHours0 (date - oneDay) en
         = getDailyReading sydney_makeLocalDate sydney_setHours0 date en).
Proof.
  split_and!.
  - intros offset date y m d language Hday. split; [|apply readingOfDay_Some].
    by rewrite getDailyReading_readingOfDay, (elapsedDays_fixed offset date y m d).
  - intros date y m d language Hday Hrange. split.
    + by rewrite getDailyReading_readingOfDay, (elapsedDays_sydney_summer date y m d).
    + apply readingOfDay_next.
  - cbv zeta. split_and!; vm_compute; reflexivity.
Qed.

End CalendarFacts.

(** ** The key of the reading cache *)

Module CacheKeyFacts.
Import Gemini Browser Types SyncService Chain BibleReading Constants Calendar.

Lemma every_day_from_spec count P first day :
  every_day_from count P first = true ->
  first <= day < first + Z.of_nat count -> P day = true.
Proof.
  revert first. induction count as [|count IH]; intros first H Hday; [lia|].
  cbn [every_day_from] in H. apply andb_true_iff in H as [H1 H2].
  destruct (decide (day = first)) as [->|Hne]; [done|].
  apply (IH (first + 1)); [done|lia].
Qed.

Lemma civil_dates_checked :
  every_day_from (Z.to_nat (last_day - first_day + 1)) civil_date_ok first_day = true.
Proof. vm_compute. reflexivity. Qed.

Lemma toISODate_of_day now : toISODate now = toISODate (now / oneDay * oneDay).
Proof. unfold toISODate. by rewrite Z.div_mul. Qed.

Lemma civil_date_checked now :
  in_checked_years now -> civil_date_ok (now / oneDay) = true.
Proof.
  intros [H1 H2].
  apply (every_day_from_spec _ _ _ (now / oneDay) civil_dates_checked).
  revert H1 H2. change first_day with 19723. change last_day with 47481. lia.
Qed.

Lemma pad4_writes y : 2024 <= y <= 2099 -> writes pad4 4 y = true.
Proof.
  intros Hy.
  pose proof (ScheduleFacts.forallb_seqZ (fun i => writes pad4 4 (2024 + i)) 76 (y - 2024)
                ltac:(vm_compute; reflexivity) ltac:(lia)) as H.
  cbv beta in H. by replace (2024 + (y - 2024)) with y in H by lia.
Qed.

Lemma pad2_writes n : 1 <= n <= 31 -> writes pad2 2 n = true.
Proof.
  intros Hn.
  pose proof (ScheduleFacts.forallb_seqZ (fun i => (i =? 0) || writes pad2 2 i) 32 n
                ltac:(vm_compute; reflexivity) ltac:(lia)) as H.
  apply orb_true_iff in H as [H|H]; [lia|done].
Qed.

Lemma days_in_month_le y m : days_in_month y m <= 31.
Proof.
  unfold days_in_month.
  destruct (m =? 2); [by destruct (is_leap_year y)|].
  by destruct ((m =? 4) || (m =? 6) || (m =? 9) || (m =? 11)).
Qed.

(** A date string of four, two and two characters: its length and the
    three parts that [substring] cuts out of it. *)
Lemma ISODate_parts (a b c : string) :
  String.length a = 4%nat -> String.length b = 2%nat -> String.length c = 2%nat ->
  let s := a +:+ "-" +:+ b +:+ "-" +:+ c in
  String.length s = 10%nat
  /\ substring 0 4 s = a /\ substring 5 2 s = b /\ substring 8 2 s = c.
Proof.
  destruct a as [|a1 [|a2 [|a3 [|a4 [|]]]]]; try discriminate.
  destruct b as [|b1 [|b2 [|]]]; try discriminate.
  destruct c as [|c1 [|c2 [|]]]; try discriminate.
  intros _ _ _. split_and!; reflexivity.
Qed.

Lemma civil_date_ok_spec day y m d :
  civil_from_days day = (y, m, d) ->
  civil_date_ok day = true ->
  days_from_civil y (m - 1) d = day
  /\ 2024 <= y <= 2099 /\ 1 <= m <= 12 /\ 1 <= d <= days_in_month y m.
Proof.
  unfold civil_date_ok. intros -> Hok.
  repeat (apply andb_true_iff in Hok as [Hok ?]).
  apply Z.eqb_eq in Hok. split; [done|]. lia.
Qed.

Lemma toISODate_eq now y m d :
  civil_from_days (now / oneDay) = (y, m, d) ->
  toISODate now = pad4 y +:+ "-" +:+ pad2 m +:+ "-" +:+ pad2 d.
Proof. unfold toISODate. by intros ->. Qed.

Lemma day_of_ISODate_eq (a b c : string) :
  String.length a = 4%nat -> String.length b = 2%nat -> String.length c = 2%nat ->
  String.length (a +:+ "-" +:+ b +:+ "-" +:+ c) = 10%nat
  /\ day_of_ISODate (a +:+ "-" +:+ b +:+ "-" +:+ c)
     = days_from_civil (digits_value a) (digits_value b - 1) (digits_value c).
Proof.
  intros Ha Hb Hc. destruct (ISODate_parts a b c Ha Hb Hc) as (Hl & H1 & H2 & H3).
  split; [exact Hl|]. unfold day_of_ISODate. by rewrite H1, H2, H3.
Qed.

Lemma ISODate_facts now :
  in_checked_years now ->
  String.length (toISODate now) = 10%nat
  /\ day_of_ISODate (toISODate now) = now / oneDay
  /\ civil_date_ok (now / oneDay) = true.
Proof.
  intros Hnow. pose proof (civil_date_checked now Hnow) as Hok.
  destruct (civil_from_days (now / oneDay)) as [[y m] d] eqn:Hdate.
  destruct (civil_date_ok_spec _ y m d Hdate Hok) as (Hday & Hy & Hm & Hd).
  pose proof (days_in_month_le y m) as Hle.
  assert (Hd' : 1 <= d <= 31) by lia.
  pose proof (pad4_writes y Hy) as Hwy.
  pose proof (pad2_writes m ltac:(lia)) as Hwm.
  pose proof (pad2_writes d Hd') as Hwd.
  unfold writes in Hwy, Hwm, Hwd.
  apply andb_true_iff in Hwy as [Hy4 Hyv]. apply andb_true_iff in Hwm as [Hm2 Hmv].
  apply andb_true_iff in Hwd as [Hd2 Hdv].
  apply Nat.eqb_eq in Hy4, Hm2, Hd2. apply Z.eqb_eq in Hyv, Hmv, Hdv.
  destruct (day_of_ISODate_eq (pad4 y) (pad2 m) (pad2 d) Hy4 Hm2 Hd2) as [Hl Hv].
  rewrite (toISODate_eq now y m d Hdate).
  split; [exact Hl|]. split; [|exact Hok].
  rewrite Hv, Hyv, Hmv, Hdv. exact Hday.
Qed.

Lemma append_inj_length (a a' b b' : string) :
  String.length a = String.length a' -> a +:+ b = a' +:+ b' -> a = a' /\ b = b'.
Proof.
  revert a'. induction a as [|c a IH]; intros [|c' a'] Hl E; try discriminate Hl.
  - done.
  - change (String c (a +:+ b) = String c' (a' +:+ b')) in E.
    injection E as -> E. injection Hl as Hl.
    destruct (IH a' Hl E) as [-> ->]. done.
Qed.

Lemma cacheKey_inj date date' l l' :
  String.length date = String.length date' ->
  cacheKey date l = cacheKey date' l' -> date = date' /\ l = l'.
Proof.
  intros Hl E. unfold cacheKey in E.
  apply DiaryFacts.append_inj_l in E.
  apply append_inj_length in E as [-> E]; [|done].
  split; [done|]. by destruct l, l'.
Qed.

Lemma pad4_pretty y : 1000 <= y -> pad4 y = pretty y.
Proof.
  intros H. unfold pad4.
  destruct (Z.ltb_spec y 10); [lia|]. destruct (Z.ltb_spec y 100); [lia|].
  destruct (Z.ltb_spec y 1000); [lia|]. done.
Qed.

Section Facts.

Context (env : Env).
Context {JSON_ComprehensiveData : JSON ComprehensiveData}.
Context {JSON_cache : JSON CachedReadingData}.
Context {JSON_cache_laws : JSONLaws CachedReadingData}.

(** C9, as the code has it. The date of the key is the date in UTC of the
    time of the render, as [toISOString] writes it, not the date of the local
    calendar. The key is [reading-cache-], the year, the month and the day of
    that date in four, two and two digits, and the code of the language, with
    hyphens between them, so that two renders have the same key exactly when
    they fall on the same day of UTC and have the same language. When the
    storage holds a cache record under the key, [fetchContent] shows its
    passage, meditation guide, context and intention and makes no call for the
    text of the reading. When it holds nothing there and the generation
    succeeds, the record of the generated passage, guide, context, intention
    and image prompt is stored under the key, and a later load of the same day
    of UTC and language shows them without a call for the text. *)
Theorem fetchContent_cache_by_UTC_date reading l now w st :
  in_checked_years now ->
  let key := cacheKey (storageKeyDate now) l in
  (exists y m d,
      days_from_civil y (m - 1) d = now / oneDay
      /\ 2024 <= y <= 2099 /\ 1 <= m <= 12 /\ 1 <= d <= days_in_month y m
      /\ key = "reading-cache-" +:+ pretty y +:+ "-" +:+ pad2 m +:+ "-" +:+ pad2 d +:+ "-"
               +:+ match l with ko => "ko" | en => "en" end)
  /\ (forall now' l',
        in_checked_years now' ->
        cacheKey (storageKeyDate now') l' = key <-> now' / oneDay = now / oneDay /\ l' = l)
  /\ (forall item d,
        localStorage w !! key = Some item ->
        truthy item = true ->
        JSON_parse item = Some d ->
        exists evs st',
          fetchContent env reading l (storageKeyDate now) (w, st)
          = (Returned tt, (after w evs, st'))
          /\ passage st' = c_passage d
          /\ meditationGuide st' = c_meditationGuide d
          /\ passageContext st' = c_context d
          /\ passageIntention st' = c_intention d
          /\ loadedPassage st' = c_passage d
          /\ isLoading st' = false
          /\ Forall (fun ev => reading_call ev = false) evs)
  /\ (forall response t data,
        truthy_opt (localStorage w !! key) = false ->
        truthy_opt (VITE_GEMINI_API_KEY env) = true ->
        next_outcome env w (reading_request reading l) = Resolved response ->
        text response = Some t ->
        truthy (trim t) = true ->
        JSON_parse t = Some data ->
        (forall s v, storage_accepts env s key v = true) ->
        exists w' st' item,
          fetchContent env reading l (storageKeyDate now) (w, st) = (Returned tt, (w', st'))
          /\ passage st' = cd_passage data
          /\ meditationGuide st' = cd_meditationGuide data
          /\ passageContext st' = cd_context data
          /\ passageIntention st' = cd_intention data
          /\ localStorage w' !! key = Some item
          /\ truthy item = true
          /\ JSON_parse item
             = Some {| c_passage := cd_passage data;
                       c_meditationGuide := cd_meditationGuide data;
                       c_context := cd_context data;
                       c_intention := cd_intention data;
                       c_imagePrompt := cd_imagePrompt data;
                       c_contextImageUrl := None |}
          /\ (forall other, other <> key -> localStorage w' !! other = localStorage w !! other)
          /\ (forall now' reading' w0 st0,
                now' / oneDay = now / oneDay ->
                localStorage w0 = localStorage w' ->
                exists evs st'',
                  fetchContent env reading' l (storageKeyDate now') (w0, st0)
                  = (Returned tt, (after w0 evs, st''))
                  /\ passage st'' = cd_passage data
                  /\ meditationGuide st'' = cd_meditationGuide data
                  /\ passageContext st'' = cd_context data
                  /\ passageIntention st'' = cd_intention data
                  /\ Forall (fun ev => reading_call ev = false) evs)).
Proof.
  intros Hnow key.
  destruct (ISODate_facts now Hnow) as (Hlen & Hday & Hok).
  split_and!.
  - destruct (civil_from_days (now / oneDay)) as [[y m] d] eqn:Hdate.
    destruct (civil_date_ok_spec _ y m d Hdate Hok) as (Hd & Hy & Hm & Hd').
    exists y, m, d. split; [exact Hd|]. split; [exact Hy|]. split; [exact Hm|].
    split; [exact Hd'|].
    unfold key, cacheKey, storageKeyDate. rewrite (toISODate_eq now y m d Hdate).
    rewrite pad4_pretty by lia.
    rewrite !ScheduleFacts.append_assoc_string. by destruct l.
  - intros now' l' Hnow'. destruct (ISODate_facts now' Hnow') as (Hlen' & Hday' & _).
    split.
    + intros E. apply cacheKey_inj in E as [E ->].
      * split; [|done]. unfold storageKeyDate in E. by rewrite <- Hday, <- Hday', E.
      * unfold storageKeyDate. by rewrite Hlen, Hlen'.
    + intros [E ->]. unfold key, storageKeyDate.
      by rewrite (toISODate_of_day now'), (toISODate_of_day now), E.
  - apply (BibleReadingFacts.fetchContent_cache env reading l (storageKeyDate now) w st).
  - intros response t data Hmiss Hkey Ho Htext Ht Hp Haccept.
    destruct (proj2 (BibleReadingFacts.fetchContent_cache env reading l (storageKeyDate now) w st)
                response t data Hmiss Hkey Ho Htext Ht Hp Haccept)
      as (w' & st' & E & Hw' & Hfields).
    assert (Hitem : localStorage w' !! key = Some (JSON_stringify (dataToCache data)))
      by (rewrite Hw'; apply lookup_insert_eq).
    exists w', st', (JSON_stringify (dataToCache data)).
    destruct Hfields as (? & ? & ? & ?).
    split_and!; try done.
    + apply JSON_truthy.
    + apply JSON_roundtrip.
    + intros other Hother. rewrite Hw'. by apply lookup_insert_ne.
    + intros now' reading' w0 st0 Hsame Hw0.
      assert (Hdate : storageKeyDate now' = storageKeyDate now).
      { unfold storageKeyDate.
        by rewrite (toISODate_of_day now'), (toISODate_of_day now), Hsame. }
      rewrite Hdate.
      destruct (proj1 (BibleReadingFacts.fetchContent_cache env reading' l (storageKeyDate now)
                         w0 st0)
                  (JSON_stringify (dataToCache data)) (dataToCache data))
        as (evs & st'' & E' & ? & ? & ? & ? & _ & _ & Hevs).
      * by rewrite Hw0.
      * apply JSON_truthy.
      * apply JSON_roundtrip.
      * exists evs, st''. split_and!; done.
Qed.

End Facts.

Import Examples.

(** A render at 8:46 UTC on July 27, 2024, in English: the key, and a cached
    record shown without a call for the reading. *)
Lemma fetchContent_cache_by_UTC_date_witness :
  cacheKey (storageKeyDate 1722070000000) en = "reading-cache-2024-07-27-en"
  /\ exists evs st',
       fetchContent (JSON_ComprehensiveData := Codec.countable_JSON ComprehensiveData)
         (JSON_cache := Codec.countable_JSON CachedReadingData)
         (env_working "unused") galatians_1_2 en (storageKeyDate 1722070000000)
         (world_with_cache cached_with_prompt, initial_state)
       = (Returned tt, (after (world_with_cache cached_with_prompt) evs, st'))
       /\ passage st' = "Paul, an apostle"
       /\ Forall (fun ev => reading_call ev = false) evs.
Proof.
  assert (Hnow : in_checked_years 1722070000000) by (vm_compute; split; discriminate).
  assert (Hkey : cacheKey (storageKeyDate 1722070000000) en = cacheKey "2024-07-27" en)
    by (vm_compute; reflexivity).
  split; [vm_compute; reflexivity|].
  destruct (BibleReadingFacts.cached_item_parses cached_with_prompt) as (Hk & Ht & Hp).
  rewrite <- Hkey in Hk.
  destruct (proj1 (proj2 (proj2 (fetchContent_cache_by_UTC_date (env_working "unused")
                                   (JSON_ComprehensiveData := Codec.countable_JSON ComprehensiveData)
                                   (JSON_cache := Codec.countable_JSON CachedReadingData)
                                   galatians_1_2 en 1722070000000
                                   (world_with_cache cached_with_prompt) initial_state Hnow)))
              _ cached_with_prompt Hk Ht Hp)
    as (evs & st' & E & Hpassage & _ & _ & _ & _ & _ & Hevs).
  exists evs, st'. split_and!; done.
Defined.

(** In Sydney the key is not made of the date of the calendar on the wall.
    At 8:00 and at 12:00 on July 29, 2024 the keys differ, since in UTC the
    first is still on July 28: the text generated and cached at 8:00 is asked
    for again at 12:00 of the same day. And the key at 8:00 on July 29 is the
    key of 20:00 on July 28, a day with another reading. *)
Lemma cache_key_is_not_of_the_local_date :
  let morning := days_from_civil 2024 6 28 * oneDay + 22 * oneHour in
  let noon := days_from_civil 2024 6 29 * oneDay + 2 * oneHour in
  let evening_before := days_from_civil 2024 6 28 * oneDay + 10 * oneHour in
  let env :=
    env_working (@JSON_stringify _ (Codec.countable_JSON ComprehensiveData) generated_data) in
  let first :=
    snd (fetchContent (JSON_ComprehensiveData := Codec.countable_JSON ComprehensiveData)
           (JSON_cache := Codec.countable_JSON CachedReadingData)
           env galatians_1_2 en (storageKeyDate morning) (empty_world, initial_state)) in
  let second :=
    snd (fetchContent (JSON_ComprehensiveData := Codec.countable_JSON ComprehensiveData)
           (JSON_cache := Codec.countable_JSON CachedReadingData)
           env galatians_1_2 en (storageKeyDate noon)
           ({| trace := []; localStorage := localStorage (fst first) |}, initial_state)) in
  (morning + sydney_offset morning = days_from_civil 2024 6 29 * oneDay + 8 * oneHour
   /\ noon + sydney_offset noon = days_from_civil 2024 6 29 * oneDay + 12 * oneHour
   /\ sydney_localDay morning = sydney_localDay noon)
  /\ cacheKey (storageKeyDate morning) en = "reading-cache-2024-07-28-en"
  /\ cacheKey (storageKeyDate noon) en = "reading-cache-2024-07-29-en"
  /\ (localStorage (fst first) !! cacheKey (storageKeyDate morning) en
      = Some (@JSON_stringify _ (Codec.countable_JSON CachedReadingData) cached_with_prompt)
      /\ List.map reading_call (trace (fst second)) = [true; false])
  /\ (evening_before + sydney_offset evening_before
      = days_from_civil 2024 6 28 * oneDay + 20 * oneHour
      /\ cacheKey (storageKeyDate evening_before) en = cacheKey (storageKeyDate morning) en
      /\ getDailyReading sydney_makeLocalDate sydney_setHours0 evening_before en
         = Some ({| book := "Galatians"; chapter := 3 |}, {| book := "Galatians"; chapter := 4 |})
      /\ getDailyReading sydney_makeLocalDate sydney_setHours0 morning en
         = Some ({| book := "Galatians"; chapter := 5 |}, {| book := "Galatians"; chapter := 6 |})).
Proof. cbv zeta. split_and!; vm_compute; reflexivity. Qed.

End CacheKeyFacts.
